(** * BitShield procurement-risk pipeline: a shallow embedding

    The development follows the Python sources:

    - [src/utils/price_analyzer.py]      -> Module [PriceAnalyzer]
    - [src/utils/semantic_analyzer.py]   -> Module [SemanticAnalyzer]
    - [src/utils/stylometry.py]          -> Module [StylometryAnalyzer]
    - [src/utils/relationship_graph.py]  -> Module [RelationshipAnalyzer]
    - [src/utils/document_processor.py]  -> Module [DocumentProcessor]
    - [src/state/agent_state.py], [src/agents/nodes.py],
      [src/agents/workflow.py]           -> Module [Agent]

    Conventions.
    - A Python [float] is an exact rational ([Q]); two floats are the same
      value when they are [Qeq].  The only irrational operation of the
      sources, [np.sqrt] inside [np.std], is a field of [Providers].
    - A Python [dict] is an association list in insertion order; assigning
      to a present key keeps its position ([dict_set]).
    - A [try: ... except Exception as e:] block is a computation in the
      error monad [Exc]; the [except] arm is the match on [Raise].
    - Everything that lives outside the repository (pdfplumber, the
      sentence-transformer model, spaCy, scikit-learn, networkx's community
      and clique algorithms, the chat model) is a field of [Providers]. *)

From Stdlib Require Import List String Ascii Bool Arith Lia ZArith QArith
  Qround Qabs Qminmax Lqa Permutation Sorted DecimalString.
Import ListNotations.
Open Scope string_scope.
Open Scope list_scope.
Open Scope Q_scope.

(* ================================================================== *)
(** ** Python values                                                   *)
(* ================================================================== *)

Module Py.

(** Outcome of a computation that may raise: [Raise] carries [str(e)]. *)
Inductive Exc (A : Type) : Type :=
| Ok (a : A)
| Raise (msg : string).
Arguments Ok {A} a.
Arguments Raise {A} msg.

Definition bind {A B} (c : Exc A) (k : A -> Exc B) : Exc B :=
  match c with
  | Ok a => k a
  | Raise m => Raise m
  end.

(** [for x in l: s = body(s, x)], stopping at the first exception. *)
Fixpoint for_each {A S : Type} (l : list A) (body : S -> A -> Exc S)
  (s : S) : Exc S :=
  match l with
  | [] => Ok s
  | x :: l' => bind (body s x) (for_each l' body)
  end.

(** [range(a, b)] *)
Definition range (a b : nat) : list nat := seq a (b - a).

(** *** Floats

    A float is held as the rational it denotes, and the arithmetic is the
    exact one: the rounding of a float operation (a relative [2^-53]) is
    not modelled.  Comparisons of input values, [max], [min] and sorting
    are those of the floats.  A sum, a quotient or a mean here can differ
    from the float result in the last place, so the properties below are
    stated on what rounding preserves, or with a slack that covers it. *)

Definition Qlt_bool (a b : Q) : bool := negb (Qle_bool b a).

(** [a / b] on Python floats raises on a zero divisor. *)
Definition float_div (a b : Q) : Exc Q :=
  if Qeq_bool b 0 then Raise "float division by zero" else Ok (a / b).

(** [a / b] on Python ints (true division) raises on a zero divisor. *)
Definition int_div (a b : nat) : Exc Q :=
  match b with
  | O => Raise "division by zero"
  | _ => Ok (inject_Z (Z.of_nat a) / inject_Z (Z.of_nat b))
  end.

(** [a % b] on Python floats, for a positive modulus. *)
Definition float_mod (a b : Q) : Q := a - b * inject_Z (Qfloor (a / b)).

(** [max(a, b)] and [min(a, b)]: the first argument wins ties. *)
Definition max2 (a b : Q) : Q := if Qlt_bool a b then b else a.
Definition min2 (a b : Q) : Q := if Qlt_bool b a then b else a.

(** [max(l)] for a non-empty list, [d] standing for the empty case that
    the callers guard. *)
Definition max_list (l : list Q) (d : Q) : Q :=
  match l with
  | [] => d
  | x :: l' => fold_left max2 l' x
  end.

Definition sum_list (l : list Q) : Q := fold_left Qplus l 0.

Definition len {A} (l : list A) : Q := inject_Z (Z.of_nat (List.length l)).

(** *** Strings *)

Definition str_of_nat (n : nat) : string :=
  NilZero.string_of_uint (Nat.to_uint n).

Definition colon : ascii := ":"%char.

(** [len(s)] of a [str].  A string is held here as its UTF-8 bytes;
    [len] counts characters, that is the bytes that do not continue a
    character ([10xxxxxx]). *)
Definition is_continuation (c : ascii) : bool :=
  let n := nat_of_ascii c in
  (128 <=? n)%nat && (n <? 192)%nat.

Definition str_len (s : string) : nat :=
  List.length (filter (fun c => negb (is_continuation c))
                 (list_ascii_of_string s)).

(** [s.split(":")[0]] *)
Fixpoint split_colon_head (s : string) : string :=
  match s with
  | EmptyString => EmptyString
  | String c s' =>
      if Ascii.eqb c colon then EmptyString
      else String c (split_colon_head s')
  end.

(** [sep.join(l)] *)
Fixpoint join (sep : string) (l : list string) : string :=
  match l with
  | [] => ""
  | [x] => x
  | x :: l' => String.append x (String.append sep (join sep l'))
  end.

(** *** Dictionaries (insertion ordered) *)

Definition dict (V : Type) : Type := list (string * V).

Fixpoint dict_get {V} (d : dict V) (k : string) : option V :=
  match d with
  | [] => None
  | (k', v) :: d' => if String.eqb k' k then Some v else dict_get d' k
  end.

(** [d[k] = v] *)
Fixpoint dict_set {V} (d : dict V) (k : string) (v : V) : dict V :=
  match d with
  | [] => [(k, v)]
  | (k', v') :: d' =>
      if String.eqb k' k then (k', v) :: d' else (k', v') :: dict_set d' k v
  end.

Definition dict_keys {V} (d : dict V) : list string := map fst d.
Definition dict_values {V} (d : dict V) : list V := map snd d.

(** *** Stable sorting by a float key *)

Section Sorting.
Context {A : Type}.
Variable key : A -> Q.

(** ascending: [x], which came earlier in the input than everything in
    [l], goes before the first element whose key is not smaller *)
Fixpoint insert_asc (x : A) (l : list A) : list A :=
  match l with
  | [] => [x]
  | y :: l' =>
      if Qle_bool (key x) (key y) then x :: y :: l'
      else y :: insert_asc x l'
  end.

(** descending ([reverse=True]): before the first element whose key is
    not larger *)
Fixpoint insert_desc (x : A) (l : list A) : list A :=
  match l with
  | [] => [x]
  | y :: l' =>
      if Qle_bool (key y) (key x) then x :: y :: l'
      else y :: insert_desc x l'
  end.

(** Equal keys keep their input order (a stable sort). *)
Definition sort_asc (l : list A) : list A := fold_right insert_asc [] l.
Definition sort_desc (l : list A) : list A := fold_right insert_desc [] l.
End Sorting.

End Py.

Import Py.
Notation "x <- c ;; k" := (bind c (fun x => k))
  (at level 61, c at next level, right associativity).

(* ================================================================== *)
(** ** src/utils/price_analyzer.py                                     *)
(* ================================================================== *)

Module PriceAnalyzer.

(** The statistics dictionary of [detect_outliers]. *)
Record OutlierStats : Type := {
  mean : Q;
  median : Q;
  std_dev : Q;
  coefficient_variation : Q;
  z_score_outliers : list bool;
  iqr_outliers : list bool;
  price_range_min : Q;
  price_range_max : Q;
  price_range_range : Q
}.

(** [detect_outliers] returns either [{"error": ...}] or the statistics. *)
Inductive OutlierResults : Type :=
| OutlierError (error : string)
| OutlierOk (stats : OutlierStats).

(** [outlier_results.get("coefficient_variation", 0)] *)
Definition get_coefficient_variation (r : OutlierResults) : Q :=
  match r with
  | OutlierOk s => coefficient_variation s
  | OutlierError _ => 0
  end.

Record SuspiciousBid : Type := {
  bidder1 : string;
  bidder2 : string;
  price1 : Q;
  price2 : Q;
  difference_pct : Q;
  pattern : string
}.

(** [lowest_bid] and [highest_bid] are absent from the early return. *)
Record CoverResults : Type := {
  lowest_bid : option Q;
  highest_bid : option Q;
  suspicious_patterns : list SuspiciousBid
}.

Record PriceResults : Type := {
  outlier_analysis : OutlierResults;
  cover_bidding_analysis : CoverResults;
  round_number_ratio : Q;
  risk_score : Q;
  risk_indicators : list string;
  severity : string
}.

Section Numpy.

(** [np.sqrt], as used by [np.std]. *)
Variable np_sqrt : Q -> Q.

(** [np.mean], without the rounding of the float sum: the float mean
    can leave the interval of the values by one place. *)
Definition np_mean (a : list Q) : Q := sum_list a / len a.

Definition np_std (a : list Q) : Q :=
  let m := np_mean a in
  np_sqrt (np_mean (map (fun x => (x - m) * (x - m)) a)).

Definition np_sort (a : list Q) : list Q := sort_asc (fun x => x) a.

(** [np.argsort]: the indices that sort [a].  Equal values are listed
    here in input order; numpy promises no order among them, and that
    order only decides which of two bidders with the same bid is named
    first in a pattern. *)
Definition np_argsort (a : list Q) : list nat :=
  sort_asc (fun i => nth i a 0) (seq 0 (List.length a)).

(** [np.percentile(a, q)], linear interpolation between the two order
    statistics around the position [(n - 1) * q / 100]. *)
Definition np_percentile (a : list Q) (q : Q) : Q :=
  let s := np_sort a in
  let pos := (len a - 1) * (q / 100) in
  let lo := Z.to_nat (Qfloor pos) in
  let hi := Nat.min (lo + 1) (List.length a - 1) in
  let g := pos - inject_Z (Qfloor pos) in
  nth lo s 0 + (nth hi s 0 - nth lo s 0) * g.

Definition np_median (a : list Q) : Q := np_percentile a 50.

(** [np.abs(stats.zscore(a)) > threshold], elementwise.  With a zero
    deviation numpy divides without raising: [0/0] is [nan], which is not
    above the threshold, and [x/0] for [x <> 0] is infinite, which is. *)
Definition zscore_above (a : list Q) (threshold : Q) : list bool :=
  let m := np_mean a in
  let s := np_std a in
  map (fun x =>
         if Qeq_bool s 0 then negb (Qeq_bool (x - m) 0)
         else Qlt_bool threshold (Qabs ((x - m) / s))) a.

Definition detect_outliers (outlier_threshold : Q) (prices : list Q)
  : OutlierResults :=
  if (List.length prices <? 3)%nat then
    OutlierError "Need at least 3 bids for statistical analysis"
  else
    let mean_price := np_mean prices in
    let std_price := np_std prices in
    let median_price := np_median prices in
    let outliers := zscore_above prices outlier_threshold in
    let q1 := np_percentile prices 25 in
    let q3 := np_percentile prices 75 in
    let iqr := q3 - q1 in
    let lower_bound := q1 - 1.5 * iqr in
    let upper_bound := q3 + 1.5 * iqr in
    let iqr_out :=
      map (fun p => Qlt_bool p lower_bound || Qlt_bool upper_bound p) prices in
    let sorted := np_sort prices in
    let lo := nth 0 sorted 0 in
    let hi := last sorted 0 in
    OutlierOk {|
      mean := mean_price;
      median := median_price;
      std_dev := std_price;
      coefficient_variation :=
        if Qlt_bool 0 mean_price then std_price / mean_price else 0;
      z_score_outliers := outliers;
      iqr_outliers := iqr_out;
      price_range_min := lo;
      price_range_max := hi;
      price_range_range := hi - lo
    |}.

(** The inner loop of [detect_cover_bidding]: [for j in range(i+1, n)].
    The quotient is the exact one; the float quotient of the code can
    fall on the other side of the margin when the exact one is within a
    rounding of it. *)
Definition cover_inner (sorted_prices : list Q) (sorted_bidders : list string)
  (margin_threshold : Q) (i : nat) (acc : list SuspiciousBid) (j : nat)
  : Exc (list SuspiciousBid) :=
  let pi := nth i sorted_prices 0 in
  let pj := nth j sorted_prices 0 in
  relative_diff <- float_div (Qabs (pj - pi)) pi ;;
  if Qlt_bool relative_diff margin_threshold then
    Ok (acc ++ [ {| bidder1 := nth i sorted_bidders "";
                    bidder2 := nth j sorted_bidders "";
                    price1 := pi;
                    price2 := pj;
                    difference_pct := relative_diff * 100;
                    pattern := "clustered_high_bids" |} ])
  else Ok acc.

(** The outer loop: [for i in range(1, n)]. *)
Definition cover_outer (sorted_prices : list Q) (sorted_bidders : list string)
  (margin_threshold lowest : Q) (acc : list SuspiciousBid) (i : nat)
  : Exc (list SuspiciousBid) :=
  let n := List.length sorted_prices in
  price_gap <- float_div (nth i sorted_prices 0 - lowest) lowest ;;
  if Qlt_bool 0.15 price_gap then
    for_each (range (i + 1) n)
      (cover_inner sorted_prices sorted_bidders margin_threshold i) acc
  else Ok acc.

Definition detect_cover_bidding (bidder_prices : dict Q)
  (margin_threshold : Q) : Exc CoverResults :=
  let prices := dict_values bidder_prices in
  let bidder_ids := dict_keys bidder_prices in
  if (List.length prices <? 2)%nat then
    Ok {| lowest_bid := None; highest_bid := None;
          suspicious_patterns := [] |}
  else
    let sorted_indices := np_argsort prices in
    let sorted_prices := map (fun i => nth i prices 0) sorted_indices in
    let sorted_bidders := map (fun i => nth i bidder_ids "") sorted_indices in
    let lowest := nth 0 sorted_prices 0 in
    suspicious_bids <-
      for_each (range 1 (List.length sorted_prices))
        (cover_outer sorted_prices sorted_bidders margin_threshold lowest) [] ;;
    Ok {| lowest_bid := Some lowest;
          highest_bid := Some (last sorted_prices 0);
          suspicious_patterns := suspicious_bids |}.

(** [p % 1000 == 0 or p % 500 == 0] *)
Definition is_round_number (p : Q) : bool :=
  Qeq_bool (float_mod p 1000) 0 || Qeq_bool (float_mod p 500) 0.

Definition severity_of (risk_score : Q) : string :=
  if Qlt_bool 0.7 risk_score then "high"
  else if Qlt_bool 0.4 risk_score then "medium"
  else "low".

Definition analyze_price_patterns (outlier_threshold : Q)
  (bidder_prices : dict Q) : Exc PriceResults :=
  let prices := dict_values bidder_prices in
  let outlier_results := detect_outliers outlier_threshold prices in
  cover_bid_results <- detect_cover_bidding bidder_prices 0.05 ;;
  let round_numbers := List.length (filter is_round_number prices) in
  let round_ratio :=
    match prices with
    | [] => 0
    | _ => inject_Z (Z.of_nat round_numbers) / len prices
    end in
  let indicators0 : list string := [] in
  let score0 := 0 in
  let '(indicators1, score1) :=
    if Qlt_bool (get_coefficient_variation outlier_results) 0.1
    then (indicators0 ++ ["Low price variation (potential coordination)"],
          score0 + 0.3)
    else (indicators0, score0) in
  let '(indicators2, score2) :=
    match suspicious_patterns cover_bid_results with
    | _ :: _ => (indicators1 ++ ["Clustered high bids detected"],
                 score1 + 0.4)
    | [] => (indicators1, score1)
    end in
  let '(indicators3, score3) :=
    if Qlt_bool 0.5 round_ratio
    then (indicators2 ++ ["High proportion of round number bids"],
          score2 + 0.2)
    else (indicators2, score2) in
  let score := min2 score3 1.0 in
  Ok {| outlier_analysis := outlier_results;
        cover_bidding_analysis := cover_bid_results;
        round_number_ratio := round_ratio;
        risk_score := score;
        risk_indicators := indicators3;
        severity := severity_of score |}.

End Numpy.

End PriceAnalyzer.

(* ================================================================== *)
(** ** src/utils/document_processor.py                                 *)
(* ================================================================== *)

Module DocumentProcessor.

Section Pdf.

(** [pdfplumber.open(path).pages], each page with its [extract_text()]
    ([None] for a page without text); opening or reading may raise. *)
Variable pdf_pages : string -> Exc (list (option string)).

(** [Path(doc_path).suffix.lower()] *)
Variable path_suffix_lower : string -> string.

Definition nl : string := String (ascii_of_nat 10) EmptyString.

(** [if page_text: text_parts.append(page_text)] *)
Definition page_texts (pages : list (option string)) : list string :=
  flat_map (fun p => match p with
                     | Some (String c t) => [String c t]
                     | _ => []
                     end) pages.

(** Every exception is caught and turned into the empty text. *)
Definition extract_text_from_pdf (pdf_path : string) : string :=
  match pdf_pages pdf_path with
  | Ok pages => join (String.append nl nl) (page_texts pages)
  | Raise _ => ""
  end.

Definition process_tender_documents (document_paths : list string)
  : Exc (dict string) :=
  Ok (fold_left
        (fun extracted_texts doc_path =>
           if String.eqb (path_suffix_lower doc_path) ".pdf"
           then dict_set extracted_texts doc_path
                  (extract_text_from_pdf doc_path)
           else dict_set extracted_texts doc_path "")
        document_paths []).

End Pdf.

End DocumentProcessor.

(* ================================================================== *)
(** ** src/utils/semantic_analyzer.py                                  *)
(* ================================================================== *)

Module SemanticAnalyzer.

Record CrossPair : Type := {
  bidder1 : string;
  bidder2 : string;
  document1 : string;
  document2 : string;
  similarity : Q
}.

Record SimilarityResults : Type := {
  total_comparisons : nat;
  cross_bidder_similarities : list CrossPair;
  high_risk_pairs : list CrossPair
}.

(** [for i in range(n): for j in range(i + 1, n)], in loop order. *)
Definition index_pairs (n : nat) : list (nat * nat) :=
  flat_map (fun i => map (fun j => (i, j)) (range (i + 1) n)) (range 0 n).

Section Model.

(** [util.cos_sim(model.encode(texts), model.encode(texts))]: entry
    [(i, j)] is the cosine of texts [i] and [j]; the model may raise. *)
Variable encode_cos_sim : list string -> Exc (nat -> nat -> Q).

Definition compute_similarity_matrix (texts : list string)
  : Exc (nat -> nat -> Q) :=
  match texts with
  | [] => Ok (fun _ _ => 0)
  | _ => encode_cos_sim texts
  end.

Definition find_similar_documents (texts : dict string) (threshold : Q)
  : Exc (list (string * string * Q)) :=
  let doc_ids := dict_keys texts in
  let doc_texts :=
    map (fun doc_id => match dict_get texts doc_id with
                       | Some t => t
                       | None => ""
                       end) doc_ids in
  if (List.length doc_texts <? 2)%nat then Ok []
  else
    sim_matrix <- compute_similarity_matrix doc_texts ;;
    let similar_pairs :=
      flat_map (fun '(i, j) =>
                  let similarity := sim_matrix i j in
                  if Qle_bool threshold similarity
                  then [(nth i doc_ids "", nth j doc_ids "", similarity)]
                  else [])
               (index_pairs (List.length doc_ids)) in
    Ok (sort_desc (fun x => snd x) similar_pairs).

(** [f"{bidder_id}:{doc_id}"] *)
Definition doc_key (bidder_id doc_id : string) : string :=
  String.append bidder_id (String.append ":" doc_id).

Definition flatten_docs (bidder_texts : dict (dict string)) : dict string :=
  fold_left
    (fun all_docs '(bidder_id, docs) =>
       fold_left (fun all_docs '(doc_id, text) =>
                    dict_set all_docs (doc_key bidder_id doc_id) text)
                 docs all_docs)
    bidder_texts [].

Definition cross_bidder (similar_pairs : list (string * string * Q))
  : list CrossPair :=
  flat_map (fun '(doc1, doc2, score) =>
              let b1 := split_colon_head doc1 in
              let b2 := split_colon_head doc2 in
              if negb (String.eqb b1 b2)
              then [ {| bidder1 := b1; bidder2 := b2;
                        document1 := doc1; document2 := doc2;
                        similarity := score |} ]
              else [])
           similar_pairs.

Definition analyze_bidder_documents (bidder_texts : dict (dict string))
  : Exc SimilarityResults :=
  let all_docs := flatten_docs bidder_texts in
  similar_pairs <- find_similar_documents all_docs 0.7 ;;
  let cross_bidder_similarity := cross_bidder similar_pairs in
  Ok {| total_comparisons := List.length similar_pairs;
        cross_bidder_similarities := cross_bidder_similarity;
        high_risk_pairs :=
          filter (fun p => Qlt_bool 0.85 (similarity p))
                 cross_bidder_similarity |}.

End Model.

End SemanticAnalyzer.

(* ================================================================== *)
(** ** src/utils/stylometry.py                                         *)
(* ================================================================== *)

Module StylometryAnalyzer.

Record StylePair : Type := {
  doc1 : string;
  doc2 : string;
  similarity : Q
}.

(** [compare_writing_styles] returns [{"error": ...}] or the comparison. *)
Inductive CompareResults : Type :=
| CompareError (error : string)
| CompareOk (features : dict (dict Q)) (similarity_pairs : list StylePair)
            (feature_names : list string).

Record StylometryResults : Type := {
  bidder_features : dict (dict Q);
  suspicious_style_matches : list StylePair
}.

Section Model.

(** [extract_stylometric_features]: the feature dictionary of one text,
    computed by the spaCy pipeline (or by the tokenizer fallback when no
    spaCy model was loaded); empty for a text without tokens. *)
Variable extract_stylometric_features : string -> Exc (dict Q).

(** [sklearn.metrics.pairwise.cosine_similarity] on the feature matrix. *)
Variable cosine_similarity : list (list Q) -> Exc (nat -> nat -> Q).

Definition compare_writing_styles (texts : dict string)
  : Exc CompareResults :=
  if (List.length texts <? 2)%nat then
    Ok (CompareError "Need at least 2 documents to compare")
  else
    features <-
      for_each texts
        (fun features '(doc_id, text) =>
           f <- extract_stylometric_features text ;;
           Ok (dict_set features doc_id f))
        [] ;;
    let doc_ids := dict_keys features in
    let feature_names :=
      match dict_values features with
      | f :: _ => dict_keys f
      | [] => []
      end in
    let feature_matrix :=
      map (fun doc_id =>
             map (fun fname =>
                    match dict_get features doc_id with
                    | Some f => match dict_get f fname with
                                | Some v => v
                                | None => 0
                                end
                    | None => 0
                    end) feature_names) doc_ids in
    similarity_matrix <- cosine_similarity feature_matrix ;;
    let similar_pairs :=
      flat_map (fun '(i, j) =>
                  let similarity := similarity_matrix i j in
                  if Qlt_bool 0.8 similarity
                  then [ {| doc1 := nth i doc_ids "";
                            doc2 := nth j doc_ids "";
                            similarity := similarity |} ]
                  else [])
               (SemanticAnalyzer.index_pairs (List.length doc_ids)) in
    Ok (CompareOk features similar_pairs feature_names).

Definition analyze_bidder_styles (bidder_texts : dict (dict string))
  : Exc StylometryResults :=
  let bidder_combined_texts :=
    fold_left (fun acc '(bidder_id, docs) =>
                 dict_set acc bidder_id (join " " (dict_values docs)))
              bidder_texts [] in
  results <- compare_writing_styles bidder_combined_texts ;;
  Ok match results with
     | CompareOk features similarity_pairs _ =>
         {| bidder_features := features;
            suspicious_style_matches := similarity_pairs |}
     | CompareError _ =>
         {| bidder_features := []; suspicious_style_matches := [] |}
     end.

End Model.

End StylometryAnalyzer.

(* ================================================================== *)
(** ** src/utils/relationship_graph.py                                 *)
(* ================================================================== *)

Module RelationshipAnalyzer.

(** A value of an evidence dictionary. *)
Inductive EvValue : Type :=
| EvFloat (x : Q)
| EvStr (s : string).

(** The attribute dictionary of an edge.  networkx stores one dictionary
    object per undirected edge and reaches it from both endpoints
    ([G[u][v] is G[v][u]]); here it is stored once, under the unordered
    pair of its endpoints. *)
Record EdgeData : Type := {
  weight : Q;
  relationships : list string;
  evidence : dict EvValue
}.

(** [nx.Graph]: nodes in insertion order, edges in insertion order. *)
Record Graph : Type := {
  nodes : list string;
  edges : list (string * string * EdgeData)
}.

(** [self.graph.clear()] *)
Definition empty_graph : Graph := {| nodes := []; edges := [] |}.

Definition mem (x : string) (l : list string) : bool :=
  existsb (String.eqb x) l.

(** the unordered pair [{u, v}] names the edge [(a, b)] *)
Definition same_edge (u v a b : string) : bool :=
  (String.eqb u a && String.eqb v b) || (String.eqb u b && String.eqb v a).

(** [G[u][v]], when the edge exists *)
Fixpoint get_edge (es : list (string * string * EdgeData)) (u v : string)
  : option EdgeData :=
  match es with
  | [] => None
  | (a, b, d) :: es' =>
      if same_edge u v a b then Some d else get_edge es' u v
  end.

Definition has_edge (g : Graph) (u v : string) : bool :=
  match get_edge (edges g) u v with Some _ => true | None => false end.

(** in-place change of the attribute dictionary of the edge [{u, v}] *)
Fixpoint update_edge (es : list (string * string * EdgeData)) (u v : string)
  (f : EdgeData -> EdgeData) : list (string * string * EdgeData) :=
  match es with
  | [] => []
  | (a, b, d) :: es' =>
      if same_edge u v a b then (a, b, f d) :: es'
      else (a, b, d) :: update_edge es' u v f
  end.

(** [G.add_node(n)] without attributes *)
Definition add_node (g : Graph) (n : string) : Graph :=
  if mem n (nodes g) then g
  else {| nodes := nodes g ++ [n]; edges := edges g |}.

(** [G.add_edge(u, v, **attr)]: both endpoints become nodes; the
    attributes replace those of an edge that is already there. *)
Definition add_edge (g : Graph) (u v : string) (attr : EdgeData) : Graph :=
  let g1 := add_node (add_node g u) v in
  if has_edge g1 u v
  then {| nodes := nodes g1;
          edges := update_edge (edges g1) u v (fun _ => attr) |}
  else {| nodes := nodes g1; edges := edges g1 ++ [(u, v, attr)] |}.

Definition add_bidder (g : Graph) (bidder_id : string) : Graph :=
  add_node g bidder_id.

(** [add_relationship]; [evidence or {}] is the empty dictionary for
    [None]. *)
Definition add_relationship (g : Graph) (bidder1 bidder2 : string)
  (relationship_type : string) (w : Q) (ev : option (dict EvValue))
  : Graph :=
  if has_edge g bidder1 bidder2 then
    {| nodes := nodes g;
       edges := update_edge (edges g) bidder1 bidder2
                  (fun edge_data =>
                     {| weight := max2 (weight edge_data) w;
                        relationships :=
                          relationships edge_data ++ [relationship_type];
                        evidence := evidence edge_data |}) |}
  else
    add_edge g bidder1 bidder2
      {| weight := w;
         relationships := [relationship_type];
         evidence := match ev with Some e => e | None => [] end |}.

Record RiskGroup : Type := {
  bidders : list string;
  size : nat;
  type : string
}.

Record GraphResults : Type := {
  num_bidders : nat;
  num_relationships : nat;
  network_density : Q;
  communities : list (list string);
  suspicious_cliques : list (list string);
  centrality_scores : dict Q;
  high_risk_groups : list RiskGroup;
  graph_data : Graph
}.

(** [field_groups.setdefault(value, []).append(bidder_id)] *)
Definition group_append (field_groups : dict (list string))
  (value bidder_id : string) : dict (list string) :=
  match dict_get field_groups value with
  | Some l => dict_set field_groups value (l ++ [bidder_id])
  | None => dict_set field_groups value [bidder_id]
  end.

Section Networkx.

(** [community.greedy_modularity_communities], [nx.find_cliques] and
    [nx.degree_centrality] of networkx. *)
Variable greedy_modularity_communities : Graph -> Exc (list (list string)).
Variable find_cliques : Graph -> Exc (list (list string)).
Variable degree_centrality : Graph -> Exc (dict Q).

Definition detect_communities (g : Graph) : Exc (list (list string)) :=
  if (List.length (nodes g) <? 2)%nat then Ok []
  else
    cs <- greedy_modularity_communities g ;;
    Ok (filter (fun c => (1 <? List.length c)%nat) cs).

Definition find_suspicious_cliques (g : Graph) (min_size : nat)
  : Exc (list (list string)) :=
  cliques <- find_cliques g ;;
  Ok (filter (fun clique => (min_size <=? List.length clique)%nat) cliques).

Definition calculate_centrality_scores (g : Graph) : Exc (dict Q) :=
  match nodes g with
  | [] => Ok []
  | _ => degree_centrality g
  end.

(** [nx.density]: [2m / (n (n - 1))], and 0 without edges. *)
Definition density (g : Graph) : Q :=
  let n := len (nodes g) in
  match edges g with
  | [] => 0
  | _ => 2 * len (edges g) / (n * (n - 1))
  end.

Definition add_similarity_edges (g : Graph)
  (pairs : list SemanticAnalyzer.CrossPair) : Graph :=
  fold_left
    (fun g pair =>
       add_relationship g
         (SemanticAnalyzer.bidder1 pair) (SemanticAnalyzer.bidder2 pair)
         "document_similarity" (SemanticAnalyzer.similarity pair)
         (Some [("similarity_score",
                 EvFloat (SemanticAnalyzer.similarity pair))]))
    pairs g.

Definition field_groups_of (contact_data : dict (dict string))
  (field : string) : dict (list string) :=
  fold_left
    (fun field_groups '(bidder_id, info) =>
       match dict_get info field with
       | Some (String c v) => group_append field_groups (String c v) bidder_id
       | _ => field_groups
       end)
    contact_data [].

Definition add_group_edges (g : Graph) (field value : string)
  (bidder_list : list string) : Graph :=
  if (1 <? List.length bidder_list)%nat then
    fold_left
      (fun g '(i, j) =>
         add_relationship g (nth i bidder_list "") (nth j bidder_list "")
           (String.append "shared_" field) 0.8
           (Some [(field, EvStr value)]))
      (SemanticAnalyzer.index_pairs (List.length bidder_list)) g
  else g.

Definition add_contact_edges (g : Graph) (contact_data : dict (dict string))
  : Graph :=
  fold_left
    (fun g field =>
       fold_left (fun g '(value, bidder_list) =>
                    add_group_edges g field value bidder_list)
                 (field_groups_of contact_data field) g)
    ["email"; "phone"; "address"] g.

(** The graph that [analyze_bidder_network] builds before analysing it. *)
Definition build_graph (bidders : list string)
  (similarity_data : option SemanticAnalyzer.SimilarityResults)
  (contact_data : dict (dict string)) : Graph :=
  let g0 := fold_left add_bidder bidders empty_graph in
  let g1 :=
    match similarity_data with
    | Some sd =>
        add_similarity_edges g0 (SemanticAnalyzer.cross_bidder_similarities sd)
    | None => g0
    end in
  match contact_data with
  | [] => g1
  | _ => add_contact_edges g1 contact_data
  end.

Definition analyze_bidder_network (bidders : list string)
  (similarity_data : option SemanticAnalyzer.SimilarityResults)
  (contact_data : dict (dict string)) : Exc GraphResults :=
  let g := build_graph bidders similarity_data contact_data in
  comms <- detect_communities g ;;
  cliques <- find_suspicious_cliques g 3 ;;
  centrality <- calculate_centrality_scores g ;;
  let num_edges := List.length (edges g) in
  let num_nodes := List.length (nodes g) in
  let dens := if (1 <? num_nodes)%nat then density g else 0 in
  let community_groups :=
    flat_map (fun community =>
                if (3 <=? List.length community)%nat
                then [ {| bidders := community;
                          size := List.length community;
                          type := "community" |} ]
                else [])
             comms in
  let clique_groups :=
    map (fun clique => {| bidders := clique;
                          size := List.length clique;
                          type := "clique" |})
        cliques in
  Ok {| num_bidders := num_nodes;
        num_relationships := num_edges;
        network_density := dens;
        communities := comms;
        suspicious_cliques := cliques;
        centrality_scores := centrality;
        high_risk_groups := community_groups ++ clique_groups;
        graph_data := g |}.

End Networkx.

End RelationshipAnalyzer.

(* ================================================================== *)
(** ** src/state/agent_state.py, src/agents/nodes.py, workflow.py      *)
(* ================================================================== *)

Module Agent.

(** [BidderInfo]; its [metadata] dictionary, which no node reads, is left
    out. *)
Record BidderInfo : Type := {
  bidder_id : string;
  name : string;
  bid_amount : Q;
  documents : list string;
  contact_info : option (dict string)
}.

(** The payload a node attaches to a signal. *)
Inductive Evidence : Type :=
| EvidencePrice (r : PriceAnalyzer.PriceResults)
| EvidencePair (p : SemanticAnalyzer.CrossPair)
| EvidenceMatch (m : StylometryAnalyzer.StylePair)
| EvidenceGroup (g : RelationshipAnalyzer.RiskGroup).

Record RiskSignal : Type := {
  signal_type : string;
  severity : string;
  score : Q;
  description : string;
  evidence : Evidence;
  affected_bidders : list string
}.

Inductive Message : Type :=
| SystemMessage (content : string)
| HumanMessage (content : string)
| AIMessage (content : string).

Record TenderAnalysisState : Type := {
  tender_id : string;
  tender_description : string;
  bidders : list BidderInfo;
  uploaded_documents : list string;
  extracted_text : dict string;
  price_analysis : option PriceAnalyzer.PriceResults;
  similarity_analysis : option SemanticAnalyzer.SimilarityResults;
  stylometry_analysis : option StylometryAnalyzer.StylometryResults;
  relationship_graph : option RelationshipAnalyzer.GraphResults;
  risk_signals : list RiskSignal;
  overall_risk_score : Q;
  messages : list Message;
  current_step : string;
  analysis_complete : bool;
  error : option string
}.

(** The dictionary a node returns: [None] is an absent key.  No node
    returns the input keys ([tender_id], [bidders], ...). *)
Record Patch : Type := {
  p_extracted_text : option (dict string);
  p_price_analysis : option PriceAnalyzer.PriceResults;
  p_similarity_analysis : option SemanticAnalyzer.SimilarityResults;
  p_stylometry_analysis : option StylometryAnalyzer.StylometryResults;
  p_relationship_graph : option RelationshipAnalyzer.GraphResults;
  p_risk_signals : option (list RiskSignal);
  p_overall_risk_score : option Q;
  p_messages : list Message;
  p_current_step : option string;
  p_analysis_complete : option bool;
  p_error : option string
}.

(** [{"error": str(e)}] *)
Definition error_patch (msg : string) : Patch :=
  {| p_extracted_text := None; p_price_analysis := None;
     p_similarity_analysis := None; p_stylometry_analysis := None;
     p_relationship_graph := None; p_risk_signals := None;
     p_overall_risk_score := None; p_messages := [];
     p_current_step := None; p_analysis_complete := None;
     p_error := Some msg |}.

Definition or_keep {A} (new : option A) (old : A) : A :=
  match new with Some a => a | None => old end.

Definition or_keep_opt {A} (new old : option A) : option A :=
  match new with Some a => Some a | None => old end.

(** How the graph runtime writes a node's return value into the state:
    a returned key replaces the value of its channel; the [messages]
    channel, declared with the [add_messages] reducer, appends the
    returned messages that the state does not hold yet. *)
Definition apply_patch (st : TenderAnalysisState) (p : Patch)
  : TenderAnalysisState :=
  {| tender_id := tender_id st;
     tender_description := tender_description st;
     bidders := bidders st;
     uploaded_documents := uploaded_documents st;
     extracted_text := or_keep (p_extracted_text p) (extracted_text st);
     price_analysis := or_keep_opt (p_price_analysis p) (price_analysis st);
     similarity_analysis :=
       or_keep_opt (p_similarity_analysis p) (similarity_analysis st);
     stylometry_analysis :=
       or_keep_opt (p_stylometry_analysis p) (stylometry_analysis st);
     relationship_graph :=
       or_keep_opt (p_relationship_graph p) (relationship_graph st);
     risk_signals := or_keep (p_risk_signals p) (risk_signals st);
     overall_risk_score :=
       or_keep (p_overall_risk_score p) (overall_risk_score st);
     messages := messages st ++ p_messages p;
     current_step := or_keep (p_current_step p) (current_step st);
     analysis_complete :=
       or_keep (p_analysis_complete p) (analysis_complete st);
     error := or_keep_opt (p_error p) (error st) |}.

(** Everything the nodes call that is not code of the repository. *)
Record Providers : Type := {
  np_sqrt : Q -> Q;
  pdf_pages : string -> Exc (list (option string));
  path_suffix_lower : string -> string;
  encode_cos_sim : list string -> Exc (nat -> nat -> Q);
  extract_stylometric_features : string -> Exc (dict Q);
  cosine_similarity : list (list Q) -> Exc (nat -> nat -> Q);
  greedy_modularity_communities :
    RelationshipAnalyzer.Graph -> Exc (list (list string));
  find_cliques : RelationshipAnalyzer.Graph -> Exc (list (list string));
  degree_centrality : RelationshipAnalyzer.Graph -> Exc (dict Q);
  (** [llm.invoke(messages).content] *)
  llm_invoke : list Message -> Exc string;
  (** [f"{x:.2f}"] *)
  format_2f : Q -> string
}.

(** [PriceAnalyzer()] is built with the default [outlier_threshold]. *)
Definition outlier_threshold : Q := 2.0.

Definition cat (l : list string) : string := fold_right String.append "" l.

Section Nodes.

Variable P : Providers.

(** *** Node 1 *)

Definition extract_documents_body (st : TenderAnalysisState) : Exc Patch :=
  extracted <-
    DocumentProcessor.process_tender_documents
      (pdf_pages P) (path_suffix_lower P) (uploaded_documents st) ;;
  Ok {| p_extracted_text := Some extracted;
        p_price_analysis := None; p_similarity_analysis := None;
        p_stylometry_analysis := None; p_relationship_graph := None;
        p_risk_signals := None; p_overall_risk_score := None;
        p_messages :=
          [HumanMessage
             (cat ["Extracted text from ";
                   str_of_nat (List.length extracted); " documents"])];
        p_current_step := Some "document_extraction";
        p_analysis_complete := None; p_error := None |}.

Definition extract_documents_node (st : TenderAnalysisState) : Patch :=
  match extract_documents_body st with
  | Ok p => p
  | Raise e =>
      {| p_extracted_text := None; p_price_analysis := None;
         p_similarity_analysis := None; p_stylometry_analysis := None;
         p_relationship_graph := None; p_risk_signals := None;
         p_overall_risk_score := None; p_messages := [];
         p_current_step := Some "document_extraction_failed";
         p_analysis_complete := None; p_error := Some e |}
  end.

(** *** Node 2 *)

(** [{bidder.bidder_id: bidder.bid_amount for bidder in state["bidders"]}] *)
Definition bidder_prices_of (bs : list BidderInfo) : dict Q :=
  fold_left (fun d b => dict_set d (bidder_id b) (bid_amount b)) bs [].

Definition price_signals (bidder_prices : dict Q) (price_results : PriceAnalyzer.PriceResults)
  : list RiskSignal :=
  if Qlt_bool 0 (PriceAnalyzer.risk_score price_results) then
    [ {| signal_type := "price_anomaly";
         severity := PriceAnalyzer.severity price_results;
         score := PriceAnalyzer.risk_score price_results;
         description :=
           cat ["Price analysis detected ";
                str_of_nat (List.length (PriceAnalyzer.risk_indicators price_results));
                " risk indicators"];
         evidence := EvidencePrice price_results;
         affected_bidders := dict_keys bidder_prices |} ]
  else [].

Definition analyze_prices_body (st : TenderAnalysisState) : Exc Patch :=
  let bidder_prices := bidder_prices_of (bidders st) in
  price_results <-
    PriceAnalyzer.analyze_price_patterns (np_sqrt P) outlier_threshold bidder_prices ;;
  let new_signals := price_signals bidder_prices price_results in
  Ok {| p_extracted_text := None;
        p_price_analysis := Some price_results;
        p_similarity_analysis := None;
        p_stylometry_analysis := None; p_relationship_graph := None;
        p_risk_signals := Some (risk_signals st ++ new_signals);
        p_overall_risk_score := None;
        p_messages :=
          [HumanMessage
             (cat ["Price analysis complete. Risk score: ";
                   format_2f P (PriceAnalyzer.risk_score price_results)])];
        p_current_step := Some "price_analysis";
        p_analysis_complete := None; p_error := None |}.

Definition analyze_prices_node (st : TenderAnalysisState) : Patch :=
  match analyze_prices_body st with
  | Ok p => p
  | Raise e => error_patch e
  end.

(** *** Nodes 3 and 4 share the grouping of texts by bidder *)

Definition texts_of_bidder (extracted : dict string) (docs : list string)
  : dict string :=
  fold_left (fun d doc_path =>
               match dict_get extracted doc_path with
               | Some text => dict_set d doc_path text
               | None => d
               end)
            docs [].

Definition organize_texts (st : TenderAnalysisState) : dict (dict string) :=
  fold_left (fun bidder_texts b =>
               dict_set bidder_texts (bidder_id b)
                 (texts_of_bidder (extracted_text st) (documents b)))
            (bidders st) [].

(** *** Node 3 *)

Definition pair_signal (pair : SemanticAnalyzer.CrossPair) : RiskSignal :=
  {| signal_type := "document_similarity";
     severity :=
       if Qlt_bool 0.9 (SemanticAnalyzer.similarity pair)
       then "high" else "medium";
     score := SemanticAnalyzer.similarity pair;
     description :=
       cat ["High similarity detected between ";
            SemanticAnalyzer.bidder1 pair; " and ";
            SemanticAnalyzer.bidder2 pair];
     evidence := EvidencePair pair;
     affected_bidders :=
       [SemanticAnalyzer.bidder1 pair; SemanticAnalyzer.bidder2 pair] |}.

Definition analyze_similarity_body (st : TenderAnalysisState) : Exc Patch :=
  let bidder_texts := organize_texts st in
  similarity_results <-
    SemanticAnalyzer.analyze_bidder_documents (encode_cos_sim P) bidder_texts ;;
  let high := SemanticAnalyzer.high_risk_pairs similarity_results in
  let new_signals := map pair_signal high in
  Ok {| p_extracted_text := None; p_price_analysis := None;
        p_similarity_analysis := Some similarity_results;
        p_stylometry_analysis := None; p_relationship_graph := None;
        p_risk_signals := Some (risk_signals st ++ new_signals);
        p_overall_risk_score := None;
        p_messages :=
          [HumanMessage
             (cat ["Found "; str_of_nat (List.length high);
                   " high-similarity document pairs"])];
        p_current_step := Some "similarity_analysis";
        p_analysis_complete := None; p_error := None |}.

Definition analyze_similarity_node (st : TenderAnalysisState) : Patch :=
  match analyze_similarity_body st with
  | Ok p => p
  | Raise e => error_patch e
  end.

(** *** Node 4 *)

Definition match_signal (m : StylometryAnalyzer.StylePair) : RiskSignal :=
  {| signal_type := "stylometry";
     severity :=
       if Qlt_bool 0.85 (StylometryAnalyzer.similarity m)
       then "high" else "medium";
     score := StylometryAnalyzer.similarity m;
     description :=
       cat ["Similar writing style detected between ";
            StylometryAnalyzer.doc1 m; " and "; StylometryAnalyzer.doc2 m];
     evidence := EvidenceMatch m;
     affected_bidders :=
       [StylometryAnalyzer.doc1 m; StylometryAnalyzer.doc2 m] |}.

Definition analyze_stylometry_body (st : TenderAnalysisState) : Exc Patch :=
  let bidder_texts := organize_texts st in
  stylometry_results <-
    StylometryAnalyzer.analyze_bidder_styles
      (extract_stylometric_features P) (cosine_similarity P) bidder_texts ;;
  let suspicious :=
    StylometryAnalyzer.suspicious_style_matches stylometry_results in
  let new_signals := map match_signal suspicious in
  Ok {| p_extracted_text := None; p_price_analysis := None;
        p_similarity_analysis := None;
        p_stylometry_analysis := Some stylometry_results;
        p_relationship_graph := None;
        p_risk_signals := Some (risk_signals st ++ new_signals);
        p_overall_risk_score := None;
        p_messages :=
          [HumanMessage
             (cat ["Stylometry analysis found ";
                   str_of_nat (List.length suspicious);
                   " suspicious matches"])];
        p_current_step := Some "stylometry_analysis";
        p_analysis_complete := None; p_error := None |}.

Definition analyze_stylometry_node (st : TenderAnalysisState) : Patch :=
  match analyze_stylometry_body st with
  | Ok p => p
  | Raise e => error_patch e
  end.

(** *** Node 5 *)

(** [group["size"] / len(bidder_ids)] is a true division of two [int]s
    and raises on an empty bidder list. *)
Definition group_signal (n_bidders : nat) (g : RelationshipAnalyzer.RiskGroup)
  : Exc RiskSignal :=
  let size := RelationshipAnalyzer.size g in
  ratio <- int_div size n_bidders ;;
  Ok {| signal_type := "relationship_network";
        severity := if (4 <=? size)%nat then "high" else "medium";
        score := min2 ratio 1.0;
        description :=
          cat ["Detected "; RelationshipAnalyzer.type g; " of ";
               str_of_nat size; " connected bidders"];
        evidence := EvidenceGroup g;
        affected_bidders := RelationshipAnalyzer.bidders g |}.

(** [for group in high_risk_groups: risk_signals.append(...)] *)
Definition group_signals (n_bidders : nat)
  (groups : list RelationshipAnalyzer.RiskGroup) : Exc (list RiskSignal) :=
  for_each groups
    (fun acc g => s <- group_signal n_bidders g ;; Ok (acc ++ [s]))
    [].

Definition contact_data_of (bs : list BidderInfo) : dict (dict string) :=
  fold_left (fun d b =>
               match contact_info b with
               | Some (kv :: info) => dict_set d (bidder_id b) (kv :: info)
               | _ => d
               end)
            bs [].

Definition build_relationship_graph_body (st : TenderAnalysisState)
  : Exc Patch :=
  let bidder_ids := map bidder_id (bidders st) in
  let contact_data := contact_data_of (bidders st) in
  graph_results <-
    RelationshipAnalyzer.analyze_bidder_network
      (greedy_modularity_communities P) (find_cliques P)
      (degree_centrality P)
      bidder_ids (similarity_analysis st) contact_data ;;
  let groups := RelationshipAnalyzer.high_risk_groups graph_results in
  new_signals <- group_signals (List.length bidder_ids) groups ;;
  Ok {| p_extracted_text := None; p_price_analysis := None;
        p_similarity_analysis := None; p_stylometry_analysis := None;
        p_relationship_graph := Some graph_results;
        p_risk_signals := Some (risk_signals st ++ new_signals);
        p_overall_risk_score := None;
        p_messages :=
          [HumanMessage
             (cat ["Network analysis complete. Found ";
                   str_of_nat (List.length groups); " high-risk groups"])];
        p_current_step := Some "relationship_graph";
        p_analysis_complete := None; p_error := None |}.

Definition build_relationship_graph_node (st : TenderAnalysisState) : Patch :=
  match build_relationship_graph_body st with
  | Ok p => p
  | Raise e => error_patch e
  end.

(** *** Node 6 *)

Definition nl : string := DocumentProcessor.nl.

Definition risk_line (s : RiskSignal) : string :=
  cat ["- "; signal_type s; " ("; severity s; "): "; description s;
       " [Score: "; format_2f P (score s); "]"].

Definition system_prompt : string :=
  cat ["You are an expert procurement fraud analyst. "; nl;
       "        Analyze the risk signals and provide a clear, actionable summary for procurement officers.";
       nl;
       "        Focus on explainability and evidence-based reasoning.";
       nl;
       "        Avoid making definitive accusations - present findings as risk indicators requiring human review."].

Definition user_prompt (st : TenderAnalysisState) (risk_text : string)
  : string :=
  cat [nl; "Tender ID: "; tender_id st; nl;
       "Description: "; tender_description st; nl;
       "Number of Bidders: "; str_of_nat (List.length (bidders st)); nl; nl;
       "Risk Signals Detected:"; nl; risk_text; nl; nl;
       "Provide:"; nl;
       "1. Executive Summary (2-3 sentences)"; nl;
       "2. Key Risk Indicators (prioritized list)"; nl;
       "3. Recommended Actions"; nl;
       "4. Confidence Level"; nl].

(** [max(risk_scores) if risk_scores else 0.0] *)
Definition overall_risk (signals : list RiskSignal) : Q :=
  max_list (map score signals) 0.0.

(** The returned [messages] list repeats the messages of the state before
    the two new ones; the reducer recognises the repeated ones and appends
    the new ones only, which is what [p_messages] holds. *)
Definition generate_report_body (st : TenderAnalysisState) : Exc Patch :=
  let risk_summary := map risk_line (risk_signals st) in
  let risk_text :=
    match risk_summary with
    | [] => "No significant risks detected."
    | _ => join nl risk_summary
    end in
  response <-
    llm_invoke P [SystemMessage system_prompt;
                  HumanMessage (user_prompt st risk_text)] ;;
  let overall := overall_risk (risk_signals st) in
  Ok {| p_extracted_text := None; p_price_analysis := None;
        p_similarity_analysis := None; p_stylometry_analysis := None;
        p_relationship_graph := None; p_risk_signals := None;
        p_overall_risk_score := Some overall;
        p_messages := [HumanMessage "AI Report Generated";
                       AIMessage response];
        p_current_step := Some "report_generation";
        p_analysis_complete := Some true; p_error := None |}.

Definition generate_report_node (st : TenderAnalysisState) : Patch :=
  match generate_report_body st with
  | Ok p => p
  | Raise e => error_patch e
  end.

Definition should_continue (st : TenderAnalysisState) : string :=
  match error st with
  | Some (String _ _) => "error"
  | _ => if analysis_complete st then "complete" else "continue"
  end.

(** *** workflow.py *)

Inductive Node : Type :=
| extract_documents
| analyze_prices
| analyze_similarity
| analyze_stylometry
| build_relationship_graph
| generate_report.

(** [workflow.add_node(name, function)] *)
Definition node_function (n : Node) : TenderAnalysisState -> Patch :=
  match n with
  | extract_documents => extract_documents_node
  | analyze_prices => analyze_prices_node
  | analyze_similarity => analyze_similarity_node
  | analyze_stylometry => analyze_stylometry_node
  | build_relationship_graph => build_relationship_graph_node
  | generate_report => generate_report_node
  end.

(** The [try] block of a node. *)
Definition node_body (n : Node) : TenderAnalysisState -> Exc Patch :=
  match n with
  | extract_documents => extract_documents_body
  | analyze_prices => analyze_prices_body
  | analyze_similarity => analyze_similarity_body
  | analyze_stylometry => analyze_stylometry_body
  | build_relationship_graph => build_relationship_graph_body
  | generate_report => generate_report_body
  end.

Definition entry_point : Node := extract_documents.

(** The edges of the compiled graph; [None] is [END].  The conditional
    edge after [generate_report] maps each of the three answers of
    [should_continue] to [END]. *)
Definition next_node (n : Node) (st : TenderAnalysisState) : option Node :=
  match n with
  | extract_documents => Some analyze_prices
  | analyze_prices => Some analyze_similarity
  | analyze_similarity => Some analyze_stylometry
  | analyze_stylometry => Some build_relationship_graph
  | build_relationship_graph => Some generate_report
  | generate_report =>
      let answer := should_continue st in
      if String.eqb answer "complete" then None
      else if String.eqb answer "error" then None
      else None
  end.

(** One super-step of the runtime: run the node, write its patch. *)
Definition step (n : Node) (st : TenderAnalysisState) : TenderAnalysisState :=
  apply_patch st (node_function n st).

(** The runtime stops after [recursion_limit] steps. *)
Definition recursion_limit : nat := 25.

Fixpoint run_from (fuel : nat) (n : Node) (st : TenderAnalysisState)
  : TenderAnalysisState :=
  match fuel with
  | O => st
  | S fuel' =>
      let st' := step n st in
      match next_node n st' with
      | None => st'
      | Some n' => run_from fuel' n' st'
      end
  end.

(** [procurement_agent.invoke(initial_state)] *)
Definition invoke (st : TenderAnalysisState) : TenderAnalysisState :=
  run_from recursion_limit entry_point st.

Definition initial_state (tid descr : string) (bs : list BidderInfo)
  (docs : list string) : TenderAnalysisState :=
  {| tender_id := tid;
     tender_description := descr;
     bidders := bs;
     uploaded_documents := docs;
     extracted_text := [];
     price_analysis := None;
     similarity_analysis := None;
     stylometry_analysis := None;
     relationship_graph := None;
     risk_signals := [];
     overall_risk_score := 0.0;
     messages := [];
     current_step := "initialized";
     analysis_complete := false;
     error := None |}.

Definition run_analysis (tid descr : string) (bs : list BidderInfo)
  (docs : list string) : TenderAnalysisState :=
  invoke (initial_state tid descr bs docs).

End Nodes.

End Agent.

(* ================================================================== *)
(** ** Runs of the workflow                                            *)
(* ================================================================== *)

Module Run.
Import Agent.

(** The nodes in the order in which the edges chain them. *)
Definition pipeline : list Node :=
  [extract_documents; analyze_prices; analyze_similarity;
   analyze_stylometry; build_relationship_graph; generate_report].

Definition position (n : Node) : nat :=
  match n with
  | extract_documents => 0
  | analyze_prices => 1
  | analyze_similarity => 2
  | analyze_stylometry => 3
  | build_relationship_graph => 4
  | generate_report => 5
  end.

(** The value a node writes to [current_step] on success. *)
Definition step_name (n : Node) : string :=
  match n with
  | extract_documents => "document_extraction"
  | analyze_prices => "price_analysis"
  | analyze_similarity => "similarity_analysis"
  | analyze_stylometry => "stylometry_analysis"
  | build_relationship_graph => "relationship_graph"
  | generate_report => "report_generation"
  end.

Definition nodes_before (n : Node) : list Node := firstn (position n) pipeline.
Definition nodes_after (n : Node) : list Node :=
  skipn (S (position n)) pipeline.

Definition run_nodes (P : Providers) (l : list Node)
  (st : TenderAnalysisState) : TenderAnalysisState :=
  fold_left (fun st n => step P n st) l st.

(** The state on which node [n] is run when the workflow starts from
    [st0]. *)
Definition state_before (P : Providers) (n : Node)
  (st0 : TenderAnalysisState) : TenderAnalysisState :=
  run_nodes P (nodes_before n) st0.

(** What a node writes on success: its result slot, and for
    [generate_report] the completion flag.  [extract_documents] has no
    nullable slot (and is never run after another node). *)
Definition is_some {A} (o : option A) : bool :=
  match o with Some _ => true | None => false end.

Definition slot_written (n : Node) (st : TenderAnalysisState) : bool :=
  match n with
  | extract_documents => true
  | analyze_prices => is_some (price_analysis st)
  | analyze_similarity => is_some (similarity_analysis st)
  | analyze_stylometry => is_some (stylometry_analysis st)
  | build_relationship_graph => is_some (relationship_graph st)
  | generate_report => analysis_complete st
  end.

(** The signal type a node emits. *)
Definition emits (n : Node) : string :=
  match n with
  | analyze_prices => "price_anomaly"
  | analyze_similarity => "document_similarity"
  | analyze_stylometry => "stylometry"
  | build_relationship_graph => "relationship_network"
  | _ => ""
  end.

(** The three tests of the price scoring, and what the code computes
    from their answers. *)
Definition low_variation (o : PriceAnalyzer.OutlierResults) : bool :=
  Qlt_bool (PriceAnalyzer.get_coefficient_variation o) 0.1.

Definition has_pattern (c : PriceAnalyzer.CoverResults) : bool :=
  match PriceAnalyzer.suspicious_patterns c with
  | [] => false
  | _ :: _ => true
  end.

Definition round_ratio_of (prices : list Q) : Q :=
  match prices with
  | [] => 0
  | _ => inject_Z (Z.of_nat
                     (List.length (filter PriceAnalyzer.is_round_number prices)))
         / len prices
  end.

Definition flags_score (b1 b2 b3 : bool) : Q :=
  let s1 := if b1 then 0 + 0.3 else 0 in
  let s2 := if b2 then s1 + 0.4 else s1 in
  let s3 := if b3 then s2 + 0.2 else s2 in
  min2 s3 1.0.

Definition flags_indicators (b1 b2 b3 : bool) : list string :=
  (if b1 then ["Low price variation (potential coordination)"] else [])
  ++ (if b2 then ["Clustered high bids detected"] else [])
  ++ (if b3 then ["High proportion of round number bids"] else []).

End Run.

(* ================================================================== *)
(** ** A reference world for concrete runs                             *)
(* ================================================================== *)

Module Reference.
Import Agent.

(** Square root rounded down to six decimals. *)
Definition sqrt6 (q : Q) : Q :=
  Qmake (Z.sqrt (Qnum q * 10 ^ 12 / Zpos (Qden q))%Z) (10 ^ 6)%positive.

Definition two_digits (z : Z) : string :=
  let n := Z.to_nat z in
  if (n <? 10)%nat then String.append "0" (str_of_nat n) else str_of_nat n.

(** Two decimals, for non-negative values. *)
Definition fmt2 (q : Q) : string :=
  let c := Qfloor (q * 100 + (1 # 2)) in
  cat [str_of_nat (Z.to_nat (c / 100)%Z); "."; two_digits (c mod 100)%Z].

(** Whitespace, as [str.split()] and the tokenizer see it. *)
Definition is_space (c : ascii) : bool :=
  existsb (Ascii.eqb c) [" "; "009"; "010"; "011"; "012"; "013"]%char.

Definition has_word (text : string) : bool :=
  existsb (fun c => negb (is_space c)) (list_ascii_of_string text).

(** [sklearn]'s cosine of two rows: the dot product over the product of
    the norms, 0 for a row of zeros. *)
Definition dot (x y : list Q) : Q :=
  sum_list (map (fun '(a, b) => a * b) (combine x y)).

Definition cosine_of (x y : list Q) : Q :=
  let norms := sqrt6 (dot x x) * sqrt6 (dot y y) in
  if Qeq_bool norms 0 then 0 else dot x y / norms.

(** [nx.degree_centrality]: the degree over [n - 1], and 1 for a graph
    of one node. *)
Definition degree (g : RelationshipAnalyzer.Graph) (v : string) : Q :=
  sum_list
    (map (fun '(a, b, _) =>
            (if String.eqb a v then 1 else 0)
            + (if String.eqb b v then 1 else 0))
         (RelationshipAnalyzer.edges g)).

Definition centrality (g : RelationshipAnalyzer.Graph) : dict Q :=
  let n := List.length (RelationshipAnalyzer.nodes g) in
  map (fun v => (v, if (n <=? 1)%nat then 1
                    else degree g v / (len (RelationshipAnalyzer.nodes g) - 1)))
      (RelationshipAnalyzer.nodes g).

(** The connected components of a graph.  For a graph whose components
    are complete (no edge, one edge, a triangle) they are its maximal
    cliques and the communities of greatest modularity. *)
Definition group_of (x : string) (groups : list (list string)) : list string :=
  match find (RelationshipAnalyzer.mem x) groups with
  | Some g => g
  | None => []
  end.

Definition merge (groups : list (list string)) (a b : string)
  : list (list string) :=
  let ga := group_of a groups in
  let gb := group_of b groups in
  if RelationshipAnalyzer.mem b ga then groups
  else flat_map (fun g => if RelationshipAnalyzer.mem a g then [ga ++ gb]
                          else if RelationshipAnalyzer.mem b g then []
                          else [g])
                groups.

Definition components (g : RelationshipAnalyzer.Graph) : list (list string) :=
  fold_left (fun groups '(a, b, _) => merge groups a b)
            (RelationshipAnalyzer.edges g)
            (map (fun n => [n]) (RelationshipAnalyzer.nodes g)).

(** The providers answer as the libraries do on the scenarios below.
    Each pdf has one page; the embedding model finds all cosines 0; the
    only stylometric feature is the length of the text, and a text
    without a word has no features ([extract_stylometric_features]
    returns [{}] for it); the cosine of scikit-learn rejects a feature
    matrix without columns; communities and maximal cliques are the
    connected components. *)
Definition quiet : Providers :=
  {| np_sqrt := sqrt6;
     pdf_pages := fun path => Ok [Some (String.append "text of " path)];
     path_suffix_lower := fun _ => ".pdf";
     encode_cos_sim := fun _ => Ok (fun _ _ => 0);
     extract_stylometric_features :=
       fun text =>
         if has_word text
         then Ok [("avg_word_length", len (list_ascii_of_string text))]
         else Ok [];
     cosine_similarity :=
       fun feature_matrix =>
         match feature_matrix with
         | [] :: _ => Raise "Found array with 0 feature(s)"
         | _ => Ok (fun i j => cosine_of (nth i feature_matrix [])
                                         (nth j feature_matrix []))
         end;
     greedy_modularity_communities := fun g => Ok (components g);
     find_cliques := fun g => Ok (components g);
     degree_centrality := fun g => Ok (centrality g);
     llm_invoke := fun _ => Ok "Summary of findings.";
     format_2f := fmt2 |}.

(** [quiet], with another embedding model. *)
Definition with_encode_cos_sim (f : list string -> Exc (nat -> nat -> Q))
  : Providers :=
  {| np_sqrt := np_sqrt quiet;
     pdf_pages := pdf_pages quiet;
     path_suffix_lower := path_suffix_lower quiet;
     encode_cos_sim := f;
     extract_stylometric_features := extract_stylometric_features quiet;
     cosine_similarity := cosine_similarity quiet;
     greedy_modularity_communities := greedy_modularity_communities quiet;
     find_cliques := find_cliques quiet;
     degree_centrality := degree_centrality quiet;
     llm_invoke := llm_invoke quiet;
     format_2f := format_2f quiet |}.

(** [quiet], with another chat model. *)
Definition with_llm_invoke (f : list Message -> Exc string) : Providers :=
  {| np_sqrt := np_sqrt quiet;
     pdf_pages := pdf_pages quiet;
     path_suffix_lower := path_suffix_lower quiet;
     encode_cos_sim := encode_cos_sim quiet;
     extract_stylometric_features := extract_stylometric_features quiet;
     cosine_similarity := cosine_similarity quiet;
     greedy_modularity_communities := greedy_modularity_communities quiet;
     find_cliques := find_cliques quiet;
     degree_centrality := degree_centrality quiet;
     llm_invoke := f;
     format_2f := format_2f quiet |}.

Definition embedder_down : Providers :=
  with_encode_cos_sim (fun _ => Raise "embedding model unavailable").

Definition llm_down : Providers :=
  with_llm_invoke (fun _ => Raise "chat model unavailable").



(** A graph with the single edge B1 - B2, from a document similarity. *)
Definition one_edge : RelationshipAnalyzer.Graph :=
  RelationshipAnalyzer.add_relationship RelationshipAnalyzer.empty_graph
    "B1" "B2" "document_similarity" 0.9
    (Some [("similarity_score", RelationshipAnalyzer.EvFloat 0.9)]).

Definition bidder (id : string) (amount : Q) (docs : list string)
  : BidderInfo :=
  {| bidder_id := id; name := id; bid_amount := amount;
     documents := docs; contact_info := None |}.

(** Seed scenario: three bidders at 100000, no documents, no contacts. *)
Definition identical_bids : list BidderInfo :=
  [bidder "B1" 100000 []; bidder "B2" 100000 []; bidder "B3" 100000 []].

(** Two bidders with one document each. *)
Definition two_with_docs : list BidderInfo :=
  [bidder "B1" 90000 ["b1.pdf"]; bidder "B2" 120500 ["b2.pdf"]].

End Reference.

(* ================================================================== *)
(** ** Vocabulary of the specification                                 *)
(* ================================================================== *)

Module Spec.
Import Agent Run.

(** "The orchestrator records the error, sets [current_step] to
    [<stage>_failed] and stops: the slots of the later stages remain null
    and [analysis_complete] is false at exit." *)
Definition halted_at (n : Node) (final : TenderAnalysisState) : Prop :=
  error final <> None
  /\ current_step final = String.append (step_name n) "_failed"
  /\ (forall n', In n' (nodes_after n) -> slot_written n' final = false)
  /\ analysis_complete final = false.

(** "Fails with a validation error before any stage runs: no stage result
    slot is written and no risk signal is emitted." *)
Definition validation_rejected (final : TenderAnalysisState) : Prop :=
  error final <> None
  /\ price_analysis final = None
  /\ similarity_analysis final = None
  /\ stylometry_analysis final = None
  /\ relationship_graph final = None
  /\ risk_signals final = [].

(** "[x] is the maximum of the scores, or 0 when there are none." *)
Definition is_max_of (x : Q) (scores : list Q) : Prop :=
  match scores with
  | [] => x == 0
  | _ => (exists y, In y scores /\ x == y)
         /\ forall y, In y scores -> y <= x
  end.

(** "Start at 0, add 0.3 if the coefficient of variation is below 0.1,
    add 0.4 if a cover pattern exists, add 0.2 if the round-number ratio
    exceeds 0.5, cap at 1.0." *)
Definition price_score (cv : Q) (cover_pattern : bool) (round_ratio : Q) : Q :=
  Qmin 1 ((if Qlt_bool cv 0.1 then 0.3 else 0)
          + (if cover_pattern then 0.4 else 0)
          + (if Qlt_bool 0.5 round_ratio then 0.2 else 0)).

(** "[high] iff the score exceeds 0.7, [medium] iff it exceeds 0.4 and is
    at most 0.7, else [low]." *)
Definition price_severity (s : Q) : string :=
  if Qlt_bool 0.7 s then "high"
  else if Qlt_bool 0.4 s then "medium" else "low".

(** "Coefficient of variation [cv = sigma / mu] (0 if [mu = 0])", for any
    number of bids. *)
Definition coefficient_of_variation (sqrt : Q -> Q) (prices : list Q) : Q :=
  let mu := PriceAnalyzer.np_mean prices in
  if Qeq_bool mu 0 then 0 else PriceAnalyzer.np_std sqrt prices / mu.

Definition signals_of_type (t : string) (l : list RiskSignal)
  : list RiskSignal :=
  filter (fun s => String.eqb (signal_type s) t) l.




(** The flattened documents of a state: pseudo-IDs and texts. *)
Definition doc_ids_of (st : TenderAnalysisState) : list string :=
  dict_keys (SemanticAnalyzer.flatten_docs (organize_texts st)).


End Spec.

(* ================================================================== *)
(** ** Loops that fill a dictionary                                    *)
(* ================================================================== *)

Module Fill.

(** [for x in l: d[key(x)] = value(x)], the shape of the dictionary
    comprehension of [analyze_prices_node] and of the loops that build
    the per-bidder dictionaries. *)
Definition fill {A V : Type} (key : A -> string) (value : A -> V)
  (l : list A) (d : dict V) : dict V :=
  fold_left (fun d x => dict_set d (key x) (value x)) l d.

End Fill.

(* ================================================================== *)
(** ** ui/app.py: what the result page computes from a final state     *)
(* ================================================================== *)

Module Ui.
Import Agent.

(** [display_results]: the label next to the overall score. *)
Definition risk_level (risk_score : Q) : string :=
  if Qlt_bool 0.7 risk_score then "HIGH"
  else if Qlt_bool 0.4 risk_score then "MEDIUM"
  else "LOW".

(** [display_risk_signals]: [[s for s in risk_signals if s.severity == sev]],
    whose lengths are the three severity counters. *)
Definition with_severity (sev : string) (risk_signals : list RiskSignal)
  : list RiskSignal :=
  filter (fun s => String.eqb (severity s) sev) risk_signals.

Definition content_of (m : Message) : string :=
  match m with
  | SystemMessage c => c
  | HumanMessage c => c
  | AIMessage c => c
  end.

(** [display_executive_summary]: the content of the last message that is
    longer than 100 characters; [None] is the [for ... else] arm, "No
    executive summary generated." *)
Definition executive_summary (messages : list Message) : option string :=
  match find (fun m => (100 <? str_len (content_of m))%nat)
             (rev messages) with
  | Some m => Some (content_of m)
  | None => None
  end.

(** What [generate_report_node] sends to the chat model: the system
    prompt and the filled user prompt. *)
Definition risk_text (P : Providers) (st : TenderAnalysisState) : string :=
  let risk_summary := map (risk_line P) (risk_signals st) in
  match risk_summary with
  | [] => "No significant risks detected."
  | _ => join nl risk_summary
  end.

Definition report_prompt (P : Providers) (st : TenderAnalysisState)
  : list Message :=
  [SystemMessage system_prompt; HumanMessage (user_prompt st (risk_text P st))].

End Ui.

(* ================================================================== *)
(** ** More reference worlds and vocabulary                            *)
(* ================================================================== *)

Module Scenario.
Import Agent.

(** The embedding model and the chat model are both unavailable. *)
Definition two_down : Providers :=
  {| np_sqrt := np_sqrt Reference.quiet;
     pdf_pages := pdf_pages Reference.quiet;
     path_suffix_lower := path_suffix_lower Reference.quiet;
     encode_cos_sim := fun _ => Raise "embedding model unavailable";
     extract_stylometric_features :=
       extract_stylometric_features Reference.quiet;
     cosine_similarity := cosine_similarity Reference.quiet;
     greedy_modularity_communities :=
       greedy_modularity_communities Reference.quiet;
     find_cliques := find_cliques Reference.quiet;
     degree_centrality := degree_centrality Reference.quiet;
     llm_invoke := fun _ => Raise "chat model unavailable";
     format_2f := format_2f Reference.quiet |}.

(** The four signal types with the severities their nodes can give:
    only the price node can say [low]. *)
Definition well_formed_signal (s : RiskSignal) : Prop :=
  (signal_type s = "price_anomaly"
   /\ (severity s = "high" \/ severity s = "medium" \/ severity s = "low"))
  \/ ((signal_type s = "document_similarity"
       \/ signal_type s = "stylometry"
       \/ signal_type s = "relationship_network")
      /\ (severity s = "high" \/ severity s = "medium")).

End Scenario.

(* ================================================================== *)
(** ** Vocabulary for the cover-bidding loop                           *)
(* ================================================================== *)

Module Cover.
Import PriceAnalyzer.

(** [sorted_prices] and [sorted_bidders] of [detect_cover_bidding]. *)
Definition sorted_prices_of (bp : dict Q) : list Q :=
  map (fun i => nth i (dict_values bp) 0) (np_argsort (dict_values bp)).

Definition sorted_bidders_of (bp : dict Q) : list string :=
  map (fun i => nth i (dict_keys bp) "") (np_argsort (dict_values bp)).

(** The pattern the loop appends for the positions [i < j]. *)
Definition pattern_at (bp : dict Q) (i j : nat) : SuspiciousBid :=
  let pi := nth i (sorted_prices_of bp) 0 in
  let pj := nth j (sorted_prices_of bp) 0 in
  {| bidder1 := nth i (sorted_bidders_of bp) "";
     bidder2 := nth j (sorted_bidders_of bp) "";
     price1 := pi;
     price2 := pj;
     difference_pct := Qabs (pj - pi) / pi * 100;
     pattern := "clustered_high_bids" |}.

End Cover.

(* ================================================================== *)
(** ** Vocabulary for the relationship graph                           *)
(* ================================================================== *)

Module GraphSpec.
Import RelationshipAnalyzer.

(** The graph has an edge between [u] and [v] that lists the
    relationship type [t] and weighs at least [w]. *)
Definition edge_has (g : Graph) (u v t : string) (w : Q) : Prop :=
  exists d,
    get_edge (edges g) u v = Some d
    /\ In t (relationships d)
    /\ w <= weight d.

(** No two stored edges join the same unordered pair. *)
Definition keys_distinct (ks : list (string * string)) : Prop :=
  ForallOrdPairs
    (fun k1 k2 => same_edge (fst k1) (snd k1) (fst k2) (snd k2) = false) ks.

(** What [nx.Graph] guarantees: nodes are listed once, the endpoints of
    every edge are nodes, and an unordered pair has at most one edge. *)
Definition well_formed (g : Graph) : Prop :=
  NoDup (nodes g)
  /\ Forall (fun k => In (fst k) (nodes g) /\ In (snd k) (nodes g))
       (map fst (edges g))
  /\ keys_distinct (map fst (edges g)).

(** [g'] keeps what [g] had: its nodes, its typed and weighted edges,
    and its well-formedness. *)
Definition extends (g g' : Graph) : Prop :=
  (forall x, In x (nodes g) -> In x (nodes g'))
  /\ (forall x y t w, edge_has g x y t w -> edge_has g' x y t w)
  /\ (well_formed g -> well_formed g').

End GraphSpec.

(** Three bidders that give the same phone number. *)
Module Ring.
Import Agent.

Definition partner (id phone : string) : BidderInfo :=
  {| bidder_id := id; name := id; bid_amount := 100000;
     documents := []; contact_info := Some [("phone", phone)] |}.

Definition shared_phone : list BidderInfo :=
  [partner "B1" "555"; partner "B2" "555"; partner "B3" "555"].

End Ring.

(* ================================================================== *)
(** ** Vocabulary for the message log                                  *)
(* ================================================================== *)

Module Trail.
Import Agent.

(** The number of messages in the dictionary a node returns from its
    [try] block. *)
Definition written_by (n : Node) : nat :=
  match n with
  | generate_report => 2
  | _ => 1
  end.

(** [sum(written_by(n) for n in l)] *)
Definition written_by_all (l : list Node) : nat :=
  fold_right (fun n acc => (written_by n + acc)%nat) 0%nat l.

Definition is_ai (m : Message) : bool :=
  match m with
  | AIMessage _ => true
  | _ => false
  end.

End Trail.

(* ================================================================== *)
(** ** Vocabulary for the stylometric comparison                       *)
(* ================================================================== *)

(** The feature matrix that [compare_writing_styles] hands to the cosine:
    one row per document id, one column per feature name of the first
    document, 0 for a feature a document lacks. *)
Module StyleVectors.

Definition feature_names_of (features : dict (dict Q)) : list string :=
  match dict_values features with
  | f :: _ => dict_keys f
  | [] => []
  end.

Definition feature_matrix_of (features : dict (dict Q)) : list (list Q) :=
  map (fun doc_id =>
         map (fun fname =>
                match dict_get features doc_id with
                | Some f => match dict_get f fname with
                            | Some v => v
                            | None => 0
                            end
                | None => 0
                end) (feature_names_of features))
      (dict_keys features).

End StyleVectors.

(* ================================================================== *)
(** * Properties                                                       *)
(* ================================================================== *)

(** ** Floats, lists, sorting *)

Lemma Qlt_bool_iff (a b : Q) : Qlt_bool a b = true <-> a < b.
Proof.
  unfold Qlt_bool. rewrite negb_true_iff. split; intro H.
  - apply Qnot_le_lt. intro Hle. apply Qle_bool_iff in Hle. congruence.
  - destruct (Qle_bool b a) eqn:E; [|reflexivity].
    apply Qle_bool_iff in E. lra.
Qed.

Lemma Qlt_bool_false_iff (a b : Q) : Qlt_bool a b = false <-> b <= a.
Proof.
  split; intro H.
  - destruct (Qlt_le_dec a b) as [Hlt|Hle]; [|exact Hle].
    apply Qlt_bool_iff in Hlt. congruence.
  - destruct (Qlt_bool a b) eqn:E; [|reflexivity].
    apply Qlt_bool_iff in E. lra.
Qed.

Lemma max2_cases (a b : Q) :
  (max2 a b = a \/ max2 a b = b) /\ a <= max2 a b /\ b <= max2 a b.
Proof.
  unfold max2. destruct (Qlt_bool a b) eqn:E.
  - apply Qlt_bool_iff in E. repeat split; (auto || lra).
  - apply Qlt_bool_false_iff in E. repeat split; (auto || lra).
Qed.

Lemma fold_max2_ge (l : list Q) (x : Q) : x <= fold_left max2 l x.
Proof.
  revert x. induction l as [|y l IH]; intro x; simpl; [lra|].
  specialize (IH (max2 x y)).
  destruct (max2_cases x y) as (_ & Hx & _). lra.
Qed.

Lemma fold_max2_upper (l : list Q) (x : Q) :
  forall y, In y l -> y <= fold_left max2 l x.
Proof.
  revert x. induction l as [|z l IH]; intros x y Hin; simpl in *; [tauto|].
  destruct Hin as [->|Hin].
  - pose proof (fold_max2_ge l (max2 x y)) as H.
    destruct (max2_cases x y) as (_ & _ & Hy). lra.
  - apply IH; assumption.
Qed.

Lemma fold_max2_in (l : list Q) (x : Q) :
  fold_left max2 l x = x \/ In (fold_left max2 l x) l.
Proof.
  revert x. induction l as [|z l IH]; intro x; simpl; [left; reflexivity|].
  destruct (IH (max2 x z)) as [H|H].
  - rewrite H. destruct (max2_cases x z) as ([E|E] & _); rewrite E; auto.
  - right. right. exact H.
Qed.

Section SortPerm.
Context {A : Type}.
Variable key : A -> Q.

Lemma insert_desc_perm (x : A) (l : list A) :
  Permutation (insert_desc key x l) (x :: l).
Proof.
  induction l as [|y l IH]; simpl; [reflexivity|].
  destruct (Qle_bool (key y) (key x)); [reflexivity|].
  rewrite IH. apply perm_swap.
Qed.

Lemma sort_desc_perm (l : list A) : Permutation (sort_desc key l) l.
Proof.
  induction l as [|x l IH]; simpl; [reflexivity|].
  rewrite insert_desc_perm. constructor. exact IH.
Qed.

Lemma insert_asc_perm (x : A) (l : list A) :
  Permutation (insert_asc key x l) (x :: l).
Proof.
  induction l as [|y l IH]; simpl; [reflexivity|].
  destruct (Qle_bool (key x) (key y)); [reflexivity|].
  rewrite IH. apply perm_swap.
Qed.

Lemma sort_asc_perm (l : list A) : Permutation (sort_asc key l) l.
Proof.
  induction l as [|x l IH]; simpl; [reflexivity|].
  rewrite insert_asc_perm. constructor. exact IH.
Qed.

End SortPerm.

(** ** The relationship graph *)

Module GraphFacts.
Import RelationshipAnalyzer.

Lemma same_edge_true (u v a b : string) :
  same_edge u v a b = true <-> (u = a /\ v = b) \/ (u = b /\ v = a).
Proof.
  unfold same_edge.
  rewrite orb_true_iff, !andb_true_iff, !String.eqb_eq. tauto.
Qed.

Lemma same_edge_refl (u v : string) : same_edge u v u v = true.
Proof. apply same_edge_true. auto. Qed.

(** Two names of one stored edge name each other. *)
Lemma same_edge_trans (u v a b x y : string) :
  same_edge u v a b = true -> same_edge x y a b = true ->
  same_edge u v x y = true.
Proof.
  rewrite !same_edge_true. intros [[-> ->]|[-> ->]] [[-> ->]|[-> ->]]; auto.
Qed.

Lemma get_update_same es u v f d :
  get_edge es u v = Some d ->
  get_edge (update_edge es u v f) u v = Some (f d).
Proof.
  induction es as [|[[a b] d'] es IH]; simpl; [discriminate|].
  destruct (same_edge u v a b) eqn:E; simpl; rewrite E.
  - intros [= ->]. reflexivity.
  - exact IH.
Qed.

Lemma get_update_other es u v f x y :
  same_edge u v x y = false ->
  get_edge (update_edge es u v f) x y = get_edge es x y.
Proof.
  intro Hne. induction es as [|[[a b] d'] es IH]; simpl; [reflexivity|].
  destruct (same_edge u v a b) eqn:E; simpl.
  - destruct (same_edge x y a b) eqn:E'; [|reflexivity].
    rewrite (same_edge_trans _ _ _ _ _ _ E E') in Hne. discriminate.
  - rewrite IH. reflexivity.
Qed.

Lemma update_edge_endpoints es u v f :
  map fst (update_edge es u v f) = map fst es.
Proof.
  induction es as [|[[a b] d'] es IH]; simpl; [reflexivity|].
  destruct (same_edge u v a b); simpl; [reflexivity|].
  rewrite IH. reflexivity.
Qed.

End GraphFacts.

(** C10: when [add_relationship] is called for two bidders that already
    share an edge with attributes [d], the edge afterwards carries the
    larger of the old and the new weight, the old relationship list with
    the new type appended, and the evidence of the first insertion; the
    evidence argument of the call plays no role, and the nodes, the
    endpoints of all edges and the attributes of every other edge are as
    before. *)
Theorem add_relationship_merge
  (g : RelationshipAnalyzer.Graph) (b1 b2 rtype : string) (w : Q)
  (ev : option (dict RelationshipAnalyzer.EvValue))
  (d : RelationshipAnalyzer.EdgeData)
  (Hedge : RelationshipAnalyzer.get_edge (RelationshipAnalyzer.edges g) b1 b2
           = Some d) :
  let g' := RelationshipAnalyzer.add_relationship g b1 b2 rtype w ev in
  (exists d',
      RelationshipAnalyzer.get_edge (RelationshipAnalyzer.edges g') b1 b2
      = Some d'
      /\ RelationshipAnalyzer.weight d'
         = max2 (RelationshipAnalyzer.weight d) w
      /\ RelationshipAnalyzer.weight d <= RelationshipAnalyzer.weight d'
      /\ w <= RelationshipAnalyzer.weight d'
      /\ RelationshipAnalyzer.relationships d'
         = RelationshipAnalyzer.relationships d ++ [rtype]
      /\ RelationshipAnalyzer.evidence d' = RelationshipAnalyzer.evidence d)
  /\ (forall ev', RelationshipAnalyzer.add_relationship g b1 b2 rtype w ev'
                  = g')
  /\ RelationshipAnalyzer.nodes g' = RelationshipAnalyzer.nodes g
  /\ map fst (RelationshipAnalyzer.edges g')
     = map fst (RelationshipAnalyzer.edges g)
  /\ (forall x y, RelationshipAnalyzer.same_edge b1 b2 x y = false ->
        RelationshipAnalyzer.get_edge (RelationshipAnalyzer.edges g') x y
        = RelationshipAnalyzer.get_edge (RelationshipAnalyzer.edges g) x y).
Proof.
  intro g'. subst g'. unfold RelationshipAnalyzer.add_relationship,
    RelationshipAnalyzer.has_edge. rewrite Hedge. simpl.
  repeat split.
  - eexists. split; [apply GraphFacts.get_update_same; exact Hedge|].
    simpl. destruct (max2_cases (RelationshipAnalyzer.weight d) w)
      as (_ & H1 & H2). auto.
  - apply GraphFacts.update_edge_endpoints.
  - intros x y Hne. apply GraphFacts.get_update_other. exact Hne.
Qed.

Lemma add_relationship_merge_witness :
  exists d',
    RelationshipAnalyzer.get_edge
      (RelationshipAnalyzer.edges
         (RelationshipAnalyzer.add_relationship Reference.one_edge
            "B2" "B1" "shared_email" 0.8
            (Some [("email", RelationshipAnalyzer.EvStr "bids@example.org")])))
      "B2" "B1" = Some d'
    /\ RelationshipAnalyzer.weight d' = 0.9
    /\ RelationshipAnalyzer.relationships d'
       = ["document_similarity"; "shared_email"]
    /\ RelationshipAnalyzer.evidence d'
       = [("similarity_score", RelationshipAnalyzer.EvFloat 0.9)].
Proof.
  destruct (add_relationship_merge Reference.one_edge "B2" "B1"
              "shared_email" 0.8
              (Some [("email", RelationshipAnalyzer.EvStr "bids@example.org")])
              {| RelationshipAnalyzer.weight := 0.9;
                 RelationshipAnalyzer.relationships := ["document_similarity"];
                 RelationshipAnalyzer.evidence :=
                   [("similarity_score", RelationshipAnalyzer.EvFloat 0.9)] |}
              eq_refl)
    as ((d' & H1 & H2 & _ & _ & H3 & H4) & _).
  exists d'. repeat split; assumption.
Defined.

(** ** One step of the workflow *)

Module StepFacts.
Import Agent Run.

(** Opens a node: unfolds it down to the provider-dependent calls of its
    [try] block and splits on their outcomes. *)
Ltac open_body :=
  unfold node_body, extract_documents_body, analyze_prices_body,
    analyze_similarity_body, analyze_stylometry_body,
    build_relationship_graph_body, generate_report_body,
    DocumentProcessor.process_tender_documents, bind in *.

Ltac is_call c :=
  lazymatch c with
  | context [match _ with Ok _ => _ | Raise _ => _ end] => fail
  | Ok _ => fail
  | Raise _ => fail
  | _ => idtac
  end.

Ltac split_calls :=
  repeat match goal with
    | |- context [match ?c with Ok _ => _ | Raise _ => _ end] =>
        is_call c; destruct c eqn:?
    | H : context [match ?c with Ok _ => _ | Raise _ => _ end] |- _ =>
        is_call c; destruct c eqn:?
    end.

Ltac open_node :=
  unfold step, node_function, extract_documents_node, analyze_prices_node,
    analyze_similarity_node, analyze_stylometry_node,
    build_relationship_graph_node, generate_report_node;
  open_body; split_calls.

Lemma price_signals_type bp r :
  Forall (fun s => signal_type s = "price_anomaly") (price_signals bp r).
Proof.
  unfold price_signals. destruct (Qlt_bool 0 (PriceAnalyzer.risk_score r));
    repeat constructor.
Qed.

Lemma group_signals_type n groups :
  forall acc out,
    Forall (fun s => signal_type s = "relationship_network") acc ->
    for_each groups
      (fun acc g => bind (group_signal n g) (fun s => Ok (acc ++ [s]))) acc
    = Ok out ->
    Forall (fun s => signal_type s = "relationship_network") out.
Proof.
  induction groups as [|g groups IH]; intros acc out Hacc H; simpl in H.
  - congruence.
  - unfold bind at 1 in H. unfold group_signal in H at 1.
    unfold bind at 1 in H.
    destruct (int_div (RelationshipAnalyzer.size g) n); [|discriminate].
    cbn [bind] in H. eapply IH; [|exact H].
    apply Forall_app. split; [exact Hacc|]. repeat constructor.
Qed.

(** What one step does to the signal list. *)
Lemma step_signals P n st :
  exists new,
    risk_signals (step P n st) = risk_signals st ++ new
    /\ Forall (fun s => signal_type s = emits n) new.
Proof.
  destruct n; open_node; cbn [apply_patch risk_signals or_keep
    p_risk_signals error_patch];
    try (exists []; rewrite app_nil_r; split; [reflexivity|constructor]).
  - eexists; split; [reflexivity|]. apply price_signals_type.
  - eexists; split; [reflexivity|]. apply Forall_map, Forall_forall.
    reflexivity.
  - eexists; split; [reflexivity|]. apply Forall_map, Forall_forall.
    reflexivity.
  - eexists; split; [reflexivity|].
    eapply group_signals_type; [|eassumption]. constructor.
Qed.

(** A node whose [try] block raises records the message and writes
    nothing else, apart from [current_step] in [extract_documents]. *)
Lemma step_raise P n st m :
  node_body P n st = Raise m ->
  let st' := step P n st in
  error st' = Some m
  /\ risk_signals st' = risk_signals st
  /\ extracted_text st' = extracted_text st
  /\ price_analysis st' = price_analysis st
  /\ similarity_analysis st' = similarity_analysis st
  /\ stylometry_analysis st' = stylometry_analysis st
  /\ relationship_graph st' = relationship_graph st
  /\ overall_risk_score st' = overall_risk_score st
  /\ analysis_complete st' = analysis_complete st
  /\ current_step st'
     = match n with
       | extract_documents => "document_extraction_failed"
       | _ => current_step st
       end.
Proof.
  intros H st'. subst st'. destruct n; revert H; open_node; intro H;
    try discriminate H; inversion H; subst; cbn; repeat split; reflexivity.
Qed.

(** A node whose [try] block returns writes its slot and its step name;
    before [generate_report] nothing touches the error, the completion
    flag or the overall score. *)
Lemma step_ok P n st p :
  node_body P n st = Ok p ->
  let st' := step P n st in
  slot_written n st' = true
  /\ current_step st' = step_name n
  /\ error st' = error st
  /\ (n <> generate_report ->
      analysis_complete st' = analysis_complete st
      /\ overall_risk_score st' = overall_risk_score st).
Proof.
  intros H st'. subst st'. destruct n; revert H; open_node; intro H;
    try discriminate H; cbn; repeat split; try reflexivity; congruence.
Qed.

(** Nothing that was written is taken back by a later step. *)
Lemma slot_written_step P n n' st :
  slot_written n st = true -> slot_written n (step P n' st) = true.
Proof.
  intro H. destruct n, n'; open_node; cbn in *; try reflexivity;
    try assumption;
    repeat match goal with
      | H : is_some ?o = true |- _ => destruct o; [clear H|discriminate H]
      end; reflexivity.
Qed.

Lemma error_step P n st :
  error st <> None -> error (step P n st) <> None.
Proof.
  intro H. destruct n; open_node; cbn; try assumption; discriminate.
Qed.

Lemma slot_written_run P n l st :
  slot_written n st = true -> slot_written n (run_nodes P l st) = true.
Proof.
  revert st. induction l as [|n' l IH]; intros st H; simpl; [exact H|].
  apply IH, slot_written_step, H.
Qed.

Lemma error_run P l st :
  error st <> None -> error (run_nodes P l st) <> None.
Proof.
  revert st. induction l as [|n' l IH]; intros st H; simpl; [exact H|].
  apply IH, error_step, H.
Qed.

Lemma pipeline_split n : pipeline = nodes_before n ++ n :: nodes_after n.
Proof. destruct n; reflexivity. Qed.

(** The compiled graph runs the six nodes in order, whatever they
    return: every edge between two nodes is unconditional. *)
Lemma invoke_pipeline P st : invoke P st = run_nodes P pipeline st.
Proof.
  unfold invoke, recursion_limit, entry_point.
  cbn [run_from next_node run_nodes pipeline fold_left].
  destruct (String.eqb _ _); [|destruct (String.eqb _ _)]; reflexivity.
Qed.

Lemma invoke_split P n st :
  invoke P st = run_nodes P (nodes_after n) (step P n (state_before P n st)).
Proof.
  rewrite invoke_pipeline, (pipeline_split n). unfold run_nodes, state_before.
  rewrite fold_left_app. reflexivity.
Qed.

End StepFacts.

(** ** The orchestrator *)

Import Agent Run Spec StepFacts.

(** C9: whatever the providers do, the state after any node holds the
    signals of the state before it, in the same order, followed by the
    signals the node emitted (possibly none); hence the signals of every
    state of a run are a prefix of the signals at exit. *)
Theorem risk_signals_append_only (P : Providers) :
  (forall n st, exists new,
      risk_signals (step P n st) = risk_signals st ++ new)
  /\ (forall l st, exists new,
        risk_signals (run_nodes P l st) = risk_signals st ++ new)
  /\ (forall n st0, exists new,
        risk_signals (invoke P st0)
        = risk_signals (state_before P n st0) ++ new).
Proof.
  assert (Hstep : forall n st, exists new,
             risk_signals (step P n st) = risk_signals st ++ new).
  { intros n st. destruct (step_signals P n st) as (new & H & _).
    exists new. exact H. }
  assert (Hrun : forall l st, exists new,
             risk_signals (run_nodes P l st) = risk_signals st ++ new).
  { induction l as [|n l IH]; intro st.
    - exists []. rewrite app_nil_r. reflexivity.
    - change (run_nodes P (n :: l) st) with (run_nodes P l (step P n st)).
      destruct (IH (step P n st)) as (new2 & H2).
      destruct (Hstep n st) as (new1 & H1).
      exists (new1 ++ new2).
      rewrite H2, H1, app_assoc. reflexivity. }
  repeat split; [exact Hstep|exact Hrun|].
  intros n st0. rewrite (invoke_split P n).
  destruct (Hrun (nodes_after n) (step P n (state_before P n st0)))
    as (new2 & H2).
  destruct (Hstep n (state_before P n st0)) as (new1 & H1).
  exists (new1 ++ new2). rewrite H2, H1, app_assoc. reflexivity.
Qed.

(** C1, the claim fails: the embedding model raises inside
    [analyze_similarity] for two bidders with one document each, and the
    run neither stops nor marks the step as failed. *)
Lemma stage_failure_does_not_halt :
  let st0 := initial_state "T" "d" Reference.two_with_docs
               ["b1.pdf"; "b2.pdf"] in
  let final := run_analysis Reference.embedder_down "T" "d"
                 Reference.two_with_docs ["b1.pdf"; "b2.pdf"] in
  node_body Reference.embedder_down analyze_similarity
    (state_before Reference.embedder_down analyze_similarity st0)
  = Raise "embedding model unavailable"
  /\ error final = Some "embedding model unavailable"
  /\ current_step final = "report_generation"
  /\ slot_written analyze_stylometry final = true
  /\ slot_written build_relationship_graph final = true
  /\ analysis_complete final = true
  /\ ~ halted_at analyze_similarity final.
Proof.
  repeat split; try (vm_compute; reflexivity).
  intros (_ & _ & _ & H). vm_compute in H. discriminate H.
Qed.

(** C1 as amended: when the [try] block of a node raises, the node
    records the message in [error] and leaves the signals, every result
    slot, the overall score and the completion flag as they were; the
    workflow does not stop: all later nodes still run, in order, on the
    state that carries the error, the error is still set at exit, and
    every later node whose own [try] block returns has written its slot
    (for [generate_report]: the completion flag) at exit. *)
Theorem stage_failure_recorded_run_continues
  (P : Providers) (st0 : TenderAnalysisState) (n : Node) (m : string)
  (Hraise : node_body P n (state_before P n st0) = Raise m) :
  let st1 := state_before P n st0 in
  let st2 := step P n st1 in
  (error st2 = Some m
   /\ risk_signals st2 = risk_signals st1
   /\ price_analysis st2 = price_analysis st1
   /\ similarity_analysis st2 = similarity_analysis st1
   /\ stylometry_analysis st2 = stylometry_analysis st1
   /\ relationship_graph st2 = relationship_graph st1
   /\ overall_risk_score st2 = overall_risk_score st1
   /\ analysis_complete st2 = analysis_complete st1)
  /\ invoke P st0 = run_nodes P (nodes_after n) st2
  /\ error (invoke P st0) <> None
  /\ (forall n' p', In n' (nodes_after n) ->
        node_body P n' (state_before P n' st0) = Ok p' ->
        slot_written n' (invoke P st0) = true).
Proof.
  intros st1 st2.
  destruct (step_raise P n st1 m Hraise)
    as (He & Hs & _ & H1 & H2 & H3 & H4 & H5 & H6 & _).
  fold st2 in He, Hs, H1, H2, H3, H4, H5, H6.
  split; [repeat split; assumption|].
  split; [apply invoke_split|].
  split.
  - rewrite (invoke_split P n). apply error_run. fold st1 st2.
    rewrite He. discriminate.
  - intros n' p' _ Hok. rewrite (invoke_split P n').
    apply slot_written_run.
    destruct (step_ok P n' _ p' Hok) as (Hw & _). exact Hw.
Qed.

Lemma stage_failure_recorded_run_continues_witness :
  error (invoke Reference.embedder_down
           (initial_state "T" "d" Reference.two_with_docs
              ["b1.pdf"; "b2.pdf"])) <> None.
Proof.
  exact (proj1 (proj2 (proj2
    (stage_failure_recorded_run_continues Reference.embedder_down
       (initial_state "T" "d" Reference.two_with_docs ["b1.pdf"; "b2.pdf"])
       analyze_similarity "embedding model unavailable" eq_refl)))).
Defined.

(** C3, the claim fails: with a single bidder without documents every
    node before the report returns (the similarity and the stylometry
    engine have fewer than two texts and call no model, the graph has one
    node), the chat model raises, and the run exits with
    [analysis_complete] false. *)
Lemma summarizer_failure_is_not_absorbed :
  let st0 := initial_state "T" "d" [Reference.bidder "B1" 12345 []] [] in
  (forall n, n <> generate_report ->
     exists p, node_body Reference.llm_down n
                 (state_before Reference.llm_down n st0) = Ok p)
  /\ node_body Reference.llm_down generate_report
       (state_before Reference.llm_down generate_report st0)
     = Raise "chat model unavailable"
  /\ analysis_complete
       (run_analysis Reference.llm_down "T" "d"
          [Reference.bidder "B1" 12345 []] [])
     <> true.
Proof.
  split; [|split].
  - intros n Hn.
    destruct (node_body Reference.llm_down n
                (state_before Reference.llm_down n
                   (initial_state "T" "d"
                      [Reference.bidder "B1" 12345 []] [])))
      eqn:E; [eexists; reflexivity|].
    destruct n; try congruence; vm_compute in E; discriminate E.
  - vm_compute. reflexivity.
  - vm_compute. discriminate.
Qed.

(** The state on which [generate_report] runs when the five analysis
    nodes have returned. *)
Lemma before_report_all_ok P st0 :
  (forall n, n <> generate_report ->
     exists p, node_body P n (state_before P n st0) = Ok p) ->
  let st5 := state_before P generate_report st0 in
  error st5 = error st0
  /\ analysis_complete st5 = analysis_complete st0
  /\ overall_risk_score st5 = overall_risk_score st0
  /\ current_step st5 = "relationship_graph"
  /\ (forall n, n <> generate_report -> slot_written n st5 = true).
Proof.
  intros Hall st5.
  destruct (Hall extract_documents) as (p1 & H1); [discriminate|].
  destruct (Hall analyze_prices) as (p2 & H2); [discriminate|].
  destruct (Hall analyze_similarity) as (p3 & H3); [discriminate|].
  destruct (Hall analyze_stylometry) as (p4 & H4); [discriminate|].
  destruct (Hall build_relationship_graph) as (p5 & H5); [discriminate|].
  apply step_ok in H1, H2, H3, H4, H5.
  destruct H1 as (W1 & _ & E1 & F1), H2 as (W2 & _ & E2 & F2),
    H3 as (W3 & _ & E3 & F3), H4 as (W4 & _ & E4 & F4),
    H5 as (W5 & C5 & E5 & F5).
  destruct F1 as (A1 & O1); [discriminate|].
  destruct F2 as (A2 & O2); [discriminate|].
  destruct F3 as (A3 & O3); [discriminate|].
  destruct F4 as (A4 & O4); [discriminate|].
  destruct F5 as (A5 & O5); [discriminate|].
  subst st5.
  change (state_before P generate_report st0)
    with (step P build_relationship_graph
            (state_before P build_relationship_graph st0)).
  change (state_before P build_relationship_graph st0)
    with (step P analyze_stylometry (state_before P analyze_stylometry st0))
    in *.
  change (state_before P analyze_stylometry st0)
    with (step P analyze_similarity (state_before P analyze_similarity st0))
    in *.
  change (state_before P analyze_similarity st0)
    with (step P analyze_prices (state_before P analyze_prices st0)) in *.
  change (state_before P analyze_prices st0)
    with (step P extract_documents (state_before P extract_documents st0))
    in *.
  change (state_before P extract_documents st0) with st0 in *.
  repeat split.
  - congruence.
  - congruence.
  - congruence.
  - exact C5.
  - intros n Hn. destruct n; try congruence;
      repeat (first [assumption | apply slot_written_step]).
Qed.

(** C3 as amended: when the five analysis nodes return and only the chat
    model raises, the run exits with the message in [error],
    [analysis_complete] false, the overall score at its initial 0.0 and
    [current_step] still naming the relationship node; the four result
    slots are written. *)
Theorem summarizer_failure_recorded
  (P : Providers) (tid descr : string) (bs : list BidderInfo)
  (docs : list string) (m : string) :
  let st0 := initial_state tid descr bs docs in
  (forall n, n <> generate_report ->
     exists p, node_body P n (state_before P n st0) = Ok p) ->
  node_body P generate_report (state_before P generate_report st0)
  = Raise m ->
  let final := run_analysis P tid descr bs docs in
  analysis_complete final = false
  /\ error final = Some m
  /\ overall_risk_score final = 0.0
  /\ current_step final = "relationship_graph"
  /\ price_analysis final <> None
  /\ similarity_analysis final <> None
  /\ stylometry_analysis final <> None
  /\ relationship_graph final <> None.
Proof.
  intros st0 Hall Hraise final.
  destruct (before_report_all_ok P st0 Hall) as (_ & A & O & C & W).
  destruct (step_raise P _ _ _ Hraise)
    as (He & _ & _ & S1 & S2 & S3 & S4 & Ho & Ha & Hc).
  assert (Hfinal : final = step P generate_report
                             (state_before P generate_report st0)).
  { unfold final, run_analysis. fold st0.
    rewrite (invoke_split P generate_report). reflexivity. }
  rewrite Hfinal. rewrite He, Ho, Ha, Hc, S1, S2, S3, S4, A, O, C.
  pose proof (W analyze_prices ltac:(discriminate)) as W1.
  pose proof (W analyze_similarity ltac:(discriminate)) as W2.
  pose proof (W analyze_stylometry ltac:(discriminate)) as W3.
  pose proof (W build_relationship_graph ltac:(discriminate)) as W4.
  cbn [slot_written] in W1, W2, W3, W4.
  repeat split; try reflexivity;
    match goal with
    | |- ?o <> None => destruct o; [discriminate|discriminate]
    end.
Qed.

Lemma summarizer_failure_recorded_witness :
  error (run_analysis Reference.llm_down "T" "d"
           [Reference.bidder "B1" 12345 []] [])
  = Some "chat model unavailable".
Proof.
  refine (proj1 (proj2
    (summarizer_failure_recorded Reference.llm_down "T" "d"
       [Reference.bidder "B1" 12345 []] []
       "chat model unavailable" _ eq_refl))).
  intros n Hn.
  destruct (node_body Reference.llm_down n
              (state_before Reference.llm_down n
                 (initial_state "T" "d"
                    [Reference.bidder "B1" 12345 []] [])))
    eqn:E; [eexists; reflexivity|].
  destruct n; try congruence; vm_compute in E; discriminate E.
Defined.

(** [max(l) if l else 0.0] is the maximum in the sense of the
    specification. *)
Lemma max_list_is_max (l : list Q) : is_max_of (max_list l 0.0) l.
Proof.
  destruct l as [|x l]; simpl; [reflexivity|]. split.
  - destruct (fold_max2_in l x) as [H|H].
    + exists x. split; [left; reflexivity|]. rewrite H. reflexivity.
    + exists (fold_left max2 l x). split; [right; exact H|reflexivity].
  - intros y [<-|Hy]; [apply fold_max2_ge|apply fold_max2_upper, Hy].
Qed.

(** C4, the claim fails: the price node emits a signal of score 0.5 for
    three identical bids, the chat model raises, and the run exits with
    the overall score still 0. *)
Lemma overall_score_not_max_without_report :
  let final :=
    run_analysis Reference.llm_down "T" "d" Reference.identical_bids [] in
  map score (risk_signals final) = [0.50]
  /\ overall_risk_score final = 0.0
  /\ ~ is_max_of (overall_risk_score final) (map score (risk_signals final)).
Proof.
  split; [vm_compute; reflexivity|].
  split; [vm_compute; reflexivity|].
  intro H. vm_compute in H. destruct H as (_ & H).
  specialize (H _ (or_introl eq_refl)). vm_compute in H. apply H. reflexivity.
Qed.

(** C4 as amended: in every run in which [generate_report] returns, the
    overall score at exit is the maximum of the scores of the signals at
    exit, and 0 when there are none (and the run is marked complete). *)
Theorem overall_score_is_max_after_report
  (P : Providers) (tid descr : string) (bs : list BidderInfo)
  (docs : list string) (p : Patch) :
  let st0 := initial_state tid descr bs docs in
  node_body P generate_report (state_before P generate_report st0) = Ok p ->
  let final := run_analysis P tid descr bs docs in
  is_max_of (overall_risk_score final) (map score (risk_signals final))
  /\ analysis_complete final = true.
Proof.
  intros st0 Hok final.
  assert (Hfinal : final = step P generate_report
                             (state_before P generate_report st0)).
  { unfold final, run_analysis. fold st0.
    rewrite (invoke_split P generate_report). reflexivity. }
  rewrite Hfinal. clear Hfinal final.
  revert Hok. generalize (state_before P generate_report st0) as st5.
  intros st5. open_node; intro Hok; [|discriminate Hok].
  cbn. split; [apply max_list_is_max|reflexivity].
Qed.

Lemma overall_score_is_max_after_report_witness :
  is_max_of
    (overall_risk_score
       (run_analysis Reference.quiet "T" "d" Reference.identical_bids []))
    (map score
       (risk_signals
          (run_analysis Reference.quiet "T" "d" Reference.identical_bids []))).
Proof.
  refine (proj1
    (overall_score_is_max_after_report Reference.quiet "T" "d"
       Reference.identical_bids [] _ _)).
  vm_compute. reflexivity.
Defined.

(** C2, the claim fails: an empty bidder list, a negative bid and a
    repeated [bidder_id] all go through the nodes; the price slot is
    written in each of the three runs. *)
Lemma no_validation_before_stages :
  let empty := run_analysis Reference.quiet "T" "d" [] [] in
  let negative :=
    run_analysis Reference.quiet "T" "d"
      [Reference.bidder "B1" (-5) []; Reference.bidder "B2" 120 []] [] in
  let repeated :=
    run_analysis Reference.quiet "T" "d"
      [Reference.bidder "B1" 100 []; Reference.bidder "B1" 120 []] [] in
  (price_analysis empty <> None /\ ~ validation_rejected empty)
  /\ (price_analysis negative <> None /\ ~ validation_rejected negative)
  /\ (price_analysis repeated <> None /\ ~ validation_rejected repeated).
Proof.
  repeat split;
    try (vm_compute; discriminate);
    intros (_ & H & _); vm_compute in H; discriminate H.
Qed.

(** C2 as amended: [run_analysis] validates nothing.  For every input,
    also one with an empty bidder list, a negative bid or a repeated
    [bidder_id], it starts from the initial state, the extraction node
    returns without an error, and the five other nodes run on its result;
    with an empty bidder list the price node writes its slot. *)
Theorem run_analysis_has_no_validation
  (P : Providers) (tid descr : string) (bs : list BidderInfo)
  (docs : list string) :
  let st0 := initial_state tid descr bs docs in
  let st1 := step P extract_documents st0 in
  (exists p, node_body P extract_documents st0 = Ok p)
  /\ error st1 = None
  /\ current_step st1 = "document_extraction"
  /\ run_analysis P tid descr bs docs
     = run_nodes P (nodes_after extract_documents) st1
  /\ price_analysis (run_analysis P tid descr [] docs) <> None.
Proof.
  intros st0 st1. split; [|split; [|split; [|split]]].
  - eexists. reflexivity.
  - reflexivity.
  - reflexivity.
  - unfold run_analysis. fold st0.
    rewrite (invoke_split P extract_documents). reflexivity.
  - assert (Hw : slot_written analyze_prices
                   (run_analysis P tid descr [] docs) = true).
    { unfold run_analysis. rewrite (invoke_split P analyze_prices).
      apply slot_written_run.
      destruct (node_body P analyze_prices
                  (state_before P analyze_prices
                     (initial_state tid descr [] docs))) eqn:E.
      - destruct (step_ok P _ _ _ E) as (Hw & _). exact Hw.
      - vm_compute in E. discriminate E. }
    cbn [slot_written] in Hw.
    destruct (price_analysis _); [discriminate|discriminate].
Qed.

(** ** The price engine *)

Module PriceFacts.
Import Agent Run Spec PriceAnalyzer.

(** The result of [analyze_price_patterns], read off its three tests. *)
Lemma analyze_price_patterns_inv sqrt thr bp r :
  analyze_price_patterns sqrt thr bp = Ok r ->
  exists c,
    detect_cover_bidding bp 0.05 = Ok c
    /\ outlier_analysis r = detect_outliers sqrt thr (dict_values bp)
    /\ cover_bidding_analysis r = c
    /\ round_number_ratio r = round_ratio_of (dict_values bp)
    /\ risk_score r
       = flags_score (low_variation (outlier_analysis r)) (has_pattern c)
           (Qlt_bool 0.5 (round_number_ratio r))
    /\ risk_indicators r
       = flags_indicators (low_variation (outlier_analysis r)) (has_pattern c)
           (Qlt_bool 0.5 (round_number_ratio r))
    /\ severity r = severity_of (risk_score r).
Proof.
  unfold analyze_price_patterns, bind.
  destruct (detect_cover_bidding bp 0.05) as [c|] eqn:Hc; [|discriminate].
  fold (round_ratio_of (dict_values bp)).
  unfold low_variation, has_pattern.
  destruct (Qlt_bool (get_coefficient_variation
                        (detect_outliers sqrt thr (dict_values bp))) 0.1)
    eqn:Hv;
    destruct (suspicious_patterns c) eqn:Hs;
    destruct (Qlt_bool 0.5 (round_ratio_of (dict_values bp))) eqn:Hr;
    intros [= <-]; exists c; cbn [outlier_analysis cover_bidding_analysis
      round_number_ratio risk_score risk_indicators severity];
    rewrite ?Hv, ?Hs, ?Hr; repeat split; reflexivity.
Qed.

(** The code's score is the score of the specification, and the code's
    severity its severity ladder. *)
Lemma flags_score_spec cv b2 ratio :
  flags_score (Qlt_bool cv 0.1) b2 (Qlt_bool 0.5 ratio)
  == price_score cv b2 ratio.
Proof.
  unfold flags_score, price_score.
  destruct (Qlt_bool cv 0.1), b2, (Qlt_bool 0.5 ratio); vm_compute;
    reflexivity.
Qed.

Lemma flags_score_values b1 b2 b3 :
  flags_score b1 b2 b3
  == (if b1 then 0.3 else 0) + (if b2 then 0.4 else 0)
     + (if b3 then 0.2 else 0).
Proof. destruct b1, b2, b3; vm_compute; reflexivity. Qed.

Lemma severity_of_spec s : severity_of s = price_severity s.
Proof. reflexivity. Qed.

(** *** The analysis returns on positive bids *)

Lemma for_each_total {A S : Type} (l : list A) (body : S -> A -> Exc S) :
  (forall s x, In x l -> exists s', body s x = Ok s') ->
  forall s, exists s', for_each l body s = Ok s'.
Proof.
  induction l as [|x l IH]; intros Hbody s; simpl; [eauto|].
  destruct (Hbody s x (or_introl eq_refl)) as (s1 & H1). rewrite H1. simpl.
  apply IH. intros s0 y Hy. apply Hbody. right. exact Hy.
Qed.

Lemma float_div_ok a b : 0 < b -> float_div a b = Ok (a / b).
Proof.
  intro Hb. unfold float_div.
  destruct (Qeq_bool b 0) eqn:E; [|reflexivity].
  apply Qeq_bool_iff in E. lra.
Qed.

Lemma argsort_lt (a : list Q) :
  Forall (fun i => (i < List.length a)%nat) (np_argsort a).
Proof.
  apply Forall_forall. intros i Hi. unfold np_argsort in Hi.
  apply (Permutation_in _ (sort_asc_perm _ _)) in Hi.
  apply in_seq in Hi. lia.
Qed.

Lemma sorted_prices_positive (prices : list Q) :
  Forall (fun p => 0 < p) prices ->
  Forall (fun p => 0 < p) (map (fun i => nth i prices 0) (np_argsort prices)).
Proof.
  intro Hpos. apply Forall_map. eapply Forall_impl; [|apply argsort_lt].
  intros i Hi. cbv beta in *. rewrite Forall_forall in Hpos.
  apply Hpos, nth_In, Hi.
Qed.

Lemma nth_positive (l : list Q) (i : nat) :
  Forall (fun p => 0 < p) l -> (i < List.length l)%nat -> 0 < nth i l 0.
Proof.
  intros Hpos Hi. rewrite Forall_forall in Hpos. apply Hpos, nth_In, Hi.
Qed.

Lemma detect_cover_bidding_total bp m :
  Forall (fun p => 0 < p) (dict_values bp) ->
  exists c, detect_cover_bidding bp m = Ok c.
Proof.
  intro Hpos. unfold detect_cover_bidding.
  destruct (List.length (dict_values bp) <? 2)%nat eqn:Hlen; [eauto|].
  apply Nat.ltb_ge in Hlen.
  set (sp := map (fun i => nth i (dict_values bp) 0)
                 (np_argsort (dict_values bp))).
  assert (Hsp : Forall (fun p => 0 < p) sp)
    by (apply sorted_prices_positive, Hpos).
  assert (Hn : List.length sp = List.length (dict_values bp)).
  { unfold sp, np_argsort. rewrite length_map.
    rewrite (Permutation_length (sort_asc_perm _ _)). apply length_seq. }
  destruct (for_each_total (range 1 (List.length sp))
              (cover_outer sp
                 (map (fun i => nth i (dict_keys bp) "")
                      (np_argsort (dict_values bp)))
                 m (nth 0 sp 0))) with (s := @nil SuspiciousBid)
    as (out & Hout).
  - intros acc i Hi. apply in_seq in Hi. unfold cover_outer.
    rewrite float_div_ok by (apply nth_positive; [exact Hsp|lia]).
    cbn [bind].
    destruct (Qlt_bool 0.15 _); [|eauto].
    apply for_each_total. intros acc' j _. unfold cover_inner.
    rewrite float_div_ok by (apply nth_positive; [exact Hsp|lia]).
    cbn [bind]. destruct (Qlt_bool _ m); eauto.
  - rewrite Hout. cbn [bind]. eauto.
Qed.

Lemma analyze_price_patterns_total sqrt thr bp :
  Forall (fun p => 0 < p) (dict_values bp) ->
  exists r, analyze_price_patterns sqrt thr bp = Ok r.
Proof.
  intro Hpos. destruct (detect_cover_bidding_total bp 0.05 Hpos) as (c & Hc).
  unfold analyze_price_patterns. rewrite Hc. cbn [bind].
  destruct (Qlt_bool _ 0.1); destruct (suspicious_patterns c);
    destruct (Qlt_bool 0.5 _); eauto.
Qed.

(** *** What the price node emits *)


Lemma price_signals_none bp r :
  price_signals bp r = [] <-> risk_score r <= 0.
Proof.
  unfold price_signals. destruct (Qlt_bool 0 (risk_score r)) eqn:E.
  - apply Qlt_bool_iff in E. split; [discriminate|intro; lra].
  - apply Qlt_bool_false_iff in E. tauto.
Qed.

(** With three bids or more, all positive, the analysis returns and its
    score, severity and signal are those of the specification, the
    coefficient of variation being the one [detect_outliers] computed. *)
Lemma price_scoring_three_or_more sqrt thr bp :
  (3 <= List.length bp)%nat ->
  Forall (fun p => 0 < p) (dict_values bp) ->
  exists r stats,
    analyze_price_patterns sqrt thr bp = Ok r
    /\ outlier_analysis r = OutlierOk stats
    /\ risk_score r
       == price_score (coefficient_variation stats)
            (has_pattern (cover_bidding_analysis r)) (round_number_ratio r)
    /\ severity r = price_severity (risk_score r)
    /\ (price_signals bp r <> [] <-> 0 < risk_score r)
    /\ (forall s, In s (price_signals bp r) ->
          signal_type s = "price_anomaly"
          /\ Agent.severity s = severity r
          /\ score s = risk_score r
          /\ affected_bidders s = dict_keys bp).
Proof.
  intros Hlen Hpos.
  destruct (analyze_price_patterns_total sqrt thr bp Hpos) as (r & Hr).
  destruct (analyze_price_patterns_inv _ _ _ _ Hr)
    as (c & _ & Ho & Hc & _ & Hs & _ & Hsev).
  assert (Hstats : exists stats, outlier_analysis r = OutlierOk stats).
  { rewrite Ho. unfold detect_outliers.
    destruct (List.length (dict_values bp) <? 3)%nat eqn:E; [|eauto].
    apply Nat.ltb_lt in E. unfold dict_values in E.
    rewrite length_map in E. lia. }
  destruct Hstats as (stats & Hstats).
  exists r, stats. split; [exact Hr|]. split; [exact Hstats|].
  split; [|split; [exact Hsev|split]].
  - rewrite Hs, Hc. unfold low_variation. rewrite Hstats.
    apply flags_score_spec.
  - rewrite price_signals_none. split; intro H; lra.
  - intros s Hin. unfold price_signals in Hin.
    destruct (Qlt_bool 0 (risk_score r)); [|destruct Hin].
    destruct Hin as [<-|[]]. repeat split.
Qed.

(** With fewer than three bids the missing coefficient of variation is
    read as 0, so the low-variation indicator fires and a signal is
    emitted whenever the analysis returns. *)
Lemma fewer_than_three_bids_flagged sqrt thr bp r :
  (List.length bp < 3)%nat ->
  analyze_price_patterns sqrt thr bp = Ok r ->
  outlier_analysis r
  = OutlierError "Need at least 3 bids for statistical analysis"
  /\ In "Low price variation (potential coordination)" (risk_indicators r)
  /\ 0.3 <= risk_score r
  /\ price_signals bp r <> [].
Proof.
  intros Hlen Hr.
  destruct (analyze_price_patterns_inv _ _ _ _ Hr)
    as (c & _ & Ho & _ & _ & Hs & Hi & _).
  assert (Hout : outlier_analysis r
                 = OutlierError "Need at least 3 bids for statistical analysis").
  { rewrite Ho. unfold detect_outliers.
    destruct (List.length (dict_values bp) <? 3)%nat eqn:E; [reflexivity|].
    apply Nat.ltb_ge in E. unfold dict_values in E.
    rewrite length_map in E. lia. }
  assert (Hlow : low_variation (outlier_analysis r) = true)
    by (rewrite Hout; reflexivity).
  rewrite Hlow in Hs, Hi.
  assert (Hscore : 0.3 <= risk_score r).
  { rewrite Hs, flags_score_values.
    destruct (has_pattern c), (Qlt_bool 0.5 (round_number_ratio r));
      vm_compute; discriminate. }
  repeat split; try assumption.
  - rewrite Hi. left. reflexivity.
  - rewrite price_signals_none. lra.
Qed.

End PriceFacts.

(** ** Claims on the price engine *)

Import PriceAnalyzer PriceFacts.

(** C5, evaluated where the code leaves the claim: for the two bids 100
    and 200 the coefficient of variation is 1/3, there is no cover pattern
    and no round number, so the scoring of the claim gives 0 and no
    signal; [detect_outliers] reports insufficient data, the code reads
    the missing coefficient as 0, scores 0.3 and emits a signal. *)
Theorem price_score_with_two_bids :
  let bp := [("B1", 100); ("B2", 200)] in
  coefficient_of_variation Reference.sqrt6 (dict_values bp) == 1 # 3
  /\ exists r,
       analyze_price_patterns Reference.sqrt6 outlier_threshold bp = Ok r
       /\ outlier_analysis r
          = OutlierError "Need at least 3 bids for statistical analysis"
       /\ has_pattern (cover_bidding_analysis r) = false
       /\ round_number_ratio r == 0
       /\ price_score (1 # 3) false 0 == 0
       /\ risk_score r == 0.3
       /\ severity r = "low"
       /\ exists s, price_signals bp r = [s] /\ score s == 0.3.
Proof.
  vm_compute. split; [reflexivity|].
  eexists. split; [reflexivity|]. vm_compute.
  repeat split. eexists. split; reflexivity.
Qed.

(** C6, evaluated where the code leaves the claim: for a single bid
    [detect_outliers] reports insufficient data, and the run still emits
    one [price_anomaly] signal, of score 0.3 and severity low. *)
Theorem single_bid_emits_price_anomaly :
  let final :=
    run_analysis Reference.quiet "T" "d" [Reference.bidder "B1" 12345 []] []
  in
  detect_outliers Reference.sqrt6 outlier_threshold [12345]
  = OutlierError "Need at least 3 bids for statistical analysis"
  /\ exists s,
       signals_of_type "price_anomaly" (risk_signals final) = [s]
       /\ score s == 0.3
       /\ Agent.severity s = "low"
       /\ affected_bidders s = ["B1"].
Proof.
  vm_compute. split; [reflexivity|].
  eexists. split; [reflexivity|]. vm_compute. repeat split.
Qed.

(** The chain of nodes keeps what the price node wrote. *)
Lemma price_step P st r :
  analyze_price_patterns (np_sqrt P) outlier_threshold
    (bidder_prices_of (bidders st)) = Ok r ->
  price_analysis (step P analyze_prices st) = Some r
  /\ risk_signals (step P analyze_prices st)
     = risk_signals st ++ price_signals (bidder_prices_of (bidders st)) r.
Proof.
  intro H. unfold step, node_function, analyze_prices_node,
    analyze_prices_body. rewrite H. split; reflexivity.
Qed.




(** The exit state of a run whose report node returned. *)
Lemma report_ok_final P st0 p :
  node_body P generate_report (state_before P generate_report st0) = Ok p ->
  overall_risk_score (invoke P st0) = overall_risk (risk_signals (invoke P st0))
  /\ analysis_complete (invoke P st0) = true.
Proof.
  rewrite (invoke_split P generate_report).
  generalize (state_before P generate_report st0) as st5.
  intros st5. open_node; intro Hok; [|discriminate Hok].
  split; reflexivity.
Qed.






(** ** Claims on the similarity engine *)

Module SimilarityFacts.
Import SemanticAnalyzer.





End SimilarityFacts.

(* ================================================================== *)
(** * Further properties of the code                                   *)
(* ================================================================== *)

(** ** Dictionaries *)

Module DictFacts.

Lemma get_set_same {V} (d : dict V) k v : dict_get (dict_set d k v) k = Some v.
Proof.
  induction d as [|[k' v'] d IH]; simpl.
  - rewrite String.eqb_refl. reflexivity.
  - destruct (String.eqb_spec k' k) as [->|Hne]; simpl.
    + rewrite String.eqb_refl. reflexivity.
    + destruct (String.eqb_spec k' k); [contradiction|exact IH].
Qed.

Lemma get_set_other {V} (d : dict V) k k' v :
  k <> k' -> dict_get (dict_set d k v) k' = dict_get d k'.
Proof.
  intro Hne. induction d as [|[k0 v0] d IH]; simpl.
  - destruct (String.eqb_spec k k'); [contradiction|reflexivity].
  - destruct (String.eqb_spec k0 k) as [->|Hk]; simpl.
    + destruct (String.eqb_spec k k'); [contradiction|reflexivity].
    + rewrite IH. reflexivity.
Qed.

Lemma get_none_iff {V} (d : dict V) k :
  dict_get d k = None <-> ~ In k (dict_keys d).
Proof.
  induction d as [|[k' v'] d IH]; simpl; [tauto|].
  destruct (String.eqb_spec k' k) as [->|Hne].
  - split; [discriminate|]. intro H. exfalso. apply H. left. reflexivity.
  - rewrite IH. split; [intros H [E|Hin]; [congruence|tauto]|tauto].
Qed.

Lemma get_some_in {V} (d : dict V) k v :
  dict_get d k = Some v -> In (k, v) d.
Proof.
  induction d as [|[k' v'] d IH]; simpl; [discriminate|].
  destruct (String.eqb_spec k' k) as [->|Hne].
  - intros [= ->]. left. reflexivity.
  - intro H. right. apply IH, H.
Qed.

Lemma in_get {V} (d : dict V) k v :
  NoDup (dict_keys d) -> In (k, v) d -> dict_get d k = Some v.
Proof.
  induction d as [|[k' v'] d IH]; simpl; [tauto|].
  intros Hnd [[= -> ->]|Hin].
  - rewrite String.eqb_refl. reflexivity.
  - inversion Hnd as [|? ? Hnot Hnd']; subst.
    destruct (String.eqb_spec k' k) as [->|Hne].
    + exfalso. apply Hnot. apply (in_map fst) in Hin. exact Hin.
    + apply IH; assumption.
Qed.

Lemma keys_set_present {V} (d : dict V) k v :
  In k (dict_keys d) -> dict_keys (dict_set d k v) = dict_keys d.
Proof.
  induction d as [|[k' v'] d IH]; simpl; [tauto|].
  destruct (String.eqb_spec k' k) as [->|Hne]; [reflexivity|].
  intros [E|Hin]; [contradiction|]. simpl. rewrite IH by exact Hin.
  reflexivity.
Qed.

Lemma keys_set_absent {V} (d : dict V) k v :
  ~ In k (dict_keys d) -> dict_keys (dict_set d k v) = dict_keys d ++ [k].
Proof.
  induction d as [|[k' v'] d IH]; simpl; [reflexivity|].
  intro Hnot. destruct (String.eqb_spec k' k) as [->|Hne]; [tauto|].
  simpl. rewrite IH by tauto. reflexivity.
Qed.

Lemma in_keys_set {V} (d : dict V) k v k' :
  In k' (dict_keys (dict_set d k v)) <-> k' = k \/ In k' (dict_keys d).
Proof.
  destruct (in_dec string_dec k (dict_keys d)) as [Hin|Hnot].
  - rewrite keys_set_present by exact Hin. split; [tauto|].
    intros [->|H]; assumption.
  - rewrite keys_set_absent by exact Hnot. rewrite in_app_iff. simpl.
    split; [intros [H|[<-|[]]]; auto|intros [->|H]; auto].
Qed.

Lemma set_nodup {V} (d : dict V) k v :
  NoDup (dict_keys d) -> NoDup (dict_keys (dict_set d k v)).
Proof.
  intro Hnd. destruct (in_dec string_dec k (dict_keys d)) as [Hin|Hnot].
  - rewrite keys_set_present by exact Hin. exact Hnd.
  - rewrite keys_set_absent by exact Hnot.
    apply NoDup_app; [exact Hnd|repeat constructor; simpl; tauto|].
    intros x Hx [<-|[]]. contradiction.
Qed.

Lemma length_set_le {V} (d : dict V) k v :
  (List.length d <= List.length (dict_set d k v) <= S (List.length d))%nat.
Proof.
  induction d as [|[k' v'] d IH]; simpl; [lia|].
  destruct (String.eqb k' k); simpl; lia.
Qed.

Section Fill.
Context {A V : Type}.
Variable key : A -> string.
Variable value : A -> V.

Local Abbreviation fill := (Fill.fill key value).

Lemma fill_nodup l d : NoDup (dict_keys d) -> NoDup (dict_keys (fill l d)).
Proof.
  revert d. induction l as [|x l IH]; intros d H; simpl; [exact H|].
  apply IH, set_nodup, H.
Qed.

Lemma fill_keys l d k :
  In k (dict_keys (fill l d)) <-> In k (dict_keys d) \/ In k (map key l).
Proof.
  revert d. induction l as [|x l IH]; intro d; simpl; [tauto|].
  rewrite IH, in_keys_set. split; intros H; intuition (subst; auto).
Qed.

Lemma fill_get_absent l d k :
  ~ In k (map key l) -> dict_get (fill l d) k = dict_get d k.
Proof.
  revert d. induction l as [|x l IH]; intros d H; simpl in *; [reflexivity|].
  rewrite IH by tauto. apply get_set_other. intro E. apply H. left. exact E.
Qed.

(** The last assignment to a key is the one that is read. *)
Lemma fill_get_last l1 x l2 d :
  ~ In (key x) (map key l2) ->
  dict_get (fill (l1 ++ x :: l2) d) (key x) = Some (value x).
Proof.
  intro H. unfold fill. rewrite fold_left_app. simpl.
  fold (fill l2 (dict_set (fold_left (fun d x => dict_set d (key x) (value x))
                             l1 d) (key x) (value x))).
  rewrite fill_get_absent by exact H. apply get_set_same.
Qed.

Lemma fill_length l d :
  (List.length (fill l d) <= List.length d + List.length l)%nat.
Proof.
  revert d. induction l as [|x l IH]; intro d; simpl; [lia|].
  specialize (IH (dict_set d (key x) (value x))).
  pose proof (length_set_le d (key x) (value x)). lia.
Qed.

End Fill.

End DictFacts.

(** ** Runs, node by node *)

Module RunFacts.
Import Agent Run StepFacts.

(** The state after the first [k] nodes. *)
Local Abbreviation after P st0 k := (run_nodes P (firstn k pipeline) st0).

Lemma after_position P st0 n :
  after P st0 (position n) = state_before P n st0.
Proof. reflexivity. Qed.

Lemma after_succ P st0 n :
  after P st0 (S (position n)) = step P n (state_before P n st0).
Proof. destruct n; reflexivity. Qed.

Lemma after_all P st0 : after P st0 6 = invoke P st0.
Proof. rewrite invoke_pipeline. reflexivity. Qed.

Lemma node_at k : (k < 6)%nat -> exists n, position n = k.
Proof.
  intro H. destruct k as [|[|[|[|[|[|k]]]]]]; [..|lia];
    [exists extract_documents|exists analyze_prices|exists analyze_similarity
    |exists analyze_stylometry|exists build_relationship_graph
    |exists generate_report]; reflexivity.
Qed.

Lemma position_inj n n' : position n = position n' -> n = n'.
Proof. destruct n, n'; simpl; congruence. Qed.

(** A property of the state that the nodes at positions [k .. k+j-1]
    preserve holds after them if it held before. *)
Lemma after_preserved P st0 (I : TenderAnalysisState -> Prop)
  (ok : Node -> Prop) :
  (forall n, ok n ->
     I (state_before P n st0) -> I (step P n (state_before P n st0))) ->
  forall j k,
    (k + j <= 6)%nat ->
    (forall n, (k <= position n < k + j)%nat -> ok n) ->
    I (after P st0 k) -> I (after P st0 (k + j)).
Proof.
  intros Hstep. induction j as [|j IH]; intros k Hk Hok Hi.
  - rewrite Nat.add_0_r. exact Hi.
  - destruct (node_at (k + j)) as (n & Hn); [lia|].
    replace (k + S j)%nat with (S (position n)) by lia.
    rewrite after_succ. apply Hstep.
    + apply Hok. lia.
    + rewrite <- after_position, Hn. apply IH; [lia| |exact Hi].
      intros n' Hn'. apply Hok. lia.
Qed.

Lemma error_keep P n st :
  (exists p, node_body P n st = Ok p) -> error (step P n st) = error st.
Proof. intros (p & H). destruct (step_ok P n st p H) as (_ & _ & E & _). exact E. Qed.

Lemma slot_other P n n' st :
  n <> n' -> slot_written n (step P n' st) = slot_written n st.
Proof.
  intro Hne. destruct n, n'; try congruence; open_node; cbn;
    try reflexivity;
    match goal with
    | |- is_some (or_keep_opt None ?o) = _ => destruct o; reflexivity
    | _ => idtac
    end.
Qed.

Lemma slot_raise P n st m :
  node_body P n st = Raise m ->
  slot_written n (step P n st) = slot_written n st.
Proof.
  intro H.
  destruct (step_raise P n st m H)
    as (_ & _ & _ & H1 & H2 & H3 & H4 & _ & H5 & _).
  destruct n; cbn [slot_written]; congruence.
Qed.

End RunFacts.

Import RunFacts.

(** X1: a run that starts from the initial state exits with [error] unset
    exactly when the [try] block of each of the six nodes returned. *)
Theorem error_unset_iff_every_node_returned
  (P : Providers) (tid descr : string) (bs : list BidderInfo)
  (docs : list string) :
  let st0 := initial_state tid descr bs docs in
  error (run_analysis P tid descr bs docs) = None
  <-> forall n, exists p, node_body P n (state_before P n st0) = Ok p.
Proof.
  intro st0. unfold run_analysis. fold st0. split.
  - intros Hnone n.
    destruct (node_body P n (state_before P n st0)) as [p|m] eqn:E;
      [eauto|].
    exfalso. rewrite (invoke_split P n) in Hnone. revert Hnone.
    apply error_run.
    destruct (step_raise P n _ m E) as (He & _). rewrite He. discriminate.
  - intro Hall. rewrite <- after_all.
    apply (after_preserved P st0 (fun st => error st = None) (fun _ => True))
      with (j := 6%nat) (k := 0%nat); [|lia|tauto|reflexivity].
    intros n _ Hi. rewrite error_keep by apply Hall. exact Hi.
Qed.

(** X2: the message in [error] at exit is the one of the last node that
    raised: when a node raises and every node after it returns, its
    message is what the run reports, whatever earlier nodes recorded. *)
Theorem last_failure_is_reported
  (P : Providers) (st0 : TenderAnalysisState) (n : Node) (m : string)
  (Hraise : node_body P n (state_before P n st0) = Raise m)
  (Hlater : forall n', (position n < position n')%nat ->
              exists p, node_body P n' (state_before P n' st0) = Ok p) :
  error (invoke P st0) = Some m.
Proof.
  rewrite <- after_all.
  assert (Hpos : (position n < 6)%nat) by (destruct n; simpl; lia).
  replace 6%nat with (S (position n) + (5 - position n))%nat by lia.
  apply (after_preserved P st0 (fun st => error st = Some m)
           (fun n' => (position n < position n')%nat)).
  - intros n' Hn' Hi. rewrite error_keep by (apply Hlater, Hn'). exact Hi.
  - lia.
  - intros n' Hn'. lia.
  - rewrite after_succ.
    destruct (step_raise P n _ m Hraise) as (He & _). exact He.
Qed.

Lemma last_failure_is_reported_witness :
  error (invoke Scenario.two_down
           (initial_state "T" "d" Reference.two_with_docs
              ["b1.pdf"; "b2.pdf"]))
  = Some "chat model unavailable".
Proof.
  apply (last_failure_is_reported Scenario.two_down _ generate_report).
  - vm_compute. reflexivity.
  - intros n' Hn'. destruct n'; simpl in Hn'; lia.
Defined.

(** X3: at exit of a run from the initial state, the result slot of an
    analysis node is non-null exactly when the [try] block of that node
    returned, and [analysis_complete] is true exactly when the one of
    [generate_report] did, whatever happened in the other nodes. *)
Theorem slot_written_iff_node_returned
  (P : Providers) (tid descr : string) (bs : list BidderInfo)
  (docs : list string) (n : Node) (Hn : n <> extract_documents) :
  let st0 := initial_state tid descr bs docs in
  slot_written n (run_analysis P tid descr bs docs) = true
  <-> exists p, node_body P n (state_before P n st0) = Ok p.
Proof.
  intro st0. unfold run_analysis. fold st0. rewrite <- after_all.
  assert (Hpos : (position n < 6)%nat) by (destruct n; simpl; lia).
  assert (Hbefore : slot_written n (state_before P n st0) = false).
  { rewrite <- after_position.
    replace (position n) with (0 + position n)%nat by lia.
    apply (after_preserved P st0 (fun st => slot_written n st = false)
             (fun n' => n <> n')).
    - intros n' Hne Hi. rewrite slot_other by exact Hne. exact Hi.
    - lia.
    - intros n' Hn' ->. lia.
    - destruct n; try congruence; reflexivity. }
  assert (Hafter : slot_written n (run_nodes P (firstn 6 pipeline) st0)
                   = slot_written n (step P n (state_before P n st0))).
  { replace 6%nat with (S (position n) + (5 - position n))%nat by lia.
    apply (after_preserved P st0
             (fun st => slot_written n st
                        = slot_written n (step P n (state_before P n st0)))
             (fun n' => n <> n')).
    - intros n' Hne Hi. rewrite slot_other by exact Hne. exact Hi.
    - lia.
    - intros n' Hn' ->. lia.
    - rewrite after_succ. reflexivity. }
  rewrite Hafter.
  destruct (node_body P n (state_before P n st0)) as [p|m] eqn:E.
  - destruct (step_ok P n _ p E) as (Hw & _). rewrite Hw.
    split; [eauto|reflexivity].
  - rewrite (slot_raise P n _ m E), Hbefore.
    split; [discriminate|intros (p & Hp); discriminate Hp].
Qed.

Lemma slot_written_iff_node_returned_witness :
  slot_written analyze_similarity
    (run_analysis Reference.embedder_down "T" "d" Reference.two_with_docs
       ["b1.pdf"; "b2.pdf"]) = true
  <-> exists p,
        node_body Reference.embedder_down analyze_similarity
          (state_before Reference.embedder_down analyze_similarity
             (initial_state "T" "d" Reference.two_with_docs
                ["b1.pdf"; "b2.pdf"])) = Ok p.
Proof.
  apply (slot_written_iff_node_returned Reference.embedder_down "T" "d"
           Reference.two_with_docs ["b1.pdf"; "b2.pdf"] analyze_similarity).
  discriminate.
Defined.

(** What only one node writes keeps, until exit, the value that node
    gave it. *)
Lemma owned_field_kept {A : Type} (f : TenderAnalysisState -> A)
  (P : Providers) (st0 : TenderAnalysisState) (n : Node) :
  (forall n' st, n <> n' -> f (step P n' st) = f st) ->
  f (invoke P st0) = f (step P n (state_before P n st0)).
Proof.
  intro Hkeep. rewrite <- after_all.
  assert (Hpos : (position n < 6)%nat) by (destruct n; simpl; lia).
  replace 6%nat with (S (position n) + (5 - position n))%nat by lia.
  apply (after_preserved P st0
           (fun st => f st = f (step P n (state_before P n st0)))
           (fun n' => n <> n')).
  - intros n' Hne Hi. rewrite Hkeep by exact Hne. exact Hi.
  - lia.
  - intros n' Hn' ->. lia.
  - rewrite after_succ. reflexivity.
Qed.

(** X4: no result slot is overwritten: at exit the extracted texts and
    each of the four result slots hold exactly what their own node left
    there, whether the nodes after it returned or raised. *)
Theorem result_slots_written_once (P : Providers) (st0 : TenderAnalysisState) :
  let final := invoke P st0 in
  extracted_text final
  = extracted_text (step P extract_documents
                      (state_before P extract_documents st0))
  /\ price_analysis final
     = price_analysis (step P analyze_prices
                         (state_before P analyze_prices st0))
  /\ similarity_analysis final
     = similarity_analysis (step P analyze_similarity
                              (state_before P analyze_similarity st0))
  /\ stylometry_analysis final
     = stylometry_analysis (step P analyze_stylometry
                              (state_before P analyze_stylometry st0))
  /\ relationship_graph final
     = relationship_graph (step P build_relationship_graph
                             (state_before P build_relationship_graph st0)).
Proof.
  cbv zeta. repeat split; apply owned_field_kept; intros n' st Hne;
    destruct n'; try congruence; open_node; cbn;
    try reflexivity;
    match goal with
    | |- or_keep_opt None ?o = _ => destruct o; reflexivity
    end.
Qed.

(** ** Signals and the result page *)

Module SignalFacts.
Import PriceAnalyzer PriceFacts Scenario.

Lemma severity_of_values s :
  severity_of s = "high" \/ severity_of s = "medium" \/ severity_of s = "low".
Proof.
  unfold severity_of. destruct (Qlt_bool 0.7 s); [auto|].
  destruct (Qlt_bool 0.4 s); auto.
Qed.

Lemma group_signals_wf n groups :
  forall acc out,
    Forall well_formed_signal acc ->
    for_each groups
      (fun acc g => bind (group_signal n g) (fun s => Ok (acc ++ [s]))) acc
    = Ok out ->
    Forall well_formed_signal out.
Proof.
  induction groups as [|g groups IH]; intros acc out Hacc H; simpl in H.
  - congruence.
  - unfold bind at 1 in H. unfold group_signal in H at 1.
    unfold bind at 1 in H.
    destruct (int_div (RelationshipAnalyzer.size g) n); [|discriminate].
    cbn [bind] in H. eapply IH; [|exact H].
    apply Forall_app. split; [exact Hacc|]. constructor; [|constructor].
    right. split; [cbn; auto|]. cbn [Agent.severity].
    destruct (4 <=? RelationshipAnalyzer.size g)%nat; auto.
Qed.

Lemma step_signals_wf P n st :
  exists new,
    risk_signals (step P n st) = risk_signals st ++ new
    /\ Forall well_formed_signal new.
Proof.
  destruct n; open_node; cbn [apply_patch risk_signals or_keep
    p_risk_signals error_patch];
    try (exists []; rewrite app_nil_r; split; [reflexivity|constructor]).
  - eexists; split; [reflexivity|].
    match goal with
    | H : analyze_price_patterns _ _ _ = Ok ?r |- _ =>
        destruct (analyze_price_patterns_inv _ _ _ _ H)
          as (c & _ & _ & _ & _ & _ & _ & Hsev)
    end.
    unfold price_signals. destruct (Qlt_bool 0 _); constructor; [|constructor].
    left. cbn. split; [reflexivity|]. rewrite Hsev. apply severity_of_values.
  - eexists; split; [reflexivity|]. apply Forall_map, Forall_forall.
    intros p _. right. cbn. split; [auto|].
    destruct (Qlt_bool 0.9 _); auto.
  - eexists; split; [reflexivity|]. apply Forall_map, Forall_forall.
    intros p _. right. cbn. split; [auto|].
    destruct (Qlt_bool 0.85 _); auto.
  - eexists; split; [reflexivity|].
    eapply group_signals_wf; [|eassumption]. constructor.
Qed.

Lemma counters_add_up (l : list RiskSignal) :
  Forall well_formed_signal l ->
  (List.length (Ui.with_severity "high" l)
   + List.length (Ui.with_severity "medium" l)
   + List.length (Ui.with_severity "low" l) = List.length l)%nat.
Proof.
  induction 1 as [|s l Hs _ IH]; [reflexivity|].
  unfold Ui.with_severity in *. simpl.
  assert (Hsev : Agent.severity s = "high" \/ Agent.severity s = "medium"
                 \/ Agent.severity s = "low")
    by (destruct Hs as [(_ & H)|(_ & [H|H])]; auto).
  destruct Hsev as [E|[E|E]]; rewrite E; simpl; lia.
Qed.

End SignalFacts.

(** X5: every signal in the state a run returns has one of the four
    signal types and a severity its node can give ([low] only for
    [price_anomaly]); hence the three severity counters of the result
    page add up to the number of signals, and the [low] counter counts
    price signals only. *)
Theorem signals_at_exit_are_well_formed
  (P : Providers) (tid descr : string) (bs : list BidderInfo)
  (docs : list string) :
  let signals := risk_signals (run_analysis P tid descr bs docs) in
  Forall Scenario.well_formed_signal signals
  /\ (List.length (Ui.with_severity "high" signals)
      + List.length (Ui.with_severity "medium" signals)
      + List.length (Ui.with_severity "low" signals)
      = List.length signals)%nat
  /\ Forall (fun s => signal_type s = "price_anomaly")
       (Ui.with_severity "low" signals).
Proof.
  intro signals.
  assert (Hwf : Forall Scenario.well_formed_signal signals).
  { unfold signals, run_analysis. rewrite <- after_all.
    apply (after_preserved P _
             (fun st => Forall Scenario.well_formed_signal (risk_signals st))
             (fun _ => True)) with (j := 6%nat) (k := 0%nat);
      [|lia|tauto|constructor].
    intros n _ Hi.
    destruct (SignalFacts.step_signals_wf P n
                (state_before P n (initial_state tid descr bs docs)))
      as (new & -> & Hnew).
    apply Forall_app. split; assumption. }
  split; [exact Hwf|]. split; [apply SignalFacts.counters_add_up, Hwf|].
  apply Forall_forall. intros s Hs. unfold Ui.with_severity in Hs.
  apply filter_In in Hs. destruct Hs as (Hin & Hlow).
  apply String.eqb_eq in Hlow. rewrite Forall_forall in Hwf.
  destruct (Hwf s Hin) as [(Ht & _)|(_ & [H|H])]; [exact Ht|congruence..].
Qed.

(** X6: when [generate_report] returns, the answer of the chat model to
    the report prompt is the last message of the run.  The result page
    shows it as the executive summary only if it has more than 100
    characters; a shorter answer is passed over, and the page shows
    whatever the messages of the earlier nodes give (an earlier message
    of more than 100 characters, or "No executive summary generated"). *)
Theorem executive_summary_of_run
  (P : Providers) (st0 : TenderAnalysisState) (p : Patch)
  (Hok : node_body P generate_report (state_before P generate_report st0)
         = Ok p) :
  let st5 := state_before P generate_report st0 in
  let final := invoke P st0 in
  exists report,
    llm_invoke P (Ui.report_prompt P st5) = Ok report
    /\ messages final
       = messages st5 ++ [HumanMessage "AI Report Generated"; AIMessage report]
    /\ ((100 < str_len report)%nat ->
        Ui.executive_summary (messages final) = Some report)
    /\ ((str_len report <= 100)%nat ->
        Ui.executive_summary (messages final)
        = Ui.executive_summary (messages st5)).
Proof.
  intros st5 final. unfold final. rewrite (invoke_split P generate_report).
  fold st5. change (nodes_after generate_report) with (@nil Node).
  cbn [run_nodes fold_left]. revert Hok. fold st5.
  generalize st5 as st. clear st5 final. intro st.
  unfold step, node_function, generate_report_node, node_body,
    generate_report_body.
  unfold bind. fold (Ui.risk_text P st). fold (Ui.report_prompt P st).
  destruct (llm_invoke P (Ui.report_prompt P st)) as [report|m] eqn:Hllm;
    intro Hok; [|discriminate Hok].
  exists report. split; [reflexivity|].
  cbn [apply_patch messages p_messages].
  split; [reflexivity|].
  unfold Ui.executive_summary. rewrite rev_app_distr.
  cbn [rev app find Ui.content_of].
  split; intro Hlen.
  - apply Nat.ltb_lt in Hlen. rewrite Hlen. reflexivity.
  - apply Nat.ltb_ge in Hlen. rewrite Hlen. reflexivity.
Qed.

Lemma executive_summary_of_run_witness :
  exists report,
    llm_invoke Reference.quiet
      (Ui.report_prompt Reference.quiet
         (state_before Reference.quiet generate_report
            (initial_state "T" "d" Reference.two_with_docs
               ["b1.pdf"; "b2.pdf"])))
    = Ok report
    /\ Ui.executive_summary
         (messages (invoke Reference.quiet
                      (initial_state "T" "d" Reference.two_with_docs
                         ["b1.pdf"; "b2.pdf"])))
       = None.
Proof.
  destruct (executive_summary_of_run Reference.quiet
              (initial_state "T" "d" Reference.two_with_docs
                 ["b1.pdf"; "b2.pdf"]) _ eq_refl)
    as (report & H1 & _ & _ & _).
  exists report. split; [exact H1|]. vm_compute. reflexivity.
Defined.

(** X7: when [generate_report] returns, the label the result page puts
    next to the overall score is [HIGH] exactly when some signal of the
    run scores above 0.7, and [LOW] exactly when no signal scores above
    0.4. *)
Theorem risk_level_of_run
  (P : Providers) (st0 : TenderAnalysisState) (p : Patch)
  (Hok : node_body P generate_report (state_before P generate_report st0)
         = Ok p) :
  let final := invoke P st0 in
  (Ui.risk_level (overall_risk_score final) = "HIGH"
   <-> exists s, In s (risk_signals final) /\ 0.7 < score s)
  /\ (Ui.risk_level (overall_risk_score final) = "LOW"
      <-> forall s, In s (risk_signals final) -> score s <= 0.4).
Proof.
  intro final. destruct (report_ok_final P st0 p Hok) as (Ho & _).
  fold final in Ho. rewrite Ho. unfold overall_risk.
  pose proof (max_list_is_max (map score (risk_signals final))) as Hmax.
  set (x := max_list (map score (risk_signals final)) 0.0) in *.
  assert (Hup : forall s, In s (risk_signals final) -> score s <= x).
  { intros s Hs. apply (in_map score) in Hs.
    destruct (map score (risk_signals final)); [destruct Hs|].
    apply Hmax, Hs. }
  assert (Hattained : 0.4 < x ->
                      exists s, In s (risk_signals final) /\ x == score s).
  { intro Hx. destruct (map score (risk_signals final)) as [|y l] eqn:E.
    - simpl in Hmax. lra.
    - destruct Hmax as ((z & Hz & Hxz) & _). rewrite <- E in Hz.
      apply in_map_iff in Hz. destruct Hz as (s & <- & Hs). eauto. }
  unfold Ui.risk_level. split.
  - destruct (Qlt_bool 0.7 x) eqn:E7.
    + apply Qlt_bool_iff in E7. split; [intros _|reflexivity].
      destruct Hattained as (s & Hs & Hxs); [lra|].
      exists s. split; [exact Hs|lra].
    + apply Qlt_bool_false_iff in E7. split.
      * destruct (Qlt_bool 0.4 x); discriminate.
      * intros (s & Hs & Hgt). specialize (Hup s Hs). lra.
  - destruct (Qlt_bool 0.7 x) eqn:E7.
    + apply Qlt_bool_iff in E7. split; [discriminate|].
      intro Hall. destruct Hattained as (s & Hs & Hxs); [lra|].
      specialize (Hall s Hs). lra.
    + destruct (Qlt_bool 0.4 x) eqn:E4.
      * apply Qlt_bool_iff in E4. split; [discriminate|].
        intro Hall. destruct Hattained as (s & Hs & Hxs); [lra|].
        specialize (Hall s Hs). lra.
      * apply Qlt_bool_false_iff in E4. split; [|reflexivity].
        intros _ s Hs. specialize (Hup s Hs). lra.
Qed.

Lemma risk_level_of_run_witness :
  Ui.risk_level
    (overall_risk_score
       (invoke Reference.quiet
          (initial_state "T" "d" Reference.identical_bids [])))
  = "LOW"
  <-> forall s,
        In s (risk_signals
                (invoke Reference.quiet
                   (initial_state "T" "d" Reference.identical_bids []))) ->
        score s <= 0.4.
Proof.
  exact (proj2 (risk_level_of_run Reference.quiet
                  (initial_state "T" "d" Reference.identical_bids [])
                  _ eq_refl)).
Defined.

(** ** Document extraction and the grouping of texts *)

Module TextFacts.
Import DocumentProcessor.

Lemma in_split_last (x : string) (l : list string) :
  In x l -> exists l1 l2, l = l1 ++ x :: l2 /\ ~ In x l2.
Proof.
  induction l as [|y l IH]; [intros []|].
  intro Hin. destruct (in_dec string_dec x l) as [Hl|Hl].
  - destruct (IH Hl) as (l1 & l2 & -> & Hnot).
    exists (y :: l1), l2. split; [reflexivity|exact Hnot].
  - destruct Hin as [->|Hin]; [|contradiction].
    exists [], l. split; [reflexivity|exact Hl].
Qed.

(** The text stored for a path. *)
Lemma process_is_fill pdf suffix docs acc :
  fold_left
    (fun extracted_texts doc_path =>
       if String.eqb (suffix doc_path) ".pdf"
       then dict_set extracted_texts doc_path
              (extract_text_from_pdf pdf doc_path)
       else dict_set extracted_texts doc_path "")
    docs acc
  = Fill.fill (fun path => path)
      (fun path => if String.eqb (suffix path) ".pdf"
                   then extract_text_from_pdf pdf path else "")
      docs acc.
Proof.
  revert acc. induction docs as [|path docs IH]; intro acc; [reflexivity|].
  simpl. rewrite IH. unfold Fill.fill at 2. simpl.
  destruct (String.eqb (suffix path) ".pdf"); reflexivity.
Qed.

Lemma texts_of_bidder_get (extracted : dict string) docs
  (acc : dict string) p :
  dict_get
    (fold_left (fun d doc_path =>
                  match dict_get extracted doc_path with
                  | Some text => dict_set d doc_path text
                  | None => d
                  end) docs acc) p
  = if in_dec string_dec p docs
    then match dict_get extracted p with
         | Some t => Some t
         | None => dict_get acc p
         end
    else dict_get acc p.
Proof.
  revert acc. induction docs as [|q docs IH]; intro acc; [reflexivity|].
  simpl fold_left. rewrite IH.
  destruct (in_dec string_dec p docs) as [Hin|Hnot];
    destruct (in_dec string_dec p (q :: docs)) as [Hin'|Hnot'];
    try (exfalso; simpl in *; tauto).
  - destruct (dict_get extracted p) eqn:Ep; [reflexivity|].
    destruct (dict_get extracted q) eqn:Eq; [|reflexivity].
    apply DictFacts.get_set_other. intros ->. congruence.
  - destruct Hin' as [->|Hin']; [|contradiction].
    destruct (dict_get extracted p) eqn:Ep; [|reflexivity].
    apply DictFacts.get_set_same.
  - destruct (dict_get extracted q) eqn:Eq; [|reflexivity].
    apply DictFacts.get_set_other. intros ->. apply Hnot'. left. reflexivity.
Qed.

End TextFacts.

(** X8: [process_tender_documents] never fails and gives every listed
    path exactly one entry: the text of the pdf for a path whose suffix is
    [.pdf], the empty text for any other suffix, and also the empty text
    for a pdf that the reader cannot open; paths that were not listed
    have no entry. *)
Theorem process_tender_documents_entries
  (pdf : string -> Exc (list (option string))) (suffix : string -> string)
  (docs : list string) :
  exists extracted,
    DocumentProcessor.process_tender_documents pdf suffix docs = Ok extracted
    /\ NoDup (dict_keys extracted)
    /\ (forall path, In path (dict_keys extracted) <-> In path docs)
    /\ (forall path, In path docs ->
          dict_get extracted path
          = Some (if String.eqb (suffix path) ".pdf"
                  then DocumentProcessor.extract_text_from_pdf pdf path
                  else ""))
    /\ (forall path, ~ In path docs -> dict_get extracted path = None)
    /\ (forall path m, pdf path = Raise m ->
          DocumentProcessor.extract_text_from_pdf pdf path = "").
Proof.
  eexists. split; [reflexivity|]. rewrite TextFacts.process_is_fill.
  split; [apply DictFacts.fill_nodup; constructor|].
  assert (Hkeys : forall path,
             In path (dict_keys
                        (Fill.fill (fun p => p)
                           (fun p => if String.eqb (suffix p) ".pdf"
                                     then DocumentProcessor.extract_text_from_pdf
                                            pdf p
                                     else "") docs [])) <-> In path docs).
  { intro path. rewrite DictFacts.fill_keys, map_id. simpl. tauto. }
  split; [exact Hkeys|]. split; [|split].
  - intros path Hin.
    destruct (TextFacts.in_split_last path docs Hin) as (l1 & l2 & -> & Hnot).
    apply (DictFacts.fill_get_last (fun p => p)). rewrite map_id. exact Hnot.
  - intros path Hnot. apply DictFacts.get_none_iff. rewrite Hkeys. exact Hnot.
  - intros path m Hm. unfold DocumentProcessor.extract_text_from_pdf.
    rewrite Hm. reflexivity.
Qed.

(** X9: in the per-bidder grouping of texts that the similarity and the
    stylometry node build, a bidder's dictionary holds a document path
    exactly when the bidder lists it and a text was extracted for it,
    with that text; a listed path without extracted text is skipped
    silently. *)
Theorem texts_of_bidder_entries
  (extracted : dict string) (docs : list string) (p t : string) :
  dict_get (texts_of_bidder extracted docs) p = Some t
  <-> In p docs /\ dict_get extracted p = Some t.
Proof.
  unfold texts_of_bidder. rewrite TextFacts.texts_of_bidder_get.
  destruct (in_dec string_dec p docs) as [Hin|Hnot]; simpl.
  - destruct (dict_get extracted p); split; try tauto;
      try (intros [_ H]; exact H); try discriminate.
  - split; [discriminate|tauto].
Qed.

(** X10: the price dictionary of [analyze_prices_node] has one entry per
    distinct [bidder_id], in order of first appearance; when several
    bidders carry the same id, the bid of the last of them is the one
    analysed, so the analysis sees fewer bids than there are bidders. *)
Theorem bidder_prices_last_bid_wins (bs : list BidderInfo) :
  let prices := bidder_prices_of bs in
  NoDup (dict_keys prices)
  /\ (forall id, In id (dict_keys prices) <-> In id (map bidder_id bs))
  /\ (List.length prices <= List.length bs)%nat
  /\ (forall bs1 b bs2,
        bs = bs1 ++ b :: bs2 ->
        ~ In (bidder_id b) (map bidder_id bs2) ->
        dict_get prices (bidder_id b) = Some (bid_amount b)).
Proof.
  intro prices.
  change prices with (Fill.fill bidder_id bid_amount bs []).
  split; [apply DictFacts.fill_nodup; constructor|].
  split; [intro id; rewrite DictFacts.fill_keys; simpl; tauto|].
  split; [apply (DictFacts.fill_length bidder_id bid_amount bs [])|].
  intros bs1 b bs2 -> Hlast. apply DictFacts.fill_get_last, Hlast.
Qed.

(** X11: the grouping of texts by bidder has one entry per distinct
    [bidder_id], also for a bidder without documents; when several
    bidders carry the same id, only the documents of the last of them
    are kept under that id. *)
Theorem organize_texts_entries (st : TenderAnalysisState) :
  let texts := organize_texts st in
  NoDup (dict_keys texts)
  /\ (forall id, In id (dict_keys texts) <-> In id (map bidder_id (bidders st)))
  /\ (forall bs1 b bs2,
        bidders st = bs1 ++ b :: bs2 ->
        ~ In (bidder_id b) (map bidder_id bs2) ->
        dict_get texts (bidder_id b)
        = Some (texts_of_bidder (extracted_text st) (documents b))).
Proof.
  intro texts.
  change texts
    with (Fill.fill bidder_id
            (fun b => texts_of_bidder (extracted_text st) (documents b))
            (bidders st) []).
  split; [apply DictFacts.fill_nodup; constructor|].
  split; [intro id; rewrite DictFacts.fill_keys; simpl; tauto|].
  intros bs1 b bs2 E Hlast. rewrite E.
  apply (DictFacts.fill_get_last bidder_id
           (fun b => texts_of_bidder (extracted_text st) (documents b))),
    Hlast.
Qed.

(** ** More on the price engine *)

Module PriceMore.
Import PriceAnalyzer PriceFacts.

Lemma filter_length_le {A} (f : A -> bool) (l : list A) :
  (List.length (filter f l) <= List.length l)%nat.
Proof.
  induction l as [|x l IH]; simpl; [lia|]. destruct (f x); simpl; lia.
Qed.

Lemma round_ratio_bounds (prices : list Q) :
  0 <= round_ratio_of prices /\ round_ratio_of prices <= 1.
Proof.
  unfold round_ratio_of. destruct prices as [|p prices]; [split; lra|].
  set (l := p :: prices).
  pose proof (filter_length_le is_round_number l) as Hle.
  assert (Hpos : 0 < len l).
  { unfold len, l. simpl List.length. unfold Qlt. simpl. lia. }
  assert (Hnum : 0 <= inject_Z (Z.of_nat (List.length (filter is_round_number l)))).
  { unfold Qle. simpl. lia. }
  assert (Hnl : inject_Z (Z.of_nat (List.length (filter is_round_number l)))
                <= len l).
  { unfold len. rewrite <- Zle_Qle. lia. }
  split.
  - apply Qle_shift_div_l; [exact Hpos|]. lra.
  - apply Qle_shift_div_r; [exact Hpos|]. lra.
Qed.

End PriceMore.

(** X12: whenever [analyze_price_patterns] returns, the score is one of
    0, 0.2, 0.3, 0.4, 0.5, 0.6, 0.7 and 0.9, so it lies between 0 and 0.9
    and the cap at 1.0 never changes it; the severity is decided by the
    number of indicators alone: [high] with all three, [medium] with
    two, [low] with one or none; and the round-number ratio lies between
    0 and 1. *)
Theorem price_score_and_indicators
  (sqrt : Q -> Q) (thr : Q) (bp : dict Q) (r : PriceResults)
  (Hr : analyze_price_patterns sqrt thr bp = Ok r) :
  0 <= risk_score r <= 0.9
  /\ (severity r = "high" <-> List.length (risk_indicators r) = 3%nat)
  /\ (severity r = "medium" <-> List.length (risk_indicators r) = 2%nat)
  /\ (severity r = "low" <-> (List.length (risk_indicators r) <= 1)%nat)
  /\ 0 <= round_number_ratio r <= 1.
Proof.
  destruct (analyze_price_patterns_inv _ _ _ _ Hr)
    as (c & _ & _ & _ & Hratio & Hs & Hi & Hsev).
  rewrite Hsev, Hs, Hi, Hratio.
  split; [|split; [|split; [|split]]];
    try apply PriceMore.round_ratio_bounds;
    destruct (low_variation (outlier_analysis r)), (has_pattern c),
      (Qlt_bool 0.5 (round_ratio_of (dict_values bp)));
    vm_compute; repeat split; intros; try discriminate; try lia;
    try reflexivity.
Qed.

Lemma price_score_and_indicators_witness :
  exists r,
    analyze_price_patterns Reference.sqrt6 outlier_threshold
      [("B1", 80000); ("B2", 100000); ("B3", 101000)] = Ok r
    /\ (severity r = "medium" <-> List.length (risk_indicators r) = 2%nat).
Proof.
  eexists. split; [vm_compute; reflexivity|].
  refine (proj1 (proj2 (proj2
    (price_score_and_indicators Reference.sqrt6 outlier_threshold
       [("B1", 80000); ("B2", 100000); ("B3", 101000)] _ _)))).
  vm_compute. reflexivity.
Defined.

Module SortFacts.
Import PriceAnalyzer.

Section Sorted.
Context {A : Type}.
Variable key : A -> Q.

Lemma insert_asc_sorted x l :
  StronglySorted (fun a b => key a <= key b) l ->
  StronglySorted (fun a b => key a <= key b) (insert_asc key x l).
Proof.
  induction 1 as [|y l Hs IH Hy]; simpl; [repeat constructor|].
  destruct (Qle_bool (key x) (key y)) eqn:E.
  - apply Qle_bool_iff in E. constructor; [constructor; assumption|].
    constructor; [exact E|]. eapply Forall_impl; [|exact Hy].
    intros a Ha. cbv beta in *. lra.
  - assert (Hlt : key y <= key x).
    { destruct (Qlt_le_dec (key y) (key x)) as [H|H]; [lra|].
      apply Qle_bool_iff in H. congruence. }
    constructor; [exact IH|].
    eapply Permutation_Forall.
    + symmetry. apply insert_asc_perm.
    + constructor; assumption.
Qed.

Lemma sort_asc_sorted l :
  StronglySorted (fun a b => key a <= key b) (sort_asc key l).
Proof.
  induction l as [|x l IH]; simpl; [constructor|].
  apply insert_asc_sorted, IH.
Qed.

Lemma insert_desc_sorted x l :
  StronglySorted (fun a b => key b <= key a) l ->
  StronglySorted (fun a b => key b <= key a) (insert_desc key x l).
Proof.
  induction 1 as [|y l Hs IH Hy]; simpl; [repeat constructor|].
  destruct (Qle_bool (key y) (key x)) eqn:E.
  - apply Qle_bool_iff in E. constructor; [constructor; assumption|].
    constructor; [exact E|]. eapply Forall_impl; [|exact Hy].
    intros a Ha. cbv beta in *. lra.
  - assert (Hlt : key x <= key y).
    { destruct (Qlt_le_dec (key x) (key y)) as [H|H]; [lra|].
      apply Qle_bool_iff in H. congruence. }
    constructor; [exact IH|].
    eapply Permutation_Forall.
    + symmetry. apply insert_desc_perm.
    + constructor; assumption.
Qed.

Lemma sort_desc_sorted l :
  StronglySorted (fun a b => key b <= key a) (sort_desc key l).
Proof.
  induction l as [|x l IH]; simpl; [constructor|].
  apply insert_desc_sorted, IH.
Qed.

End Sorted.

Lemma sorted_map {A} (key : A -> Q) (l : list A) :
  StronglySorted (fun a b => key a <= key b) l ->
  StronglySorted Qle (map key l).
Proof.
  induction 1 as [|x l Hs IH Hx]; simpl; constructor; [exact IH|].
  apply Forall_map. exact Hx.
Qed.

Lemma sorted_nth (l : list Q) :
  StronglySorted Qle l ->
  forall i j, (i <= j < List.length l)%nat -> nth i l 0 <= nth j l 0.
Proof.
  induction 1 as [|x l Hs IH Hx]; intros i j Hij; simpl in Hij; [lia|].
  destruct i as [|i], j as [|j]; simpl; try lra; try lia.
  - rewrite Forall_forall in Hx. apply Hx, nth_In. lia.
  - apply IH. lia.
Qed.

Lemma map_nth_seq {A} (l : list A) (d : A) :
  map (fun i => nth i l d) (seq 0 (List.length l)) = l.
Proof.
  induction l as [|x l IH]; [reflexivity|].
  simpl. f_equal. rewrite <- seq_shift, map_map. exact IH.
Qed.

End SortFacts.

Module CoverFacts.
Import PriceAnalyzer PriceFacts SortFacts Cover.

Lemma sorted_length bp : List.length (sorted_prices_of bp) = List.length bp.
Proof.
  unfold sorted_prices_of, np_argsort, dict_values.
  rewrite length_map, (Permutation_length (sort_asc_perm _ _)), length_seq.
  apply length_map.
Qed.

Lemma sorted_bidders_length bp :
  List.length (sorted_bidders_of bp) = List.length bp.
Proof.
  unfold sorted_bidders_of, np_argsort, dict_values.
  rewrite length_map, (Permutation_length (sort_asc_perm _ _)), length_seq.
  apply length_map.
Qed.

Lemma sorted_prices_perm bp :
  Permutation (sorted_prices_of bp) (dict_values bp).
Proof.
  unfold sorted_prices_of, np_argsort.
  etransitivity; [apply Permutation_map, sort_asc_perm|].
  rewrite map_nth_seq. reflexivity.
Qed.

Lemma sorted_prices_sorted bp : StronglySorted Qle (sorted_prices_of bp).
Proof.
  unfold sorted_prices_of, np_argsort.
  apply (sorted_map (fun i => nth i (dict_values bp) 0)), sort_asc_sorted.
Qed.

Lemma argsort_nodup (a : list Q) : NoDup (np_argsort a).
Proof.
  unfold np_argsort.
  apply (Permutation_NoDup (l := seq 0 (List.length a)));
    [symmetry; apply sort_asc_perm|apply seq_NoDup].
Qed.

Lemma argsort_nth_lt (a : list Q) i :
  (i < List.length a)%nat -> (nth i (np_argsort a) 0 < List.length a)%nat.
Proof.
  intro Hi. pose proof (argsort_lt a) as H. rewrite Forall_forall in H.
  apply H, nth_In. unfold np_argsort.
  rewrite (Permutation_length (sort_asc_perm _ _)), length_seq. exact Hi.
Qed.

Lemma argsort_length (a : list Q) :
  List.length (np_argsort a) = List.length a.
Proof.
  unfold np_argsort.
  rewrite (Permutation_length (sort_asc_perm _ _)). apply length_seq.
Qed.

Lemma nth_map_default {A B} (f : A -> B) (l : list A) (d : A) (e : B) i :
  (i < List.length l)%nat -> nth i (map f l) e = f (nth i l d).
Proof.
  intro Hi. rewrite (nth_indep _ e (f d)) by (rewrite length_map; exact Hi).
  apply map_nth.
Qed.

(** Position [i] of the sorted lists is an entry of the dictionary. *)
Lemma sorted_entry (bp : dict Q) i :
  (i < List.length bp)%nat ->
  In (nth i (sorted_bidders_of bp) "", nth i (sorted_prices_of bp) 0) bp.
Proof.
  intro Hi. unfold sorted_bidders_of, sorted_prices_of.
  assert (Hlen : List.length (dict_values bp) = List.length bp)
    by apply length_map.
  rewrite (nth_map_default _ _ 0%nat), (nth_map_default _ _ 0%nat)
    by (rewrite argsort_length, Hlen; exact Hi).
  set (k := nth i (np_argsort (dict_values bp)) 0%nat).
  assert (Hk : (k < List.length bp)%nat).
  { rewrite <- Hlen. apply argsort_nth_lt. rewrite Hlen. exact Hi. }
  unfold dict_keys, dict_values.
  rewrite (nth_map_default fst bp ("", 0)), (nth_map_default snd bp ("", 0))
    by exact Hk.
  rewrite <- surjective_pairing. apply nth_In, Hk.
Qed.

Lemma sorted_bidders_distinct (bp : dict Q) i j :
  NoDup (dict_keys bp) ->
  (i < List.length bp)%nat -> (j < List.length bp)%nat -> i <> j ->
  nth i (sorted_bidders_of bp) "" <> nth j (sorted_bidders_of bp) "".
Proof.
  intros Hnd Hi Hj Hij E. unfold sorted_bidders_of in E.
  assert (Hlen : List.length (dict_values bp) = List.length bp)
    by apply length_map.
  assert (Hklen : List.length (dict_keys bp) = List.length bp)
    by apply length_map.
  rewrite (nth_map_default _ _ 0%nat), (nth_map_default _ _ 0%nat) in E
    by (rewrite argsort_length, Hlen; assumption).
  apply (proj1 (NoDup_nth _ "") Hnd) in E;
    try (rewrite Hklen, <- Hlen; apply argsort_nth_lt; rewrite Hlen;
         assumption).
  apply (proj1 (NoDup_nth _ 0%nat) (argsort_nodup (dict_values bp))) in E;
    try (rewrite argsort_length, Hlen; assumption).
  contradiction.
Qed.

Lemma for_each_inv {A S : Type} (I : S -> Prop) (l : list A)
  (body : S -> A -> Exc S) :
  (forall s x s', In x l -> I s -> body s x = Ok s' -> I s') ->
  forall s0 s, I s0 -> for_each l body s0 = Ok s -> I s.
Proof.
  induction l as [|x l IH]; intros Hbody s0 s H0 H; simpl in H.
  - congruence.
  - destruct (body s0 x) as [s1|] eqn:E; [|discriminate H]. cbn [bind] in H.
    apply (IH (fun s x s' Hin => Hbody s x s' (or_intror Hin)) s1 s);
      [|exact H].
    apply (Hbody s0 x s1); [left; reflexivity|exact H0|exact E].
Qed.

Lemma float_div_inv a b q : float_div a b = Ok q -> ~ b == 0 /\ q = a / b.
Proof.
  unfold float_div. destruct (Qeq_bool b 0) eqn:E; [discriminate|].
  intros [= <-]. split; [|reflexivity].
  intro H. apply Qeq_bool_iff in H. congruence.
Qed.

(** What the two loops leave in [suspicious_bids]. *)
Lemma cover_patterns_at (bp : dict Q) (m : Q) (c : CoverResults) :
  detect_cover_bidding bp m = Ok c ->
  Forall (fun pt =>
            exists i j,
              (1 <= i < j)%nat /\ (j < List.length bp)%nat
              /\ pt = pattern_at bp i j
              /\ ~ nth 0 (sorted_prices_of bp) 0 == 0
              /\ ~ nth i (sorted_prices_of bp) 0 == 0
              /\ 0.15 < (nth i (sorted_prices_of bp) 0
                         - nth 0 (sorted_prices_of bp) 0)
                        / nth 0 (sorted_prices_of bp) 0
              /\ Qabs (nth j (sorted_prices_of bp) 0
                       - nth i (sorted_prices_of bp) 0)
                 / nth i (sorted_prices_of bp) 0 < m)
         (suspicious_patterns c).
Proof.
  unfold detect_cover_bidding.
  destruct (List.length (dict_values bp) <? 2)%nat.
  { intros [= <-]. constructor. }
  fold (sorted_prices_of bp). fold (sorted_bidders_of bp).
  destruct (for_each _ _ _) as [out|] eqn:Hloop; [|discriminate].
  cbn [bind]. intros [= <-]. cbn [suspicious_patterns].
  revert Hloop. apply for_each_inv; [|constructor].
  intros acc i acc' Hi Hacc. unfold cover_outer.
  destruct (float_div _ _) as [gap|] eqn:Hgap; [|discriminate].
  cbn [bind]. apply float_div_inv in Hgap. destruct Hgap as (Hl & ->).
  destruct (Qlt_bool 0.15 _) eqn:Hg; [|intros [= <-]; exact Hacc].
  apply Qlt_bool_iff in Hg. apply in_seq in Hi.
  apply for_each_inv; [|exact Hacc].
  intros acc1 j acc2 Hj Hacc1. unfold cover_inner.
  destruct (float_div _ _) as [rd|] eqn:Hrd; [|discriminate].
  cbn [bind]. apply float_div_inv in Hrd. destruct Hrd as (Hpi & ->).
  destruct (Qlt_bool _ m) eqn:Hm; [|intros [= <-]; exact Hacc1].
  apply Qlt_bool_iff in Hm. apply in_seq in Hj. intros [= <-].
  apply Forall_app. split; [exact Hacc1|]. constructor; [|constructor].
  exists i, j. rewrite sorted_length in Hi, Hj.
  repeat split; try assumption; try lia.
Qed.

End CoverFacts.

Module QFacts.

Lemma div_gt (c a b : Q) : 0 < b -> c < a / b -> c * b < a.
Proof.
  intros Hb H. apply (Qmult_lt_compat_r _ _ b Hb) in H.
  assert (E : a / b * b == a) by (field; lra).
  rewrite E in H. exact H.
Qed.

Lemma div_lt (c a b : Q) : 0 < b -> a / b < c -> a < c * b.
Proof.
  intros Hb H. apply (Qmult_lt_compat_r _ _ b Hb) in H.
  assert (E : a / b * b == a) by (field; lra).
  rewrite E in H. exact H.
Qed.

Lemma div_neg (a b : Q) : b < 0 -> 0 <= a -> a / b <= 0.
Proof.
  intros Hb Ha.
  assert (E : a / b == - (a / - b)) by (field; lra).
  rewrite E.
  assert (H : 0 <= a / - b) by (apply Qle_shift_div_l; lra).
  lra.
Qed.

End QFacts.

Module CoverMore.
Import PriceAnalyzer PriceFacts SortFacts Cover CoverFacts.

Lemma cover_bounds (bp : dict Q) (m : Q) (c : CoverResults) :
  detect_cover_bidding bp m = Ok c ->
  ((List.length bp < 2)%nat /\ lowest_bid c = None /\ highest_bid c = None
   /\ suspicious_patterns c = [])
  \/ ((2 <= List.length bp)%nat
      /\ lowest_bid c = Some (nth 0 (sorted_prices_of bp) 0)
      /\ highest_bid c = Some (last (sorted_prices_of bp) 0)).
Proof.
  unfold detect_cover_bidding.
  assert (Hlen : List.length (dict_values bp) = List.length bp)
    by apply length_map.
  rewrite Hlen.
  destruct (List.length bp <? 2)%nat eqn:E.
  - apply Nat.ltb_lt in E. intros [= <-]. left. auto.
  - apply Nat.ltb_ge in E. fold (sorted_prices_of bp).
    destruct (for_each _ _ _); [|discriminate]. cbn [bind].
    intros [= <-]. right. auto.
Qed.

End CoverMore.

(** X13: every cover-bidding pattern that [detect_cover_bidding] reports
    with its default margin 0.05 for the bidders of a request names two
    different bidders of the request, each with its own bid.  The lowest
    bid is then positive and no bid is below it; the first bid of the
    pattern is not above the second, lies more than 14.9999% above the
    lowest bid, and the second exceeds the first by less than 5.00001%;
    [difference_pct] lies between 0 and 5.00001.  The bounds leave a
    slack to the 15% and the 5% of the code: each test of the code
    rounds two float operations, by far less than the slack, so the
    bounds do not depend on how a quotient at the margin is rounded; nor
    does the statement depend on the order in which equal bids are
    sorted. *)
Theorem cover_patterns_are_sound
  (bs : list BidderInfo) (c : CoverResults)
  (Hc : detect_cover_bidding (bidder_prices_of bs) 0.05 = Ok c) :
  Forall
    (fun pt =>
       In (bidder1 pt, price1 pt) (bidder_prices_of bs)
       /\ In (bidder2 pt, price2 pt) (bidder_prices_of bs)
       /\ bidder1 pt <> bidder2 pt
       /\ pattern pt = "clustered_high_bids"
       /\ (exists lowest,
             lowest_bid c = Some lowest
             /\ 0 < lowest
             /\ Forall (fun e => lowest <= snd e) (bidder_prices_of bs)
             /\ 1.149999 * lowest < price1 pt)
       /\ price1 pt <= price2 pt
       /\ price2 pt - price1 pt < 0.0500001 * price1 pt
       /\ 0 <= difference_pct pt
       /\ difference_pct pt < 5.00001)
    (suspicious_patterns c).
Proof.
  set (bp := bidder_prices_of bs) in *.
  assert (Hnd : NoDup (dict_keys bp)).
  { apply (DictFacts.fill_nodup bidder_id bid_amount bs []). constructor. }
  pose proof (CoverFacts.cover_patterns_at bp 0.05 c Hc) as Hpat.
  pose proof (CoverMore.cover_bounds bp 0.05 c Hc) as Hb.
  eapply Forall_impl; [|exact Hpat].
  intros pt (i & j & Hij & Hj & -> & Hl0 & Hpi0 & Hgap & Hrd).
  destruct Hb as [(Hlt & _)|(_ & Hlow & _)]; [lia|].
  pose proof (CoverFacts.sorted_prices_sorted bp) as Hsorted.
  pose proof (SortFacts.sorted_nth _ Hsorted) as Hnth.
  rewrite CoverFacts.sorted_length in Hnth.
  assert (H0i : nth 0 (Cover.sorted_prices_of bp) 0
                <= nth i (Cover.sorted_prices_of bp) 0) by (apply Hnth; lia).
  assert (Hijle : nth i (Cover.sorted_prices_of bp) 0
                  <= nth j (Cover.sorted_prices_of bp) 0)
    by (apply Hnth; lia).
  assert (Hleast : Forall (fun e => nth 0 (Cover.sorted_prices_of bp) 0
                                    <= snd e) bp).
  { apply Forall_forall. intros e He.
    assert (Hv : In (snd e) (Cover.sorted_prices_of bp)).
    { eapply Permutation_in;
        [symmetry; apply CoverFacts.sorted_prices_perm|].
      apply in_map, He. }
    destruct (In_nth _ _ 0 Hv) as (k & Hk & <-).
    rewrite CoverFacts.sorted_length in Hk. apply Hnth. lia. }
  set (l := nth 0 (Cover.sorted_prices_of bp) 0) in *.
  set (pi := nth i (Cover.sorted_prices_of bp) 0) in *.
  set (pj := nth j (Cover.sorted_prices_of bp) 0) in *.
  assert (Hlpos : 0 < l).
  { destruct (Qlt_le_dec 0 l) as [H|H]; [exact H|].
    assert (Hlneg : l < 0).
    { destruct (Qlt_le_dec l 0) as [H'|H']; [exact H'|].
      exfalso. apply Hl0. lra. }
    pose proof (QFacts.div_neg (pi - l) l Hlneg ltac:(lra)). lra. }
  apply QFacts.div_gt in Hgap; [|exact Hlpos].
  assert (Hpipos : 0 < pi) by lra.
  assert (Habs : Qabs (pj - pi) == pj - pi) by (apply Qabs_pos; lra).
  assert (Hrd0 : 0 <= Qabs (pj - pi) / pi).
  { apply Qle_shift_div_l; [exact Hpipos|]. rewrite Habs. lra. }
  assert (Hrd' : pj - pi < 0.05 * pi).
  { rewrite <- Habs. apply QFacts.div_lt; assumption. }
  unfold Cover.pattern_at. cbn [bidder1 bidder2 price1 price2 pattern
                                 difference_pct].
  fold l pi pj.
  split; [apply CoverFacts.sorted_entry; lia|].
  split; [apply CoverFacts.sorted_entry; lia|].
  split; [apply CoverFacts.sorted_bidders_distinct; [exact Hnd|lia..]|].
  split; [reflexivity|].
  split; [exists l; repeat split; [exact Hlow|exact Hlpos|exact Hleast|lra]|].
  split; [exact Hijle|].
  split; [lra|]. split; lra.
Qed.

Lemma cover_patterns_are_sound_witness :
  exists c,
    detect_cover_bidding
      (bidder_prices_of
         [Reference.bidder "B1" 80000 []; Reference.bidder "B2" 100000 [];
          Reference.bidder "B3" 101000 []]) 0.05 = Ok c
    /\ List.length (suspicious_patterns c) = 1%nat
    /\ Forall (fun pt => bidder1 pt <> bidder2 pt /\ price1 pt <= price2 pt)
         (suspicious_patterns c).
Proof.
  eexists. split; [vm_compute; reflexivity|]. split; [reflexivity|].
  eapply Forall_impl;
    [|apply (cover_patterns_are_sound
               [Reference.bidder "B1" 80000 []; Reference.bidder "B2" 100000 [];
                Reference.bidder "B3" 101000 []] _ eq_refl)].
  intros pt (_ & _ & H1 & _ & _ & H2 & _). split; assumption.
Defined.

Module DictMore.

(** What is read from a filled dictionary was there before or was
    assigned by the loop. *)
Lemma fill_get_source {A V : Type} (key : A -> string) (value : A -> V)
  (l : list A) (d : dict V) (k : string) (v : V) :
  dict_get (Fill.fill key value l d) k = Some v ->
  dict_get d k = Some v
  \/ exists x, In x l /\ key x = k /\ value x = v.
Proof.
  revert d. induction l as [|x l IH]; intros d H; [left; exact H|].
  change (Fill.fill key value (x :: l) d)
    with (Fill.fill key value l (dict_set d (key x) (value x))) in H.
  destruct (IH _ H) as [H1|(y & Hy & Hk & Hv)].
  - destruct (string_dec (key x) k) as [E|E].
    + subst k. rewrite DictFacts.get_set_same in H1. injection H1 as <-.
      right. exists x. split; [left; reflexivity|auto].
    + rewrite DictFacts.get_set_other in H1 by exact E. left. exact H1.
  - right. exists y. split; [right; exact Hy|auto].
Qed.

End DictMore.

Module ZeroBid.
Import PriceAnalyzer PriceFacts SortFacts Cover CoverFacts.

Lemma lowest_is_zero (bp : dict Q) :
  (1 <= List.length bp)%nat ->
  Forall (fun p => 0 <= p) (dict_values bp) ->
  Exists (fun p => p == 0) (dict_values bp) ->
  nth 0 (sorted_prices_of bp) 0 == 0.
Proof.
  intros Hlen Hall Hex.
  pose proof (sorted_prices_perm bp) as Hperm.
  pose proof (sorted_length bp) as Hsl.
  assert (Hge : 0 <= nth 0 (sorted_prices_of bp) 0).
  { rewrite Forall_forall in Hall. apply Hall.
    apply (Permutation_in _ Hperm), nth_In. lia. }
  apply Exists_exists in Hex. destruct Hex as (z & Hz & Hz0).
  apply (Permutation_in _ (Permutation_sym Hperm)) in Hz.
  destruct (In_nth _ _ 0 Hz) as (k & Hk & Hnk).
  pose proof (sorted_nth _ (sorted_prices_sorted bp) 0%nat k) as Hle.
  specialize (Hle ltac:(lia)). rewrite Hnk in Hle. lra.
Qed.

Lemma zero_lowest_raises (bp : dict Q) (m : Q) :
  (2 <= List.length bp)%nat ->
  nth 0 (sorted_prices_of bp) 0 == 0 ->
  detect_cover_bidding bp m = Raise "float division by zero".
Proof.
  intros Hlen Hz. unfold detect_cover_bidding.
  assert (Hvl : List.length (dict_values bp) = List.length bp)
    by apply length_map.
  rewrite Hvl.
  destruct (List.length bp <? 2)%nat eqn:E;
    [apply Nat.ltb_lt in E; lia|].
  fold (sorted_prices_of bp). fold (sorted_bidders_of bp).
  rewrite sorted_length. unfold range.
  destruct (List.length bp - 1)%nat as [|k] eqn:Ek; [lia|].
  cbn [seq for_each]. unfold cover_outer at 1, float_div at 1.
  apply Qeq_bool_iff in Hz. rewrite Hz. reflexivity.
Qed.

End ZeroBid.

(** X14: a bid of 0 makes the price node fail.  When the request has at
    least two distinct bidder ids, no negative bid and a bid equal to 0,
    the division by the lowest bid in [detect_cover_bidding] raises; the
    node returns the message [float division by zero] as [error] and
    writes neither its result slot nor a signal. *)
Theorem zero_bid_fails_price_node
  (P : Providers) (st : TenderAnalysisState)
  (Htwo : (2 <= List.length (bidder_prices_of (bidders st)))%nat)
  (Hnonneg : Forall (fun p => 0 <= p)
               (dict_values (bidder_prices_of (bidders st))))
  (Hzero : Exists (fun p => p == 0)
             (dict_values (bidder_prices_of (bidders st)))) :
  analyze_price_patterns (np_sqrt P) outlier_threshold
    (bidder_prices_of (bidders st))
  = Raise "float division by zero"
  /\ error (step P analyze_prices st) = Some "float division by zero"
  /\ price_analysis (step P analyze_prices st) = price_analysis st
  /\ risk_signals (step P analyze_prices st) = risk_signals st.
Proof.
  assert (Hr : analyze_price_patterns (np_sqrt P) outlier_threshold
                 (bidder_prices_of (bidders st))
               = Raise "float division by zero").
  { unfold analyze_price_patterns.
    rewrite (ZeroBid.zero_lowest_raises _ 0.05 Htwo);
      [reflexivity|].
    apply ZeroBid.lowest_is_zero; [lia|assumption..]. }
  split; [exact Hr|].
  assert (Hbody : node_body P analyze_prices st
                  = Raise "float division by zero").
  { cbn [node_body]. unfold analyze_prices_body. rewrite Hr. reflexivity. }
  destruct (step_raise P analyze_prices st _ Hbody)
    as (He & Hs & _ & Hp & _). auto.
Qed.

Lemma zero_bid_fails_price_node_witness :
  error (step Reference.quiet analyze_prices
           (initial_state "T" "d"
              [Reference.bidder "B1" 0 []; Reference.bidder "B2" 120000 []]
              []))
  = Some "float division by zero".
Proof.
  refine (proj1 (proj2
    (zero_bid_fails_price_node Reference.quiet
       (initial_state "T" "d"
          [Reference.bidder "B1" 0 []; Reference.bidder "B2" 120000 []] [])
       _ _ _))).
  - vm_compute. apply le_n.
  - repeat constructor; vm_compute; discriminate.
  - constructor. reflexivity.
Defined.

(** X15: the price node cannot fail on positive bids: when every bid of
    the request is positive, [analyze_price_patterns] returns, the node
    writes its result slot and its step name and leaves [error] as it
    was. *)
Theorem price_node_returns_on_positive_bids
  (P : Providers) (st : TenderAnalysisState)
  (Hpos : Forall (fun b => 0 < bid_amount b) (bidders st)) :
  exists r,
    analyze_price_patterns (np_sqrt P) outlier_threshold
      (bidder_prices_of (bidders st)) = Ok r
    /\ price_analysis (step P analyze_prices st) = Some r
    /\ current_step (step P analyze_prices st) = "price_analysis"
    /\ error (step P analyze_prices st) = error st.
Proof.
  assert (Hvals : Forall (fun p => 0 < p)
                    (dict_values (bidder_prices_of (bidders st)))).
  { apply Forall_forall. intros p Hp. unfold dict_values in Hp.
    apply in_map_iff in Hp. destruct Hp as ((k & v) & <- & Hin). simpl.
    assert (Hget : dict_get (bidder_prices_of (bidders st)) k = Some v).
    { apply DictFacts.in_get; [|exact Hin].
      apply (DictFacts.fill_nodup bidder_id bid_amount (bidders st) []).
      constructor. }
    destruct (DictMore.fill_get_source bidder_id bid_amount
                (bidders st) [] k v Hget) as [H|(b & Hb & _ & Hvb)];
      [discriminate H|].
    rewrite Forall_forall in Hpos. rewrite <- Hvb. apply Hpos, Hb. }
  destruct (analyze_price_patterns_total (np_sqrt P) outlier_threshold
              _ Hvals) as (r & Hr).
  exists r. split; [exact Hr|].
  destruct (price_step P st r Hr) as (Hslot & _).
  split; [exact Hslot|].
  assert (Hbody : node_body P analyze_prices st
                  = Ok {| p_extracted_text := None;
                          p_price_analysis := Some r;
                          p_similarity_analysis := None;
                          p_stylometry_analysis := None;
                          p_relationship_graph := None;
                          p_risk_signals :=
                            Some (risk_signals st
                                  ++ price_signals
                                       (bidder_prices_of (bidders st)) r);
                          p_overall_risk_score := None;
                          p_messages :=
                            [HumanMessage
                               (cat ["Price analysis complete. Risk score: ";
                                     format_2f P (risk_score r)])];
                          p_current_step := Some "price_analysis";
                          p_analysis_complete := None;
                          p_error := None |}).
  { cbn [node_body]. unfold analyze_prices_body. rewrite Hr. reflexivity. }
  destruct (step_ok P analyze_prices st _ Hbody) as (_ & Hc & He & _).
  split; assumption.
Qed.

Lemma price_node_returns_on_positive_bids_witness :
  exists r,
    price_analysis
      (step Reference.quiet analyze_prices
         (initial_state "T" "d" Reference.identical_bids []))
    = Some r.
Proof.
  destruct (price_node_returns_on_positive_bids Reference.quiet
              (initial_state "T" "d" Reference.identical_bids []))
    as (r & _ & H & _).
  - repeat constructor.
  - exists r. exact H.
Defined.

(** ** More on the similarity engine *)

Module SimilarityMore.
Import SemanticAnalyzer SortFacts.

Lemma find_similar_sorted encode texts threshold l :
  find_similar_documents encode texts threshold = Ok l ->
  StronglySorted (fun a b => snd b <= snd a) l
  /\ Forall (fun x => threshold <= snd x) l.
Proof.
  unfold find_similar_documents.
  destruct (List.length _ <? 2)%nat.
  { intros [= <-]. split; constructor. }
  destruct (compute_similarity_matrix _ _) as [m|]; [|discriminate].
  cbn [bind]. intros [= <-]. split; [apply sort_desc_sorted|].
  eapply Permutation_Forall; [symmetry; apply sort_desc_perm|].
  apply Forall_flat_map, Forall_forall. intros [i j] _.
  destruct (Qle_bool threshold (m i j)) eqn:E; constructor; [|constructor].
  apply Qle_bool_iff in E. exact E.
Qed.

Lemma cross_bidder_sorted l :
  StronglySorted (fun a b => snd b <= snd a) l ->
  StronglySorted (fun p q => similarity q <= similarity p) (cross_bidder l)
  /\ Forall (fun p => exists x, In x l /\ similarity p = snd x
                                /\ document1 p = fst (fst x)
                                /\ document2 p = snd (fst x))
       (cross_bidder l).
Proof.
  induction 1 as [|[[d1 d2] sc] l Hs IH Hx]; [split; constructor|].
  destruct IH as (IHs & IHf).
  assert (IHf' : Forall (fun p => exists x, In x ((d1, d2, sc) :: l)
                                   /\ similarity p = snd x
                                   /\ document1 p = fst (fst x)
                                   /\ document2 p = snd (fst x))
                   (cross_bidder l)).
  { eapply Forall_impl; [|exact IHf].
    intros p (x & Hin & H). exists x. split; [right; exact Hin|exact H]. }
  unfold cross_bidder in *. cbn [flat_map].
  destruct (negb _); cbn [app]; [|split; assumption].
  split.
  - constructor; [exact IHs|].
    rewrite Forall_forall in IHf, Hx. apply Forall_forall.
    intros q Hq. destruct (IHf q Hq) as (x & Hxin & -> & _).
    cbn. apply (Hx x Hxin).
  - constructor; [|exact IHf'].
    exists (d1, d2, sc). split; [left; reflexivity|]. cbn. auto.
Qed.

Lemma cross_bidder_distinct l :
  Forall (fun p => bidder1 p <> bidder2 p
                   /\ bidder1 p = split_colon_head (document1 p)
                   /\ bidder2 p = split_colon_head (document2 p))
    (cross_bidder l).
Proof.
  unfold cross_bidder. apply Forall_flat_map, Forall_forall.
  intros [[d1 d2] sc] _.
  destruct (String.eqb_spec (split_colon_head d1) (split_colon_head d2));
    cbn; constructor; [|constructor]. cbn. auto.
Qed.

Lemma filter_sorted {A} (R : A -> A -> Prop) (f : A -> bool) l :
  StronglySorted R l -> StronglySorted R (filter f l).
Proof.
  induction 1 as [|x l Hs IH Hx]; simpl; [constructor|].
  destruct (f x); [|exact IH]. constructor; [exact IH|].
  rewrite Forall_forall in *. intros y Hy. apply filter_In in Hy.
  apply Hx. tauto.
Qed.

End SimilarityMore.

(** X16: whenever [analyze_bidder_documents] returns, its cross-bidder
    pairs come in descending order of similarity, each has a similarity
    of at least 0.7 and two different bidders, which are the parts of the
    two pseudo-IDs before the first colon; [high_risk_pairs] is the
    sub-list, in the same order, of the pairs above 0.85, and
    [total_comparisons] counts the pairs before the cross-bidder
    filter. *)
Theorem cross_bidder_pairs_are_ordered
  (encode : list string -> Exc (nat -> nat -> Q))
  (bidder_texts : dict (dict string)) (res : SemanticAnalyzer.SimilarityResults)
  (Hres : SemanticAnalyzer.analyze_bidder_documents encode bidder_texts
          = Ok res) :
  StronglySorted
    (fun p q => SemanticAnalyzer.similarity q <= SemanticAnalyzer.similarity p)
    (SemanticAnalyzer.cross_bidder_similarities res)
  /\ Forall (fun p => 0.7 <= SemanticAnalyzer.similarity p
                      /\ SemanticAnalyzer.bidder1 p
                         <> SemanticAnalyzer.bidder2 p
                      /\ SemanticAnalyzer.bidder1 p
                         = split_colon_head (SemanticAnalyzer.document1 p)
                      /\ SemanticAnalyzer.bidder2 p
                         = split_colon_head (SemanticAnalyzer.document2 p))
       (SemanticAnalyzer.cross_bidder_similarities res)
  /\ StronglySorted
       (fun p q => SemanticAnalyzer.similarity q
                   <= SemanticAnalyzer.similarity p)
       (SemanticAnalyzer.high_risk_pairs res)
  /\ (forall p, In p (SemanticAnalyzer.high_risk_pairs res)
                <-> In p (SemanticAnalyzer.cross_bidder_similarities res)
                    /\ 0.85 < SemanticAnalyzer.similarity p)
  /\ (List.length (SemanticAnalyzer.cross_bidder_similarities res)
      <= SemanticAnalyzer.total_comparisons res)%nat.
Proof.
  unfold SemanticAnalyzer.analyze_bidder_documents in Hres.
  destruct (SemanticAnalyzer.find_similar_documents _ _ _) as [l|] eqn:Hl;
    [|discriminate Hres].
  cbn [bind] in Hres. injection Hres as <-.
  cbn [SemanticAnalyzer.cross_bidder_similarities
         SemanticAnalyzer.high_risk_pairs SemanticAnalyzer.total_comparisons].
  destruct (SimilarityMore.find_similar_sorted _ _ _ _ Hl) as (Hs & Hge).
  destruct (SimilarityMore.cross_bidder_sorted l Hs) as (Hcs & Hcf).
  pose proof (SimilarityMore.cross_bidder_distinct l) as Hd.
  split; [exact Hcs|]. split; [|split; [|split]].
  - rewrite Forall_forall in *. intros p Hp.
    destruct (Hcf p Hp) as (x & Hx & Hsim & _). rewrite Hsim.
    split; [apply Hge, Hx|apply Hd, Hp].
  - apply SimilarityMore.filter_sorted, Hcs.
  - intro p. rewrite filter_In, Qlt_bool_iff. tauto.
  - unfold SemanticAnalyzer.cross_bidder. clear.
    induction l as [|[[d1 d2] sc] l IH]; simpl; [lia|].
    destruct (negb _); simpl; lia.
Qed.

Lemma cross_bidder_pairs_are_ordered_witness :
  exists res,
    SemanticAnalyzer.analyze_bidder_documents
      (fun _ => Ok (fun i j => if (i + j =? 1)%nat then 0.95 else 0.8))
      [("B1", [("a.pdf", "one")]); ("B2", [("b.pdf", "two")]);
       ("B3", [("c.pdf", "three")])]
    = Ok res
    /\ List.length (SemanticAnalyzer.cross_bidder_similarities res) = 3%nat
    /\ StronglySorted
         (fun p q => SemanticAnalyzer.similarity q
                     <= SemanticAnalyzer.similarity p)
         (SemanticAnalyzer.cross_bidder_similarities res).
Proof.
  eexists. split; [vm_compute; reflexivity|]. split; [reflexivity|].
  refine (proj1 (cross_bidder_pairs_are_ordered
                   (fun _ => Ok (fun i j => if (i + j =? 1)%nat
                                            then 0.95 else 0.8))
                   [("B1", [("a.pdf", "one")]); ("B2", [("b.pdf", "two")]);
                    ("B3", [("c.pdf", "three")])] _ _)).
  vm_compute. reflexivity.
Defined.

(** X17: with fewer than two documents over all bidders the similarity
    node does not call the embedding model, so it cannot fail: it writes
    an empty result, emits no signal and leaves [error] as it was,
    whatever the providers would do. *)
Theorem similarity_node_without_two_documents
  (P : Providers) (st : TenderAnalysisState)
  (Hfew : (List.length (doc_ids_of st) < 2)%nat) :
  let st' := step P analyze_similarity st in
  similarity_analysis st'
  = Some {| SemanticAnalyzer.total_comparisons := 0;
            SemanticAnalyzer.cross_bidder_similarities := [];
            SemanticAnalyzer.high_risk_pairs := [] |}
  /\ risk_signals st' = risk_signals st
  /\ error st' = error st
  /\ current_step st' = "similarity_analysis".
Proof.
  unfold doc_ids_of in Hfew. apply Nat.ltb_lt in Hfew.
  unfold step, node_function, analyze_similarity_node,
    analyze_similarity_body, SemanticAnalyzer.analyze_bidder_documents,
    SemanticAnalyzer.find_similar_documents.
  rewrite length_map, Hfew. cbn. rewrite app_nil_r.
  repeat split.
Qed.

Lemma similarity_node_without_two_documents_witness :
  risk_signals
    (step Reference.embedder_down analyze_similarity
       (state_before Reference.embedder_down analyze_similarity
          (initial_state "T" "d" Reference.identical_bids [])))
  = risk_signals
      (state_before Reference.embedder_down analyze_similarity
         (initial_state "T" "d" Reference.identical_bids [])).
Proof.
  refine (proj1 (proj2
    (similarity_node_without_two_documents Reference.embedder_down
       (state_before Reference.embedder_down analyze_similarity
          (initial_state "T" "d" Reference.identical_bids [])) _))).
  vm_compute. lia.
Defined.

Module PseudoId.
Import SemanticAnalyzer.

Lemma head_of_key b rest :
  split_colon_head (String.append b (String.append ":" rest))
  = split_colon_head b.
Proof.
  induction b as [|c b IH]; [reflexivity|].
  simpl. destruct (Ascii.eqb c colon); [reflexivity|].
  f_equal. exact IH.
Qed.

Lemma head_is_whole b :
  split_colon_head b = b <-> ~ In colon (list_ascii_of_string b).
Proof.
  induction b as [|c b IH]; simpl; [tauto|].
  destruct (Ascii.eqb_spec c colon) as [->|Hne].
  - split; [discriminate|]. intro H. exfalso. apply H. left. reflexivity.
  - split.
    + intros [= H]. apply IH in H. intros [E|Hin]; [congruence|tauto].
    + intro H. f_equal. apply IH. tauto.
Qed.

End PseudoId.

(** X18: the bidder that the engine reads back from a pseudo-ID
    [bidder_id:doc_id] is the part of the bidder id before its first
    colon; it is the bidder id itself exactly when the id contains no
    colon.  Hence a similar pair of documents is dropped by the
    cross-bidder filter exactly when the two bidder ids agree up to their
    first colon, also when they are different bidders. *)
Theorem pseudo_id_round_trip (b1 b2 d1 d2 : string) (sc : Q) :
  split_colon_head (SemanticAnalyzer.doc_key b1 d1) = split_colon_head b1
  /\ (split_colon_head (SemanticAnalyzer.doc_key b1 d1) = b1
      <-> ~ In ":"%char (list_ascii_of_string b1))
  /\ (SemanticAnalyzer.cross_bidder
        [(SemanticAnalyzer.doc_key b1 d1, SemanticAnalyzer.doc_key b2 d2, sc)]
      = []
      <-> split_colon_head b1 = split_colon_head b2).
Proof.
  unfold SemanticAnalyzer.doc_key. split; [apply PseudoId.head_of_key|].
  split.
  - rewrite PseudoId.head_of_key. apply PseudoId.head_is_whole.
  - unfold SemanticAnalyzer.cross_bidder. cbn [flat_map].
    rewrite !PseudoId.head_of_key.
    destruct (String.eqb_spec (split_colon_head b1) (split_colon_head b2));
      cbn; split; try tauto; try discriminate.
Qed.

(** ** More on the relationship graph *)

Module GraphMore.
Import RelationshipAnalyzer GraphFacts GraphSpec.

Lemma same_edge_swap u v a b : same_edge u v a b = same_edge v u a b.
Proof.
  unfold same_edge.
  destruct (String.eqb u a), (String.eqb v b), (String.eqb u b),
    (String.eqb v a); reflexivity.
Qed.

Lemma same_edge_sym u v a b : same_edge u v a b = same_edge a b u v.
Proof.
  unfold same_edge. rewrite (String.eqb_sym u a), (String.eqb_sym v b),
    (String.eqb_sym u b), (String.eqb_sym v a).
  destruct (String.eqb a u), (String.eqb b v), (String.eqb b u),
    (String.eqb a v); reflexivity.
Qed.

(** The graph is undirected: both orientations read the same edge. *)
Lemma get_edge_swap es u v : get_edge es u v = get_edge es v u.
Proof.
  induction es as [|[[a b] d] es IH]; simpl; [reflexivity|].
  rewrite (same_edge_swap u v a b), IH. reflexivity.
Qed.

Lemma get_edge_none es u v :
  get_edge es u v = None <->
  Forall (fun k => same_edge u v (fst k) (snd k) = false) (map fst es).
Proof.
  induction es as [|[[a b] d] es IH]; simpl.
  - split; [constructor|reflexivity].
  - destruct (same_edge u v a b) eqn:E.
    + split; [discriminate|]. intro H. inversion H; subst. simpl in *.
      congruence.
    + rewrite IH. split; [intro H; constructor; assumption|].
      intro H. inversion H; assumption.
Qed.

Lemma get_edge_app_new es u v attr :
  get_edge es u v = None -> get_edge (es ++ [(u, v, attr)]) u v = Some attr.
Proof.
  induction es as [|[[a b] d] es IH]; simpl.
  - rewrite same_edge_refl. reflexivity.
  - destruct (same_edge u v a b); [discriminate|exact IH].
Qed.

Lemma get_edge_app_old es x y e :
  get_edge es x y <> None -> get_edge (es ++ [e]) x y = get_edge es x y.
Proof.
  induction es as [|[[a b] d] es IH]; simpl; [congruence|].
  destruct (same_edge x y a b); [reflexivity|exact IH].
Qed.

Lemma in_add_node g n x :
  In x (nodes (add_node g n)) <-> x = n \/ In x (nodes g).
Proof.
  unfold add_node. destruct (mem n (nodes g)) eqn:E; simpl.
  - unfold mem in E. apply existsb_exists in E.
    destruct E as (y & Hy & Hxy). apply String.eqb_eq in Hxy. subst y.
    split; [tauto|]. intros [->|H]; assumption.
  - rewrite in_app_iff. simpl. split; [intros [H|[<-|[]]]; auto|].
    intros [->|H]; auto.
Qed.

Lemma add_node_nodup g n : NoDup (nodes g) -> NoDup (nodes (add_node g n)).
Proof.
  intro H. unfold add_node. destruct (mem n (nodes g)) eqn:E; [exact H|].
  simpl. apply NoDup_app; [exact H|repeat constructor; simpl; tauto|].
  intros x Hx [Hnx|[]]. subst x.
  assert (Hm : mem n (nodes g) = true).
  { unfold mem. apply existsb_exists. exists n.
    split; [exact Hx|apply String.eqb_refl]. }
  congruence.
Qed.

Lemma add_node_edges g n : edges (add_node g n) = edges g.
Proof. unfold add_node. destruct (mem n (nodes g)); reflexivity. Qed.

Lemma add_node_well_formed g n : well_formed g -> well_formed (add_node g n).
Proof.
  intros (Hn & He & Hk). split; [apply add_node_nodup, Hn|].
  rewrite add_node_edges. split; [|exact Hk].
  eapply Forall_impl; [|exact He]. intros k (H1 & H2).
  rewrite !in_add_node. auto.
Qed.

Lemma keys_distinct_app ks k :
  keys_distinct ks ->
  Forall (fun k' => same_edge (fst k) (snd k) (fst k') (snd k') = false) ks ->
  keys_distinct (ks ++ [k]).
Proof.
  unfold keys_distinct. induction 1 as [|k0 ks H0 Hs IH]; intro Hk; simpl.
  - constructor; constructor.
  - inversion Hk as [|? ? Hk0 Hk']; subst. constructor.
    + apply Forall_app. split; [exact H0|]. constructor; [|constructor].
      rewrite same_edge_sym. exact Hk0.
    + apply IH, Hk'.
Qed.

Lemma get_update_hit es u v f x y d :
  same_edge u v x y = true ->
  get_edge es u v = Some d ->
  get_edge (update_edge es u v f) x y = Some (f d).
Proof.
  intros Es E. apply same_edge_true in Es.
  destruct Es as [[-> ->]|[-> ->]].
  - apply get_update_same, E.
  - rewrite get_edge_swap. apply get_update_same, E.
Qed.

(** The two branches of [add_relationship]. *)
Lemma add_relationship_old g u v t w ev d :
  get_edge (edges g) u v = Some d ->
  add_relationship g u v t w ev
  = {| nodes := nodes g;
       edges := update_edge (edges g) u v
                  (fun edge_data =>
                     {| weight := max2 (weight edge_data) w;
                        relationships := relationships edge_data ++ [t];
                        evidence := evidence edge_data |}) |}.
Proof.
  intro H. unfold add_relationship, has_edge. rewrite H. reflexivity.
Qed.

Lemma add_relationship_new g u v t w ev :
  get_edge (edges g) u v = None ->
  add_relationship g u v t w ev
  = {| nodes := nodes (add_node (add_node g u) v);
       edges := edges g
                ++ [(u, v, {| weight := w; relationships := [t];
                              evidence := match ev with
                                          | Some e => e
                                          | None => []
                                          end |})] |}.
Proof.
  intro H. unfold add_relationship, has_edge. rewrite H.
  unfold add_edge, has_edge. rewrite !add_node_edges, H. reflexivity.
Qed.

Lemma add_relationship_well_formed g u v t w ev :
  well_formed g -> well_formed (add_relationship g u v t w ev).
Proof.
  intros (Hn & He & Hk).
  destruct (get_edge (edges g) u v) as [d|] eqn:E.
  - rewrite (add_relationship_old _ _ _ _ _ _ _ E).
    unfold well_formed. cbn [nodes edges].
    rewrite update_edge_endpoints. auto.
  - rewrite (add_relationship_new _ _ _ _ _ _ E).
    unfold well_formed. cbn [nodes edges]. rewrite map_app. cbn [map fst].
    split; [apply add_node_nodup, add_node_nodup, Hn|]. split.
    + apply Forall_app. split.
      * eapply Forall_impl; [|exact He]. intros k (H1 & H2).
        rewrite !in_add_node. auto.
      * constructor; [|constructor]. cbn. rewrite !in_add_node. auto.
    + apply keys_distinct_app; [exact Hk|].
      apply get_edge_none. exact E.
Qed.

Lemma add_relationship_nodes g u v t w ev x :
  In x (nodes g) -> In x (nodes (add_relationship g u v t w ev)).
Proof.
  intro H. destruct (get_edge (edges g) u v) as [d|] eqn:E.
  - rewrite (add_relationship_old _ _ _ _ _ _ _ E). exact H.
  - rewrite (add_relationship_new _ _ _ _ _ _ E). cbn [nodes].
    rewrite !in_add_node. auto.
Qed.

Lemma add_relationship_establishes g u v t w ev :
  edge_has (add_relationship g u v t w ev) u v t w.
Proof.
  unfold edge_has. destruct (get_edge (edges g) u v) as [d|] eqn:E.
  - rewrite (add_relationship_old _ _ _ _ _ _ _ E). cbn [edges].
    rewrite (get_update_same _ _ _ _ _ E). eexists. split; [reflexivity|].
    cbn. split; [apply in_or_app; right; left; reflexivity|].
    destruct (max2_cases (weight d) w) as (_ & _ & H). exact H.
  - rewrite (add_relationship_new _ _ _ _ _ _ E). cbn [edges].
    rewrite (get_edge_app_new _ _ _ _ E). eexists. split; [reflexivity|].
    cbn. split; [left; reflexivity|lra].
Qed.

Lemma add_relationship_preserves g u v t w ev x y t' w' :
  edge_has g x y t' w' -> edge_has (add_relationship g u v t w ev) x y t' w'.
Proof.
  intros (d' & Hd' & Ht' & Hw'). unfold edge_has.
  destruct (get_edge (edges g) u v) as [d|] eqn:E.
  - rewrite (add_relationship_old _ _ _ _ _ _ _ E). cbn [edges].
    destruct (same_edge u v x y) eqn:Es.
    + assert (Hxy : get_edge (edges g) x y = get_edge (edges g) u v).
      { apply same_edge_true in Es.
        destruct Es as [[-> ->]|[-> ->]];
          [reflexivity|apply get_edge_swap]. }
      rewrite E in Hxy. rewrite Hd' in Hxy. injection Hxy as ->.
      rewrite (get_update_hit _ _ _ _ _ _ _ Es E).
      eexists. split; [reflexivity|]. cbn.
      split; [apply in_or_app; left; exact Ht'|].
      destruct (max2_cases (weight d) w) as (_ & H & _). lra.
    + rewrite (get_update_other _ _ _ _ _ _ Es). exists d'. auto.
  - rewrite (add_relationship_new _ _ _ _ _ _ E). cbn [edges].
    rewrite get_edge_app_old by congruence. exists d'. auto.
Qed.

Lemma edge_has_swap g u v t w : edge_has g u v t w -> edge_has g v u t w.
Proof.
  intros (d & Hd & H). exists d. rewrite get_edge_swap. auto.
Qed.

End GraphMore.

(** X19: whatever the graph held before, after
    [add_relationship(b1, b2, type, weight, evidence)] the two bidders
    are nodes and share an edge that is read from either end, lists the
    type and weighs at least the weight; every edge that listed a type
    with some minimal weight before still does; and a graph in which
    nodes are listed once, edges end in nodes and no pair has two edges
    stays so. *)
Theorem add_relationship_postcondition
  (g : RelationshipAnalyzer.Graph) (b1 b2 rtype : string) (w : Q)
  (ev : option (dict RelationshipAnalyzer.EvValue)) :
  let g' := RelationshipAnalyzer.add_relationship g b1 b2 rtype w ev in
  GraphSpec.edge_has g' b1 b2 rtype w
  /\ GraphSpec.edge_has g' b2 b1 rtype w
  /\ (forall x, In x (RelationshipAnalyzer.nodes g) ->
                In x (RelationshipAnalyzer.nodes g'))
  /\ (forall x y t' w', GraphSpec.edge_has g x y t' w' ->
                        GraphSpec.edge_has g' x y t' w')
  /\ (GraphSpec.well_formed g ->
      GraphSpec.well_formed g'
      /\ In b1 (RelationshipAnalyzer.nodes g')
      /\ In b2 (RelationshipAnalyzer.nodes g')).
Proof.
  intro g'. subst g'.
  pose proof (GraphMore.add_relationship_establishes g b1 b2 rtype w ev) as He.
  split; [exact He|]. split; [apply GraphMore.edge_has_swap, He|].
  split; [intros x; apply GraphMore.add_relationship_nodes|].
  split; [intros x y t' w'; apply GraphMore.add_relationship_preserves|].
  intro Hwf.
  pose proof (GraphMore.add_relationship_well_formed g b1 b2 rtype w ev Hwf)
    as Hwf'.
  split; [exact Hwf'|].
  destruct He as (d & Hd & _). destruct Hwf' as (_ & Hends & _).
  set (g' := RelationshipAnalyzer.add_relationship g b1 b2 rtype w ev) in *.
  assert (Hkey : exists a b, In (a, b) (map fst (RelationshipAnalyzer.edges g'))
                             /\ RelationshipAnalyzer.same_edge b1 b2 a b = true).
  { clear - Hd. induction (RelationshipAnalyzer.edges g') as [|[[a b] d0] es IH];
      simpl in *; [discriminate|].
    destruct (RelationshipAnalyzer.same_edge b1 b2 a b) eqn:E.
    - exists a, b. auto.
    - destruct (IH Hd) as (a' & b' & Hin & Hs). exists a', b'. auto. }
  destruct Hkey as (a & b & Hin & Hs). rewrite Forall_forall in Hends.
  destruct (Hends _ Hin) as (Ha & Hb). cbn in Ha, Hb.
  apply GraphFacts.same_edge_true in Hs.
  destruct Hs as [[-> ->]|[-> ->]]; auto.
Qed.

Lemma add_relationship_postcondition_witness :
  GraphSpec.well_formed
    (RelationshipAnalyzer.add_relationship Reference.one_edge
       "B2" "B1" "shared_phone" 0.8 None).
Proof.
  refine (proj1 (proj2 (proj2 (proj2 (proj2
    (add_relationship_postcondition Reference.one_edge
       "B2" "B1" "shared_phone" 0.8 None)))) _)).
  split; [|split]; cbv.
  - constructor; [intros [H|[]]; discriminate H|].
    constructor; [intros []|constructor].
  - constructor; [auto|constructor].
  - repeat constructor.
Defined.

(** ** Building the graph *)

Module BuildFacts.
Import RelationshipAnalyzer GraphFacts GraphSpec GraphMore DictFacts.

Lemma extends_refl g : extends g g.
Proof. unfold extends. auto. Qed.

Lemma extends_trans g1 g2 g3 : extends g1 g2 -> extends g2 g3 -> extends g1 g3.
Proof. unfold extends. intros (A & B & C) (A' & B' & C'). auto 6. Qed.

Lemma extends_add_relationship g u v t w ev :
  extends g (add_relationship g u v t w ev).
Proof.
  split; [intros x; apply add_relationship_nodes|].
  split; [intros x y t' w'; apply add_relationship_preserves|].
  apply add_relationship_well_formed.
Qed.

Lemma extends_add_bidder g b : extends g (add_bidder g b).
Proof.
  unfold add_bidder. split; [intros x H; apply in_add_node; auto|].
  split; [|apply add_node_well_formed].
  intros x y t w. unfold edge_has. rewrite add_node_edges. auto.
Qed.

Section Folds.
Context {A : Type}.
Variable f : Graph -> A -> Graph.
Hypothesis f_extends : forall g a, extends g (f g a).

Lemma extends_fold l : forall g, extends g (fold_left f l g).
Proof.
  induction l as [|a l IH]; intro g; simpl; [apply extends_refl|].
  eapply extends_trans; [apply f_extends|apply IH].
Qed.

(** What one round of a loop establishes, the rounds after it keep. *)
Lemma fold_reaches l a x y t w :
  In a l ->
  (forall g, edge_has (f g a) x y t w) ->
  forall g, edge_has (fold_left f l g) x y t w.
Proof.
  induction l as [|a' l IH]; intros Hin Hest g; simpl; [destruct Hin|].
  destruct Hin as [->|Hin].
  - apply (extends_fold l (f g a)), Hest.
  - apply IH; assumption.
Qed.

End Folds.

Lemma fold_add_bidder_nodes bs b :
  forall g, In b bs -> In b (nodes (fold_left add_bidder bs g)).
Proof.
  induction bs as [|b' bs IH]; intros g Hin; simpl; [destruct Hin|].
  destruct Hin as [->|Hin]; [|apply IH, Hin].
  apply (extends_fold add_bidder extends_add_bidder bs).
  apply in_add_node. auto.
Qed.

Lemma extends_similarity_edges g pairs :
  extends g (add_similarity_edges g pairs).
Proof.
  unfold add_similarity_edges. apply extends_fold.
  intros g' a. apply extends_add_relationship.
Qed.

Lemma similarity_edges_present g pairs p :
  In p pairs ->
  edge_has (add_similarity_edges g pairs)
    (SemanticAnalyzer.bidder1 p) (SemanticAnalyzer.bidder2 p)
    "document_similarity" (SemanticAnalyzer.similarity p).
Proof.
  intro Hin. unfold add_similarity_edges.
  apply fold_reaches with (a := p); [|exact Hin|].
  - intros g' a. apply extends_add_relationship.
  - intro g'. apply add_relationship_establishes.
Qed.

Lemma extends_group_edges g field value l :
  extends g (add_group_edges g field value l).
Proof.
  unfold add_group_edges. destruct (1 <? List.length l)%nat;
    [|apply extends_refl].
  apply extends_fold. intros g' [i j]. apply extends_add_relationship.
Qed.

Lemma extends_contact_edges g cd : extends g (add_contact_edges g cd).
Proof.
  unfold add_contact_edges. apply extends_fold. intros g' field.
  apply extends_fold. intros g'' [value l]. apply extends_group_edges.
Qed.

Lemma in_index_pairs n i j :
  In (i, j) (SemanticAnalyzer.index_pairs n) <-> (i < j < n)%nat.
Proof.
  unfold SemanticAnalyzer.index_pairs, range. rewrite in_flat_map. split.
  - intros (i' & Hi' & Hin). apply in_map_iff in Hin.
    destruct Hin as (j' & [= <- <-] & Hj'). apply in_seq in Hi', Hj'. lia.
  - intro H. exists i. split; [apply in_seq; lia|].
    apply in_map_iff. exists j. split; [reflexivity|apply in_seq; lia].
Qed.

Lemma group_edges_present g field value l b1 b2 :
  In b1 l -> In b2 l -> b1 <> b2 ->
  edge_has (add_group_edges g field value l) b1 b2
    (String.append "shared_" field) 0.8.
Proof.
  intros H1 H2 Hne.
  destruct (In_nth l b1 "" H1) as (i & Hi & Ei).
  destruct (In_nth l b2 "" H2) as (j & Hj & Ej).
  assert (Hij : i <> j) by congruence.
  unfold add_group_edges.
  assert (Hlen : (1 <? List.length l)%nat = true) by (apply Nat.ltb_lt; lia).
  rewrite Hlen.
  destruct (Nat.lt_total i j) as [Hlt|[Heq|Hgt]]; [|contradiction|].
  - apply fold_reaches with (a := (i, j)).
    + intros g' [i' j']. apply extends_add_relationship.
    + apply in_index_pairs. lia.
    + intro g'. rewrite Ei, Ej. apply add_relationship_establishes.
  - apply edge_has_swap. apply fold_reaches with (a := (j, i)).
    + intros g' [i' j']. apply extends_add_relationship.
    + apply in_index_pairs. lia.
    + intro g'. rewrite Ei, Ej. apply add_relationship_establishes.
Qed.

(** [field_groups]: a bidder is listed under each non-empty value it
    gives for the field. *)
Lemma group_append_keeps fg value b v' b' :
  (exists l, dict_get fg v' = Some l /\ In b' l) ->
  exists l, dict_get (group_append fg value b) v' = Some l /\ In b' l.
Proof.
  intros (l & Hl & Hin). unfold group_append.
  destruct (String.eqb_spec value v') as [->|Hne].
  - rewrite Hl, get_set_same. eexists. split; [reflexivity|].
    apply in_or_app. auto.
  - destruct (dict_get fg value); rewrite get_set_other by exact Hne;
      eauto.
Qed.

Lemma group_append_adds fg value b :
  exists l, dict_get (group_append fg value b) value = Some l /\ In b l.
Proof.
  unfold group_append. destruct (dict_get fg value) as [l|];
    rewrite get_set_same; eexists; (split; [reflexivity|]).
  - apply in_or_app. right. left. reflexivity.
  - left. reflexivity.
Qed.

Lemma field_groups_member cd field b info v :
  In (b, info) cd -> dict_get info field = Some v -> v <> "" ->
  exists l, dict_get (field_groups_of cd field) v = Some l /\ In b l.
Proof.
  intros Hin Hv Hne. unfold field_groups_of.
  set (F := fun (field_groups : dict (list string))
                (e : string * dict string) =>
              let '(bidder_id, info) := e in
              match dict_get info field with
              | Some (String c v) =>
                  group_append field_groups (String c v) bidder_id
              | _ => field_groups
              end).
  assert (Hkeep : forall l acc,
             (exists bl, dict_get acc v = Some bl /\ In b bl) ->
             exists bl, dict_get (fold_left F l acc) v = Some bl /\ In b bl).
  { induction l as [|[b' info'] l IH]; intros acc H; simpl; [exact H|].
    apply IH. destruct (dict_get info' field) as [[|c v']|]; auto.
    apply group_append_keeps, H. }
  generalize (@nil (string * list string)).
  induction cd as [|[b' info'] cd IH]; intro acc; [destruct Hin|].
  simpl. destruct Hin as [[= -> ->]|Hin]; [|apply IH, Hin].
  apply Hkeep. rewrite Hv. destruct v as [|c v]; [congruence|].
  apply group_append_adds.
Qed.

Lemma contact_edges_present g cd field b1 b2 info1 info2 v :
  In field ["email"; "phone"; "address"] ->
  In (b1, info1) cd -> In (b2, info2) cd -> b1 <> b2 ->
  dict_get info1 field = Some v -> dict_get info2 field = Some v ->
  v <> "" ->
  edge_has (add_contact_edges g cd) b1 b2 (String.append "shared_" field) 0.8.
Proof.
  intros Hf H1 H2 Hne Hv1 Hv2 Hv.
  destruct (field_groups_member cd field b1 info1 v H1 Hv1 Hv)
    as (l & Hl & Hin1).
  destruct (field_groups_member cd field b2 info2 v H2 Hv2 Hv)
    as (l' & Hl' & Hin2).
  rewrite Hl in Hl'. injection Hl' as <-.
  unfold add_contact_edges.
  apply fold_reaches with (a := field); [|exact Hf|].
  - intros g' fld. apply extends_fold. intros g'' [value bl].
    apply extends_group_edges.
  - intro g'. apply fold_reaches with (a := (v, l)).
    + intros g'' [value bl]. apply extends_group_edges.
    + apply get_some_in, Hl.
    + intro g''. apply group_edges_present; assumption.
Qed.

Lemma empty_well_formed : well_formed empty_graph.
Proof. repeat split; constructor. Qed.

Lemma extends_build bidders sd cd :
  extends (fold_left add_bidder bidders empty_graph)
          (build_graph bidders sd cd).
Proof.
  unfold build_graph.
  set (g0 := fold_left add_bidder bidders empty_graph).
  assert (H1 : extends g0 match sd with
                          | Some sd =>
                              add_similarity_edges g0
                                (SemanticAnalyzer.cross_bidder_similarities sd)
                          | None => g0
                          end).
  { destruct sd; [apply extends_similarity_edges|apply extends_refl]. }
  destruct cd as [|e cd]; [exact H1|].
  eapply extends_trans; [exact H1|apply extends_contact_edges].
Qed.

End BuildFacts.

(** X20: the graph that [analyze_bidder_network] builds and hands to
    networkx lists every node once, has edges between nodes only and at
    most one edge per unordered pair; every bidder passed in is a node;
    and every cross-bidder similarity pair of the similarity results is
    an edge that lists [document_similarity] and weighs at least the
    pair's similarity. *)
Theorem build_graph_invariant
  (bidders : list string)
  (similarity_data : option SemanticAnalyzer.SimilarityResults)
  (contact_data : dict (dict string)) :
  let g := RelationshipAnalyzer.build_graph bidders similarity_data
             contact_data in
  GraphSpec.well_formed g
  /\ (forall b, In b bidders -> In b (RelationshipAnalyzer.nodes g))
  /\ (forall sd p,
        similarity_data = Some sd ->
        In p (SemanticAnalyzer.cross_bidder_similarities sd) ->
        GraphSpec.edge_has g
          (SemanticAnalyzer.bidder1 p) (SemanticAnalyzer.bidder2 p)
          "document_similarity" (SemanticAnalyzer.similarity p)).
Proof.
  intro g. subst g.
  destruct (BuildFacts.extends_build bidders similarity_data contact_data)
    as (Hn & He & Hwf).
  split; [|split].
  - apply Hwf.
    apply (BuildFacts.extends_fold RelationshipAnalyzer.add_bidder
             BuildFacts.extends_add_bidder bidders).
    apply BuildFacts.empty_well_formed.
  - intros b Hb. apply Hn, BuildFacts.fold_add_bidder_nodes, Hb.
  - intros sd p -> Hp. unfold RelationshipAnalyzer.build_graph.
    pose proof (BuildFacts.similarity_edges_present
                  (fold_left RelationshipAnalyzer.add_bidder bidders
                     RelationshipAnalyzer.empty_graph)
                  _ p Hp) as H.
    destruct contact_data as [|e cd]; [exact H|].
    apply (BuildFacts.extends_contact_edges _ (e :: cd)), H.
Qed.

(** X21: two different bidders whose contact information gives the same
    non-empty value for [email], [phone] or [address] are joined in the
    built graph by an edge that lists [shared_<field>] and weighs at
    least 0.8, whatever other relationships were added before or after. *)
Theorem shared_contact_is_an_edge
  (bidders : list string)
  (similarity_data : option SemanticAnalyzer.SimilarityResults)
  (contact_data : dict (dict string))
  (field b1 b2 value : string) (info1 info2 : dict string)
  (Hfield : In field ["email"; "phone"; "address"])
  (Hb1 : dict_get contact_data b1 = Some info1)
  (Hb2 : dict_get contact_data b2 = Some info2)
  (Hdiff : b1 <> b2)
  (Hv1 : dict_get info1 field = Some value)
  (Hv2 : dict_get info2 field = Some value)
  (Hvalue : value <> "") :
  GraphSpec.edge_has
    (RelationshipAnalyzer.build_graph bidders similarity_data contact_data)
    b1 b2 (String.append "shared_" field) 0.8.
Proof.
  unfold RelationshipAnalyzer.build_graph.
  destruct contact_data as [|e cd] eqn:E; [discriminate|]. rewrite <- E in *.
  eapply BuildFacts.contact_edges_present; eauto using DictFacts.get_some_in.
Qed.

Lemma shared_contact_is_an_edge_witness :
  GraphSpec.edge_has
    (RelationshipAnalyzer.build_graph ["B1"; "B2"; "B3"] None
       (contact_data_of Ring.shared_phone))
    "B1" "B3" "shared_phone" 0.8.
Proof.
  refine (shared_contact_is_an_edge ["B1"; "B2"; "B3"] None
            (contact_data_of Ring.shared_phone) "phone" "B1" "B3" "555"
            [("phone", "555")] [("phone", "555")] _ eq_refl eq_refl _
            eq_refl eq_refl _).
  - simpl. auto.
  - discriminate.
  - discriminate.
Defined.

(** ** The signals of the relationship node *)

Module GroupFacts.
Import RelationshipAnalyzer.

Lemma analyze_network_groups gm fc dc bs sd cd gr :
  analyze_bidder_network gm fc dc bs sd cd = Ok gr ->
  Forall (fun g => size g = List.length (bidders g)
                   /\ (3 <= size g)%nat
                   /\ (type g = "community" \/ type g = "clique"))
    (high_risk_groups gr).
Proof.
  unfold analyze_bidder_network, find_suspicious_cliques, bind.
  destruct (detect_communities gm _) as [comms|]; [|discriminate].
  destruct (fc _) as [cliques|]; [|discriminate].
  destruct (calculate_centrality_scores dc _); [|discriminate].
  intros [= <-]. cbn [high_risk_groups]. apply Forall_app. split.
  - apply Forall_forall. intros g Hg. apply in_flat_map in Hg.
    destruct Hg as (c & _ & Hg). cbv beta in Hg.
    destruct (List.length c) as [|[|[|k]]] eqn:E;
      try (simpl in Hg; contradiction).
    destruct Hg as [<-|[]]. cbn. rewrite E. split; [reflexivity|].
    split; [lia|auto].
  - apply Forall_forall. intros g Hg. apply in_map_iff in Hg.
    destruct Hg as (c & <- & Hc). apply filter_In in Hc.
    destruct Hc as (_ & E). cbn.
    destruct (List.length c) as [|[|[|k]]]; try discriminate E.
    split; [reflexivity|]. split; [lia|auto].
Qed.

Lemma int_div_pos a b q :
  (0 < a)%nat -> int_div a b = Ok q -> b <> 0%nat /\ 0 < q.
Proof.
  intros Ha H. unfold int_div in H. destruct b as [|b]; [discriminate|].
  injection H as <-. split; [discriminate|].
  apply Qlt_shift_div_l.
  - change 0 with (inject_Z 0). rewrite <- Zlt_Qlt. lia.
  - rewrite Qmult_0_l. change 0 with (inject_Z 0). rewrite <- Zlt_Qlt. lia.
Qed.

Lemma min2_one q : 0 < q -> 0 < min2 q 1.0 /\ min2 q 1.0 <= 1.
Proof.
  intro Hq. unfold min2. destruct (Qlt_bool 1.0 q) eqn:E.
  - split; lra.
  - apply Qlt_bool_false_iff in E. split; [exact Hq|lra].
Qed.

(** What the loop over the groups appends: one signal per group, in the
    order of the groups. *)
Lemma group_signals_loop n groups :
  forall acc out,
    for_each groups
      (fun acc g =>
         bind (Agent.group_signal n g) (fun s => Ok (acc ++ [s]))) acc
    = Ok out ->
    exists new,
      out = acc ++ new
      /\ map Agent.evidence new = map Agent.EvidenceGroup groups
      /\ Forall (fun s =>
                   exists g ratio,
                     In g groups
                     /\ int_div (size g) n = Ok ratio
                     /\ Agent.evidence s = Agent.EvidenceGroup g
                     /\ Agent.affected_bidders s = bidders g
                     /\ Agent.severity s
                        = (if (4 <=? size g)%nat then "high" else "medium")
                     /\ Agent.score s = min2 ratio 1.0) new.
Proof.
  induction groups as [|g groups IH]; intros acc out H; simpl in H.
  - injection H as <-. exists []. rewrite app_nil_r.
    split; [reflexivity|]. split; [reflexivity|constructor].
  - unfold bind at 1 in H. unfold Agent.group_signal in H at 1.
    unfold bind at 1 in H.
    destruct (int_div (size g) n) as [ratio|] eqn:E; [|discriminate].
    cbn [bind] in H. destruct (IH _ _ H) as (new & -> & Hev & Hall).
    eexists (_ :: new). rewrite <- app_assoc. split; [reflexivity|].
    split; [cbn [map Agent.evidence]; rewrite Hev; reflexivity|].
    constructor.
    + exists g, ratio. cbn. auto 8.
    + eapply Forall_impl; [|exact Hall].
      intros s (g' & r' & Hin & H'). exists g', r'. split; [right; exact Hin|].
      exact H'.
Qed.

End GroupFacts.

(** X22: the relationship node emits one signal per high-risk group, in
    the order of the groups (communities of three or more, then the
    cliques of three or more).  The signal carries its group as
    evidence and the group's bidders as affected bidders; the group has
    at least three bidders; the severity is [high] from four bidders on
    and [medium] for three; the score is positive and at most 1; and a
    signal is only emitted when the request has a bidder.  When the node
    fails it emits nothing and leaves the graph slot as it was. *)
Theorem relationship_signals_per_group
  (P : Providers) (st : TenderAnalysisState) :
  let st' := step P build_relationship_graph st in
  exists new,
    risk_signals st' = risk_signals st ++ new
    /\ Forall
         (fun s =>
            exists g,
              Agent.evidence s = EvidenceGroup g
              /\ affected_bidders s = RelationshipAnalyzer.bidders g
              /\ RelationshipAnalyzer.size g
                 = List.length (RelationshipAnalyzer.bidders g)
              /\ (3 <= RelationshipAnalyzer.size g)%nat
              /\ Agent.severity s
                 = (if (4 <=? RelationshipAnalyzer.size g)%nat
                    then "high" else "medium")
              /\ 0 < score s /\ score s <= 1
              /\ Agent.bidders st <> [])
         new
    /\ ((exists m, error st' = Some m
                   /\ new = []
                   /\ relationship_graph st' = relationship_graph st)
        \/ (exists gr,
              relationship_graph st' = Some gr
              /\ error st' = error st
              /\ map Agent.evidence new
                 = map EvidenceGroup
                     (RelationshipAnalyzer.high_risk_groups gr))).
Proof.
  intro st'. subst st'.
  destruct (node_body P build_relationship_graph st) as [p|m] eqn:Hbody.
  - pose proof (step_ok P _ st p Hbody) as (_ & _ & Herr & _).
    revert Hbody. unfold node_body, build_relationship_graph_body.
    unfold bind at 1.
    destruct (RelationshipAnalyzer.analyze_bidder_network _ _ _ _ _ _)
      as [gr|] eqn:Hgr; [|discriminate].
    unfold bind at 1. unfold group_signals.
    destruct (for_each _ _ _) as [out|] eqn:Hloop; [|discriminate].
    intros [= <-].
    destruct (GroupFacts.group_signals_loop _ _ _ _ Hloop)
      as (new & -> & Hev & Hall).
    pose proof (GroupFacts.analyze_network_groups _ _ _ _ _ _ _ Hgr) as Hgroups.
    rewrite Forall_forall in Hgroups.
    assert (Hst : step P build_relationship_graph st
                  = apply_patch st
                      {| p_extracted_text := None; p_price_analysis := None;
                         p_similarity_analysis := None;
                         p_stylometry_analysis := None;
                         p_relationship_graph := Some gr;
                         p_risk_signals := Some (risk_signals st ++ [] ++ new);
                         p_overall_risk_score := None;
                         p_messages :=
                           [HumanMessage
                              (cat ["Network analysis complete. Found ";
                                    str_of_nat
                                      (List.length
                                         (RelationshipAnalyzer.high_risk_groups
                                            gr));
                                    " high-risk groups"])];
                         p_current_step := Some "relationship_graph";
                         p_analysis_complete := None; p_error := None |}).
    { unfold step, node_function, build_relationship_graph_node,
        build_relationship_graph_body.
      unfold bind at 1. rewrite Hgr. unfold bind at 1. unfold group_signals.
      rewrite Hloop. reflexivity. }
    exists new. split; [rewrite Hst; reflexivity|]. split.
    + eapply Forall_impl; [|exact Hall].
      intros s (g & ratio & Hin & Hdiv & He & Ha & Hs & Hsc).
      destruct (Hgroups g Hin) as (Hsize & Hthree & _).
      assert (Hsz : (0 < RelationshipAnalyzer.size g)%nat) by lia.
      destruct (GroupFacts.int_div_pos _ _ _ Hsz Hdiv) as (Hn & Hpos).
      destruct (GroupFacts.min2_one ratio Hpos) as (Hlo & Hhi).
      exists g. rewrite Hsc. repeat split; try assumption.
      intro Hnil. apply Hn. rewrite length_map, Hnil. reflexivity.
    + right. exists gr. split; [rewrite Hst; reflexivity|].
      split; [exact Herr|exact Hev].
  - pose proof (step_raise P _ st m Hbody)
      as (Herr & Hsig & _ & _ & _ & _ & Hslot & _).
    exists []. rewrite app_nil_r. split; [exact Hsig|].
    split; [constructor|]. left. exists m. auto.
Qed.

(** ** The stylometry engine and its node *)

Module StyleFacts.
Import StylometryAnalyzer DictFacts.

Section Model.
Variable extract : string -> Exc (dict Q).
Variable cosine : list (list Q) -> Exc (nat -> nat -> Q).

(** [features] has the keys of [texts], each once. *)
Lemma features_keys texts :
  forall acc features,
    for_each texts
      (fun features '(doc_id, text) =>
         bind (extract text) (fun f => Ok (dict_set features doc_id f)))
      acc = Ok features ->
    NoDup (dict_keys acc) ->
    NoDup (dict_keys features)
    /\ forall k, In k (dict_keys features) ->
                 In k (dict_keys acc) \/ In k (dict_keys texts).
Proof.
  induction texts as [|[doc_id text] texts IH]; intros acc features H Hnd;
    simpl in H.
  - injection H as <-. auto.
  - unfold bind at 1 2 in H. destruct (extract text) as [f|]; [|discriminate].
    destruct (IH _ _ H (set_nodup _ _ _ Hnd)) as (Hnd' & Hin).
    split; [exact Hnd'|]. intros k Hk.
    destruct (Hin k Hk) as [Hk'|Hk']; [|right; right; exact Hk'].
    apply in_keys_set in Hk'. destruct Hk' as [->|Hk']; [|auto].
    right. left. reflexivity.
Qed.

Lemma compare_pairs texts features pairs names :
  compare_writing_styles extract cosine texts
  = Ok (CompareOk features pairs names) ->
  Forall (fun m => 0.8 < similarity m
                   /\ doc1 m <> doc2 m
                   /\ In (doc1 m) (dict_keys texts)
                   /\ In (doc2 m) (dict_keys texts)) pairs.
Proof.
  unfold compare_writing_styles.
  destruct (List.length texts <? 2)%nat; [discriminate|].
  unfold bind at 1.
  match goal with
  | |- context [for_each texts ?f ?a] =>
      destruct (for_each texts f a) as [fs|] eqn:Hfs; [|discriminate]
  end.
  unfold bind at 1. destruct (cosine _) as [sim|]; [|discriminate].
  intros [= <- <- _].
  destruct (features_keys texts [] fs Hfs) as (Hnd & Hin); [constructor|].
  apply Forall_forall. intros m Hm. apply in_flat_map in Hm.
  destruct Hm as ((i & j) & Hij & Hm). apply BuildFacts.in_index_pairs in Hij.
  destruct (Qlt_bool 0.8 (sim i j)) eqn:E; [|simpl in Hm; contradiction].
  destruct Hm as [<-|[]]. cbn [doc1 doc2 similarity].
  apply Qlt_bool_iff in E. split; [exact E|].
  assert (Hkey : forall n, (n < List.length (dict_keys fs))%nat ->
                           In (nth n (dict_keys fs) "") (dict_keys texts)).
  { intros n Hn. destruct (Hin _ (nth_In _ "" Hn)) as [[]|H]. exact H. }
  split; [|split; apply Hkey; lia].
  intro Heq. apply (proj1 (NoDup_nth _ "") Hnd) in Heq; lia.
Qed.

(** [bidder_combined_texts] has no other keys than [bidder_texts], and no
    more entries. *)
Lemma combined_texts (bidder_texts : dict (dict string)) :
  forall acc,
    let combined :=
      fold_left (fun acc '(bidder_id, docs) =>
                   dict_set acc bidder_id (join " " (dict_values docs)))
                bidder_texts acc in
    (List.length combined <= List.length acc + List.length bidder_texts)%nat
    /\ forall k, In k (dict_keys combined) ->
                 In k (dict_keys acc) \/ In k (dict_keys bidder_texts).
Proof.
  induction bidder_texts as [|[b docs] l IH]; intro acc; simpl.
  - split; [lia|auto].
  - destruct (IH (dict_set acc b (join " " (dict_values docs))))
      as (Hlen & Hin).
    pose proof (length_set_le acc b (join " " (dict_values docs))) as Hset.
    split; [lia|]. intros k Hk. destruct (Hin k Hk) as [Hk'|Hk']; [|auto].
    apply in_keys_set in Hk'. destruct Hk' as [->|Hk']; auto.
Qed.

Lemma style_matches bidder_texts r :
  analyze_bidder_styles extract cosine bidder_texts = Ok r ->
  Forall (fun m => 0.8 < similarity m
                   /\ doc1 m <> doc2 m
                   /\ In (doc1 m) (dict_keys bidder_texts)
                   /\ In (doc2 m) (dict_keys bidder_texts))
    (suspicious_style_matches r).
Proof.
  unfold analyze_bidder_styles. unfold bind at 1.
  destruct (compare_writing_styles _ _ _) as [[e|fs pairs names]|] eqn:Hc;
    [| |discriminate]; intros [= <-]; cbn [suspicious_style_matches].
  - constructor.
  - destruct (combined_texts bidder_texts []) as (_ & Hin).
    eapply Forall_impl; [|exact (compare_pairs _ _ _ _ Hc)].
    intros m (H1 & H2 & H3 & H4). repeat split; try assumption.
    + destruct (Hin _ H3) as [[]|H]. exact H.
    + destruct (Hin _ H4) as [[]|H]. exact H.
Qed.

Lemma styles_without_two_bidders bidder_texts :
  (List.length bidder_texts < 2)%nat ->
  analyze_bidder_styles extract cosine bidder_texts
  = Ok {| bidder_features := []; suspicious_style_matches := [] |}.
Proof.
  intro H. unfold analyze_bidder_styles, compare_writing_styles.
  destruct (combined_texts bidder_texts []) as (Hlen & _). simpl in Hlen.
  assert (E : (List.length
                 (fold_left
                    (fun acc '(bidder_id, docs) =>
                       dict_set acc bidder_id (join " " (dict_values docs)))
                    bidder_texts []) <? 2)%nat = true)
    by (apply Nat.ltb_lt; lia).
  rewrite E. reflexivity.
Qed.

End Model.

Lemma organize_texts_keys (st : Agent.TenderAnalysisState) k :
  In k (dict_keys (Agent.organize_texts st)) ->
  In k (map Agent.bidder_id (Agent.bidders st)).
Proof.
  change (Agent.organize_texts st)
    with (Fill.fill Agent.bidder_id
            (fun b => Agent.texts_of_bidder (Agent.extracted_text st)
                        (Agent.documents b))
            (Agent.bidders st) []).
  rewrite fill_keys. simpl. tauto.
Qed.

End StyleFacts.

(** X23: with fewer than two distinct bidder ids in the request the
    stylometry node calls neither the feature extractor nor the cosine,
    so it cannot fail: it writes an empty result, emits no signal and
    leaves [error] as it was, whatever the providers would do. *)
Theorem stylometry_node_without_two_bidders
  (P : Providers) (st : TenderAnalysisState)
  (Hfew : (List.length (organize_texts st) < 2)%nat) :
  let st' := step P analyze_stylometry st in
  stylometry_analysis st'
  = Some {| StylometryAnalyzer.bidder_features := [];
            StylometryAnalyzer.suspicious_style_matches := [] |}
  /\ risk_signals st' = risk_signals st
  /\ error st' = error st
  /\ current_step st' = "stylometry_analysis".
Proof.
  unfold step, node_function, analyze_stylometry_node,
    analyze_stylometry_body.
  rewrite (StyleFacts.styles_without_two_bidders _ _ _ Hfew).
  cbn. rewrite app_nil_r. repeat split.
Qed.

Lemma stylometry_node_without_two_bidders_witness :
  risk_signals
    (step Reference.llm_down analyze_stylometry
       (state_before Reference.llm_down analyze_stylometry
          (initial_state "T" "d" [Reference.bidder "B1" 100 ["a.pdf"]] [])))
  = risk_signals
      (state_before Reference.llm_down analyze_stylometry
         (initial_state "T" "d" [Reference.bidder "B1" 100 ["a.pdf"]] [])).
Proof.
  refine (proj1 (proj2
    (stylometry_node_without_two_bidders Reference.llm_down
       (state_before Reference.llm_down analyze_stylometry
          (initial_state "T" "d" [Reference.bidder "B1" 100 ["a.pdf"]] []))
       _))).
  vm_compute. lia.
Defined.

(** ** The message log *)

Module TrailFacts.
Import Agent Run StepFacts RunFacts Trail.

Lemma step_messages_ok P n st p :
  node_body P n st = Ok p ->
  List.length (messages (step P n st))
  = (List.length (messages st) + written_by n)%nat
  /\ error (step P n st) = error st
  /\ (n <> generate_report ->
      existsb is_ai (messages (step P n st)) = existsb is_ai (messages st)
      /\ analysis_complete (step P n st) = analysis_complete st)
  /\ (n = generate_report ->
      existsb is_ai (messages (step P n st)) = true
      /\ analysis_complete (step P n st) = true).
Proof.
  intro H. destruct (step_ok P n st p H) as (_ & _ & Herr & Hc).
  split; [|split; [exact Herr|]].
  - revert H. destruct n; open_node; intro H; try discriminate H;
      cbn [apply_patch messages p_messages];
      rewrite length_app; reflexivity.
  - split.
    + intro Hn. split; [|apply Hc, Hn].
      revert H. destruct n; try congruence; open_node; intro H;
        try discriminate H; cbn [apply_patch messages p_messages];
        rewrite existsb_app; cbn; apply orb_false_r.
    + intros ->. revert H. open_node; intro H; try discriminate H.
      cbn [apply_patch messages p_messages analysis_complete or_keep
           p_analysis_complete].
      rewrite existsb_app. cbn. rewrite orb_true_r. auto.
Qed.

Lemma step_messages_raise P n st m :
  node_body P n st = Raise m ->
  messages (step P n st) = messages st
  /\ analysis_complete (step P n st) = analysis_complete st
  /\ error (step P n st) = Some m.
Proof.
  intro H.
  destruct (step_raise P n st m H)
    as (Herr & _ & _ & _ & _ & _ & _ & _ & Hc & _).
  split; [|split; assumption].
  revert H. destruct n; open_node; intro H; try discriminate H;
    cbn [apply_patch messages p_messages error_patch]; apply app_nil_r.
Qed.

Lemma written_by_pos n : (1 <= written_by n)%nat.
Proof. destruct n; simpl; lia. Qed.

Lemma run_messages_le P l :
  forall st,
    (List.length (messages (run_nodes P l st))
     <= List.length (messages st) + written_by_all l)%nat.
Proof.
  induction l as [|n l IH]; intro st; [simpl; lia|].
  change (written_by_all (n :: l)) with (written_by n + written_by_all l)%nat.
  change (run_nodes P (n :: l) st) with (run_nodes P l (step P n st)).
  specialize (IH (step P n st)).
  destruct (node_body P n st) as [p|m] eqn:E.
  - destruct (step_messages_ok P n st p E) as (Hlen & _). lia.
  - destruct (step_messages_raise P n st m E) as (Hm & _).
    rewrite Hm in IH. lia.
Qed.

(** Nothing is missing from the log exactly when no node failed. *)
Lemma run_messages_full P l :
  forall st,
    error st = None ->
    (error (run_nodes P l st) = None
     <-> List.length (messages (run_nodes P l st))
         = (List.length (messages st) + written_by_all l)%nat).
Proof.
  induction l as [|n l IH]; intros st Hst.
  - simpl. split; [lia|auto].
  - change (written_by_all (n :: l))
      with (written_by n + written_by_all l)%nat.
    change (run_nodes P (n :: l) st) with (run_nodes P l (step P n st)).
    destruct (node_body P n st) as [p|m] eqn:E.
    + destruct (step_messages_ok P n st p E) as (Hlen & Herr & _).
      rewrite Hst in Herr. specialize (IH _ Herr).
      rewrite IH, Hlen. lia.
    + destruct (step_messages_raise P n st m E) as (Hm & _ & Herr).
      pose proof (run_messages_le P l (step P n st)) as Hle.
      rewrite Hm in Hle.
      pose proof (written_by_pos n) as Hpos.
      assert (Hne : error (step P n st) <> None) by congruence.
      apply (error_run P l) in Hne.
      split; [intro H; contradiction|lia].
Qed.

End TrailFacts.

(** X25: the message log of a run.  A run returns at most seven
    messages, and exactly seven when and only when [error] is unset at
    exit: every node that returns adds its message (the report node its
    two) and a node that fails adds none.  The log holds the model's
    answer, the only [AIMessage], exactly when [analysis_complete] is
    true. *)
Theorem seven_messages_iff_no_failure
  (P : Providers) (tid descr : string) (bs : list BidderInfo)
  (docs : list string) :
  let final := run_analysis P tid descr bs docs in
  (List.length (messages final) <= 7)%nat
  /\ (List.length (messages final) = 7%nat <-> error final = None)
  /\ (existsb Trail.is_ai (messages final) = true
      <-> analysis_complete final = true).
Proof.
  intro final. subst final. unfold run_analysis.
  set (st0 := initial_state tid descr bs docs).
  split; [|split].
  - rewrite invoke_pipeline.
    apply (TrailFacts.run_messages_le P pipeline st0).
  - rewrite invoke_pipeline. symmetry.
    apply (TrailFacts.run_messages_full P pipeline st0). reflexivity.
  - rewrite <- after_all.
    assert (Hbefore :
              existsb Trail.is_ai (messages (state_before P generate_report st0))
              = false
              /\ analysis_complete (state_before P generate_report st0)
                 = false).
    { rewrite <- after_position.
      apply (after_preserved P st0
               (fun st => existsb Trail.is_ai (messages st) = false
                          /\ analysis_complete st = false)
               (fun n => n <> generate_report)) with (j := 5%nat) (k := 0%nat).
      - intros n Hn (Hm & Hc).
        destruct (node_body P n (state_before P n st0)) as [p|m] eqn:E.
        + destruct (TrailFacts.step_messages_ok P n _ p E)
            as (_ & _ & Hkeep & _).
          destruct (Hkeep Hn) as (-> & ->). auto.
        + destruct (TrailFacts.step_messages_raise P n _ m E)
            as (-> & -> & _). auto.
      - simpl. lia.
      - intros n Hpos ->. simpl in Hpos. lia.
      - split; reflexivity. }
    destruct Hbefore as (Hm & Hc).
    change 6%nat with (S (position generate_report)). rewrite after_succ.
    destruct (node_body P generate_report
                (state_before P generate_report st0)) as [p|m] eqn:E.
    + destruct (TrailFacts.step_messages_ok P _ _ p E) as (_ & _ & _ & Hrep).
      destruct (Hrep eq_refl) as (-> & ->). tauto.
    + destruct (TrailFacts.step_messages_raise P _ _ m E) as (-> & -> & _).
      rewrite Hm, Hc. tauto.
Qed.

(** X26: the answer of the conditional edge at the end of a run.
    [should_continue] answers [error] exactly when [error] holds a
    non-empty text, so a failure whose exception has an empty text is
    not seen by it; it answers [complete] only when the report node
    returned; and it can answer [continue], the fallback of the edge,
    only when the report node failed with an empty text. *)
Theorem should_continue_at_exit
  (P : Providers) (tid descr : string) (bs : list BidderInfo)
  (docs : list string) :
  let final := run_analysis P tid descr bs docs in
  let answer := should_continue final in
  (answer = "error" \/ answer = "complete" \/ answer = "continue")
  /\ (answer = "error"
      <-> exists c m, error final = Some (String c m))
  /\ (answer = "complete" -> analysis_complete final = true)
  /\ (answer = "continue"
      -> error final = Some "" /\ analysis_complete final = false).
Proof.
  intros final answer. subst answer.
  assert (Hexit : analysis_complete final = true
                  \/ exists m, error final = Some m).
  { subst final. unfold run_analysis. rewrite <- after_all.
    change 6%nat with (S (position generate_report)). rewrite after_succ.
    destruct (node_body P generate_report
                (state_before P generate_report
                   (initial_state tid descr bs docs))) as [p|m] eqn:E.
    - destruct (TrailFacts.step_messages_ok P _ _ p E) as (_ & _ & _ & Hrep).
      left. apply Hrep. reflexivity.
    - destruct (TrailFacts.step_messages_raise P _ _ m E) as (_ & _ & Herr).
      right. exists m. exact Herr. }
  clearbody final. unfold should_continue.
  destruct (error final) as [[|c m]|] eqn:Herr;
    destruct (analysis_complete final) eqn:Hc;
    repeat split; auto; try discriminate;
    try (intros (c' & m' & Hcm); discriminate Hcm);
    try (intros _; eauto);
    try (destruct Hexit as [Hx|(mx & Hx)]; discriminate Hx).
Qed.

(** ** The statistics of [detect_outliers] *)

Module StatFacts.
Import PriceAnalyzer SortFacts.

Lemma last_is_nth (l : list Q) d :
  last l d = nth (List.length l - 1) l d.
Proof.
  induction l as [|x [|y l] IH]; [reflexivity|reflexivity|].
  change (last (x :: y :: l) d) with (last (y :: l) d). rewrite IH.
  simpl. rewrite Nat.sub_0_r. reflexivity.
Qed.

(** The ends of the sorted prices are the least and the greatest price. *)
Lemma sorted_ends (prices : list Q) :
  prices <> [] ->
  let sorted := np_sort prices in
  In (nth 0 sorted 0) prices
  /\ In (last sorted 0) prices
  /\ Forall (fun p => nth 0 sorted 0 <= p <= last sorted 0) prices.
Proof.
  intros Hne sorted.
  assert (Hperm : Permutation sorted prices)
    by apply sort_asc_perm.
  assert (Hlen : List.length sorted = List.length prices)
    by apply Permutation_length, Hperm.
  assert (Hpos : (0 < List.length sorted)%nat).
  { rewrite Hlen. destruct prices; [congruence|simpl; lia]. }
  assert (Hs : StronglySorted Qle sorted).
  { pose proof (sort_asc_sorted (fun x : Q => x) prices) as H.
    apply (sorted_map (fun x : Q => x)) in H. rewrite map_id in H. exact H. }
  rewrite last_is_nth.
  split; [|split].
  - eapply Permutation_in; [exact Hperm|]. apply nth_In. exact Hpos.
  - eapply Permutation_in; [exact Hperm|]. apply nth_In. lia.
  - apply Forall_forall. intros p Hp.
    apply (Permutation_in _ (Permutation_sym Hperm)) in Hp.
    destruct (In_nth _ _ 0 Hp) as (k & Hk & <-).
    split; apply sorted_nth; try exact Hs; lia.
Qed.

End StatFacts.

(** X27: from three bids on, [detect_outliers] returns statistics in
    which both outlier lists have one flag per bid, [min] and [max] are
    bids and bound every bid, the range is not negative, and the
    coefficient of variation is 0 when the mean is not positive. *)
Theorem detect_outliers_statistics
  (np_sqrt : Q -> Q) (threshold : Q) (prices : list Q)
  (Hthree : (3 <= List.length prices)%nat) :
  exists s,
    PriceAnalyzer.detect_outliers np_sqrt threshold prices
    = PriceAnalyzer.OutlierOk s
    /\ List.length (PriceAnalyzer.z_score_outliers s) = List.length prices
    /\ List.length (PriceAnalyzer.iqr_outliers s) = List.length prices
    /\ In (PriceAnalyzer.price_range_min s) prices
    /\ In (PriceAnalyzer.price_range_max s) prices
    /\ Forall (fun p => PriceAnalyzer.price_range_min s <= p
                        /\ p <= PriceAnalyzer.price_range_max s) prices
    /\ 0 <= PriceAnalyzer.price_range_range s
    /\ (PriceAnalyzer.mean s <= 0 ->
        PriceAnalyzer.coefficient_variation s = 0).
Proof.
  assert (Hne : prices <> [])
    by (destruct prices; [simpl in Hthree; lia|congruence]).
  destruct (StatFacts.sorted_ends prices Hne) as (Hlo & Hhi & Hall).
  assert (Hrange : nth 0 (PriceAnalyzer.np_sort prices) 0
                   <= last (PriceAnalyzer.np_sort prices) 0).
  { rewrite Forall_forall in Hall. destruct (Hall _ Hlo) as (_ & H).
    exact H. }
  unfold PriceAnalyzer.detect_outliers.
  assert (E : (List.length prices <? 3)%nat = false)
    by (apply Nat.ltb_ge; exact Hthree).
  rewrite E. eexists. split; [reflexivity|].
  cbn [PriceAnalyzer.z_score_outliers PriceAnalyzer.iqr_outliers
       PriceAnalyzer.price_range_min PriceAnalyzer.price_range_max
       PriceAnalyzer.price_range_range PriceAnalyzer.mean
       PriceAnalyzer.coefficient_variation].
  split; [unfold PriceAnalyzer.zscore_above; apply length_map|].
  split; [apply length_map|].
  split; [exact Hlo|]. split; [exact Hhi|]. split; [exact Hall|].
  split; [lra|].
  intro Hmean. destruct (Qlt_bool 0 (PriceAnalyzer.np_mean prices)) eqn:Ep;
    [|reflexivity].
  apply Qlt_bool_iff in Ep. lra.
Qed.

Lemma detect_outliers_statistics_witness :
  exists s,
    PriceAnalyzer.detect_outliers Reference.sqrt6 2 [100; 120; 500]
    = PriceAnalyzer.OutlierOk s
    /\ In (PriceAnalyzer.price_range_max s) [100; 120; 500].
Proof.
  destruct (detect_outliers_statistics Reference.sqrt6 2 [100; 120; 500])
    as (s & Hs & _ & _ & _ & Hmax & _).
  - simpl. lia.
  - exists s. split; [exact Hs|exact Hmax].
Defined.

(** ** Documents and their owners *)

Module OwnerFacts.
Import Agent Spec SemanticAnalyzer DictFacts.

Lemma set_absent {V} (d : dict V) k v :
  ~ In k (dict_keys d) -> dict_set d k v = d ++ [(k, v)].
Proof.
  induction d as [|[k' v'] d IH]; simpl; [reflexivity|].
  intro H. destruct (String.eqb_spec k' k) as [->|Hne]; [tauto|].
  rewrite IH by tauto. reflexivity.
Qed.

(** Assigning fresh, distinct keys appends the entries. *)
Lemma fold_set_fresh {V} (l : dict V) :
  forall acc,
    NoDup (dict_keys l) ->
    (forall k, In k (dict_keys l) -> ~ In k (dict_keys acc)) ->
    fold_left (fun d '(k, v) => dict_set d k v) l acc = acc ++ l.
Proof.
  induction l as [|[k v] l IH]; intros acc Hnd Hdis.
  - simpl. symmetry. apply app_nil_r.
  - unfold dict_keys in Hnd, Hdis. cbn [map fst] in Hnd, Hdis.
    inversion Hnd as [|? ? Hk Hnd']; subst. cbn [fold_left].
    rewrite set_absent by (apply Hdis; left; reflexivity).
    rewrite IH; [rewrite <- app_assoc; reflexivity|exact Hnd'|].
    intros k' Hk' Hin. unfold dict_keys in Hin, Hk'.
    rewrite map_app, in_app_iff in Hin.
    destruct Hin as [Hin|[Hin|[]]].
    + apply (Hdis k'); [right; exact Hk'|exact Hin].
    + cbn in Hin. subst k'. apply Hk, Hk'.
Qed.








Section Request.
Variable st : TenderAnalysisState.
Hypothesis no_colon :
  Forall (fun b => ~ In colon (list_ascii_of_string (bidder_id b)))
    (bidders st).


Lemma organize_texts_nodup : NoDup (dict_keys (organize_texts st)).
Proof.
  change (organize_texts st)
    with (Fill.fill bidder_id
            (fun b => texts_of_bidder (extracted_text st) (documents b))
            (bidders st) []).
  apply fill_nodup. constructor.
Qed.



End Request.




End OwnerFacts.




(** ** The feature vectors behind a stylometry signal *)

Module VectorFacts.
Import Agent StylometryAnalyzer StyleVectors DictFacts.

Lemma in_set_inv {V} (d : dict V) k v k' v' :
  In (k', v') (dict_set d k v) -> (k' = k /\ v' = v) \/ In (k', v') d.
Proof.
  induction d as [|[k0 v0] d IH]; simpl.
  - intros [[= <- <-]|[]]. auto.
  - destruct (String.eqb_spec k0 k) as [->|Hne]; simpl.
    + intros [[= <- <-]|H]; auto.
    + intros [H|H]; [auto|]. destruct (IH H); auto.
Qed.

Section Model.
Variable extract : string -> Exc (dict Q).
Variable cosine : list (list Q) -> Exc (nat -> nat -> Q).

(** Every entry of [features] was extracted from the text of its key. *)
Lemma features_entries texts :
  forall acc features,
    for_each texts
      (fun features '(doc_id, text) =>
         bind (extract text) (fun f => Ok (dict_set features doc_id f)))
      acc = Ok features ->
    forall b f, In (b, f) features ->
                In (b, f) acc
                \/ exists text, In (b, text) texts /\ extract text = Ok f.
Proof.
  induction texts as [|[doc_id text] texts IH]; intros acc features H b f Hin;
    simpl in H.
  - injection H as <-. auto.
  - unfold bind at 1 2 in H.
    destruct (extract text) as [f0|] eqn:E; [|discriminate].
    destruct (IH _ _ H b f Hin) as [Hacc|(t & Ht & Hf)].
    + apply in_set_inv in Hacc. destruct Hacc as [(-> & ->)|Hacc]; [|auto].
      right. exists text. split; [left; reflexivity|exact E].
    + right. exists t. split; [right; exact Ht|exact Hf].
Qed.

Lemma compare_scores texts features pairs names :
  compare_writing_styles extract cosine texts
  = Ok (CompareOk features pairs names) ->
  (forall b f, In (b, f) features ->
               exists text, In (b, text) texts /\ extract text = Ok f)
  /\ exists sim,
       cosine (feature_matrix_of features) = Ok sim
       /\ Forall (fun m =>
                    exists i j,
                      (i < j < List.length features)%nat
                      /\ doc1 m = nth i (dict_keys features) ""
                      /\ doc2 m = nth j (dict_keys features) ""
                      /\ similarity m = sim i j) pairs.
Proof.
  unfold compare_writing_styles.
  destruct (List.length texts <? 2)%nat; [discriminate|].
  unfold bind at 1.
  match goal with
  | |- context [for_each texts ?f ?a] =>
      destruct (for_each texts f a) as [fs|] eqn:Hfs; [|discriminate]
  end.
  unfold bind at 1.
  change (cosine
            (map (fun doc_id =>
                    map (fun fname =>
                           match dict_get fs doc_id with
                           | Some f => match dict_get f fname with
                                       | Some v => v
                                       | None => 0
                                       end
                           | None => 0
                           end)
                        match dict_values fs with
                        | f :: _ => dict_keys f
                        | [] => []
                        end)
                 (dict_keys fs)))
    with (cosine (feature_matrix_of fs)).
  destruct (cosine (feature_matrix_of fs)) as [sim|] eqn:Hcos; [|discriminate].
  intros [= <- <- _]. split.
  - intros b f Hin.
    destruct (features_entries texts [] fs Hfs b f Hin) as [[]|H]. exact H.
  - exists sim. split; [exact Hcos|].
    apply Forall_forall. intros m Hm. apply in_flat_map in Hm.
    destruct Hm as ((i & j) & Hij & Hm).
    apply BuildFacts.in_index_pairs in Hij.
    destruct (Qlt_bool 0.8 (sim i j)); [|simpl in Hm; contradiction].
    destruct Hm as [<-|[]]. exists i, j. cbn [doc1 doc2 similarity].
    unfold dict_keys in Hij. rewrite length_map in Hij. auto.
Qed.

(** With one entry per bidder, the combined text of a bidder is the join
    of its documents. *)
Lemma combined_is_map (bidder_texts : dict (dict string)) :
  NoDup (dict_keys bidder_texts) ->
  fold_left (fun acc '(bidder_id, docs) =>
               dict_set acc bidder_id (join " " (dict_values docs)))
            bidder_texts []
  = map (fun '(bidder_id, docs) =>
           (bidder_id, join " " (dict_values docs))) bidder_texts.
Proof.
  intro Hnd.
  assert (E : forall l (acc : dict string),
             fold_left (fun acc '(bidder_id, docs) =>
                          dict_set acc bidder_id
                            (join " " (dict_values (docs : dict string))))
                       l acc
             = fold_left (fun d '(k, v) => dict_set d k v)
                 (map (fun '(bidder_id, docs) =>
                         (bidder_id, join " " (dict_values docs))) l) acc).
  { induction l as [|[b docs] l IH]; intro acc; simpl;
      [reflexivity|apply IH]. }
  rewrite E, OwnerFacts.fold_set_fresh; [reflexivity| |intros k _ []].
  unfold dict_keys in *. rewrite map_map.
  erewrite map_ext; [exact Hnd|]. intros [b docs]. reflexivity.
Qed.

Lemma style_scores bidder_texts r :
  NoDup (dict_keys bidder_texts) ->
  analyze_bidder_styles extract cosine bidder_texts = Ok r ->
  suspicious_style_matches r = []
  \/ ((forall b f, In (b, f) (bidder_features r) ->
                   exists docs,
                     In (b, docs) bidder_texts
                     /\ extract (join " " (dict_values docs)) = Ok f)
      /\ exists sim,
           cosine (feature_matrix_of (bidder_features r)) = Ok sim
           /\ Forall (fun m =>
                        exists i j,
                          (i < j < List.length (bidder_features r))%nat
                          /\ doc1 m = nth i (dict_keys (bidder_features r)) ""
                          /\ doc2 m = nth j (dict_keys (bidder_features r)) ""
                          /\ similarity m = sim i j)
                (suspicious_style_matches r)).
Proof.
  intros Hnd. unfold analyze_bidder_styles. unfold bind at 1.
  rewrite (combined_is_map bidder_texts Hnd).
  destruct (compare_writing_styles _ _ _) as [[e|fs pairs names]|] eqn:Hc;
    [| |discriminate]; intros [= <-];
    cbn [suspicious_style_matches bidder_features]; [left; reflexivity|].
  right. destruct (compare_scores _ _ _ _ Hc) as (Hfs & sim & Hsim & Hall).
  split; [|exists sim; auto].
  intros b f Hin. destruct (Hfs b f Hin) as (text & Ht & Hf).
  apply in_map_iff in Ht. destruct Ht as ([b' docs] & [= <- <-] & Hbt).
  exists docs. auto.
Qed.

End Model.

End VectorFacts.

(** X24: every signal of the stylometry node joins two different bidder
    ids of the request (the [doc1] and [doc2] of a match are bidder ids,
    not document ids); its score is above 0.8; its severity is [high]
    exactly when the score is above 0.85 and [medium] otherwise.  When
    the node emits signals, the features in its result were extracted
    from the joined documents of each bidder, and the score of a signal
    is the entry [(i, j)] that the cosine returned for the feature matrix
    of these features, [i < j] being the positions of the two bidders. *)
Theorem stylometry_signals_join_two_bidders
  (P : Providers) (st : TenderAnalysisState) :
  let st' := step P analyze_stylometry st in
  exists new,
    risk_signals st' = risk_signals st ++ new
    /\ Forall
         (fun s =>
            exists m,
              Agent.evidence s = EvidenceMatch m
              /\ affected_bidders s
                 = [StylometryAnalyzer.doc1 m; StylometryAnalyzer.doc2 m]
              /\ StylometryAnalyzer.doc1 m <> StylometryAnalyzer.doc2 m
              /\ In (StylometryAnalyzer.doc1 m) (map bidder_id (bidders st))
              /\ In (StylometryAnalyzer.doc2 m) (map bidder_id (bidders st))
              /\ score s = StylometryAnalyzer.similarity m
              /\ 0.8 < score s
              /\ (Agent.severity s = "high" <-> 0.85 < score s)
              /\ (Agent.severity s = "medium" <-> score s <= 0.85))
         new
    /\ (new = []
        \/ exists r sim,
             stylometry_analysis st' = Some r
             /\ (forall b f,
                   In (b, f) (StylometryAnalyzer.bidder_features r) ->
                   exists docs,
                     In (b, docs) (organize_texts st)
                     /\ extract_stylometric_features P
                          (join " " (dict_values docs)) = Ok f)
             /\ cosine_similarity P
                  (StyleVectors.feature_matrix_of
                     (StylometryAnalyzer.bidder_features r)) = Ok sim
             /\ Forall
                  (fun s =>
                     exists i j,
                       (i < j
                        < List.length (StylometryAnalyzer.bidder_features r))%nat
                       /\ affected_bidders s
                          = [nth i (dict_keys
                                      (StylometryAnalyzer.bidder_features r)) "";
                             nth j (dict_keys
                                      (StylometryAnalyzer.bidder_features r)) ""]
                       /\ score s = sim i j)
                  new).
Proof.
  intro st'. subst st'.
  unfold step, node_function, analyze_stylometry_node,
    analyze_stylometry_body. unfold bind at 1.
  destruct (StylometryAnalyzer.analyze_bidder_styles _ _ _) as [r|m] eqn:Hr.
  - cbn [apply_patch risk_signals or_keep p_risk_signals
         stylometry_analysis or_keep_opt p_stylometry_analysis].
    eexists. split; [reflexivity|].
    pose proof (StyleFacts.style_matches _ _ _ _ Hr) as Hall.
    pose proof (StyleFacts.organize_texts_keys st) as Hkeys.
    split.
    + apply Forall_map. eapply Forall_impl; [|exact Hall].
      intros mt (Hsim & Hne & H1 & H2). exists mt. cbn.
      repeat split; try assumption; try (apply Hkeys; assumption).
      * intro H. destruct (Qlt_bool 0.85 _) eqn:E; [|discriminate H].
        apply Qlt_bool_iff, E.
      * intro H. apply Qlt_bool_iff in H. rewrite H. reflexivity.
      * intro H. destruct (Qlt_bool 0.85 _) eqn:E; [discriminate H|].
        apply Qlt_bool_false_iff, E.
      * intro H. apply Qlt_bool_false_iff in H. rewrite H. reflexivity.
    + destruct (VectorFacts.style_scores _ _ _ r
                  (OwnerFacts.organize_texts_nodup st) Hr)
        as [Hnil|(Hfs & sim & Hsim & Hsc)].
      * left. rewrite Hnil. reflexivity.
      * right. exists r, sim. split; [reflexivity|]. split; [exact Hfs|].
        split; [exact Hsim|]. apply Forall_map.
        eapply Forall_impl; [|exact Hsc].
        intros mt (i & j & Hij & H1 & H2 & H3). exists i, j. cbn.
        rewrite H1, H2, H3. auto.
  - exists []. cbn. rewrite app_nil_r. split; [reflexivity|].
    split; [constructor|left; reflexivity].
Qed.
